(** * Natal chart API: the chart computation engine of [index.js]

    A shallow embedding of the two variants of [index.js] (the structured
    request shape and the flat one) and the properties of sign lookup, house
    assignment, aspect detection, time parsing and the elemental and modal
    distributions.

    Numbers.  A finite JavaScript number is modelled by an exact rational
    ([Q]); where the source can produce [NaN] (conversions of strings,
    arithmetic on [undefined], counters on a missing key) the type [jsnum]
    adds it.  Comparisons, [Math.abs], [Math.floor], [%] and [toFixed(2)]
    are the exact operations on rationals.  Two things a double does are
    outside this reading: it rounds a numeral of more than fifteen
    significant digits, and it lets the quotient of a negative subnormal
    by 30 underflow to the negative zero.  The statements that depend on
    either keep away from them by a hypothesis ([exactDigits],
    [underflowGuard]).

    Requests.  [Flat.request] and [Structured.request] hold the bodies
    whose date and time fields are strings or missing; [FlatJson] and
    [StructuredJson] hold the bodies with any JSON value there, on which
    [split] throws, and their handlers agree with the former on the typed
    bodies ([flat_json_typed], [structured_json_typed]). *)

From Stdlib Require Import ZArith QArith Qround Qabs Qminmax Qreduction.
From Stdlib Require Import Lqa Lia List String Ascii Bool Permutation.
Import ListNotations.

Local Open Scope Q_scope.

(* ------------------------------------------------------------------ *)
(** ** JavaScript numbers *)

Module JsNum.

(** [x < y] on finite numbers. *)
Definition Qlt_bool (x y : Q) : bool := negb (Qle_bool y x).

(** Truncation toward zero, the integer quotient of [%]. *)
Definition Qtrunc (x : Q) : Z :=
  if Qle_bool 0 x then Qfloor x else Qceiling x.

(** [a % n]: the remainder has the sign of the dividend. *)
Definition jsmod (a n : Q) : Q := a - n * inject_Z (Qtrunc (a / n)).

(** Nearest multiple of 1/100 to a non-negative number, the larger one on
    a tie. *)
Definition round2 (y : Q) : Q :=
  Qred (inject_Z (Qfloor (y * 100 + (1 # 2))) / 100).

(** [+x.toFixed(2)]: [toFixed] rounds the magnitude and puts the sign
    back. *)
Definition toFixed2 (x : Q) : Q :=
  if Qlt_bool x 0 then - round2 (- x) else round2 x.

(** A number that may be [NaN]. *)
Inductive jsnum : Type :=
| Fin (q : Q)
| NaN.

Definition jsadd (a b : jsnum) : jsnum :=
  match a, b with Fin x, Fin y => Fin (x + y) | _, _ => NaN end.
Definition jssub (a b : jsnum) : jsnum :=
  match a, b with Fin x, Fin y => Fin (x - y) | _, _ => NaN end.
Definition jsmul (a b : jsnum) : jsnum :=
  match a, b with Fin x, Fin y => Fin (x * y) | _, _ => NaN end.
(** Division by a non-zero constant (the source divides by 60 only). *)
Definition jsdiv (a : jsnum) (d : Q) : jsnum :=
  match a with Fin x => Fin (x / d) | NaN => NaN end.

(** Comparison with an operand that may be [undefined]: [undefined]
    converts to [NaN] and every comparison with it is false. *)
Definition lt_u (a b : option Q) : bool :=
  match a, b with Some x, Some y => Qlt_bool x y | _, _ => false end.
Definition ge_u (a b : option Q) : bool :=
  match a, b with Some x, Some y => Qle_bool y x | _, _ => false end.

End JsNum.
Import JsNum.

(* ------------------------------------------------------------------ *)
(** ** Static tables *)

Local Open Scope string_scope.

Definition SIGNS : list string :=
  [ "Aries"; "Taurus"; "Gemini"; "Cancer"; "Leo"; "Virgo";
    "Libra"; "Scorpio"; "Sagittarius"; "Capricorn"; "Aquarius"; "Pisces" ].

(* ------------------------------------------------------------------ *)
(** ** PositionResolver *)

(** [getSign]: [SIGNS[Math.floor(degree / 30)]]; an index outside the array
    reads [undefined] ([None]).  The floor is the exact one: a negative
    degree gives a negative index (the doubles below [- underflowGuard] do
    so in the source too). *)
Definition signIndex (degree : Q) : Z := Qfloor (degree / 30).

Definition getSign (degree : Q) : option string :=
  let i := signIndex degree in
  if (i <? 0)%Z then None else nth_error SIGNS (Z.to_nat i).

(** [getDegreeInSign]: [+(degree % 30).toFixed(2)]. *)
Definition getDegreeInSign (degree : Q) : Q := toFixed2 (jsmod degree 30).

(** The body of the house loop for one [h]: does house [h] contain
    [absDegree]?  [start = cusps[h-1]], [end = cusps[h % 12]]. *)
Definition houseContains (cusps : list Q) (absDegree : Q) (h : nat) : bool :=
  let start := nth_error cusps (h - 1) in
  let end_ := nth_error cusps (h mod 12) in
  if lt_u start end_
  then ge_u (Some absDegree) start && lt_u (Some absDegree) end_
  else ge_u (Some absDegree) start || lt_u (Some absDegree) end_.

(** [for (let h = 1; h <= 12; h++) { ... house = h; break; }] over the
    remaining values of [h]. *)
Fixpoint houseScan (cusps : list Q) (absDegree : Q) (hs : list nat)
  : option nat :=
  match hs with
  | [] => None
  | h :: rest =>
      if houseContains cusps absDegree h then Some h
      else houseScan cusps absDegree rest
  end.

(** [let house = null; if (cusps) { for ... }]. *)
Definition houseOf (cusps : option (list Q)) (absDegree : Q) : option nat :=
  match cusps with
  | None => None
  | Some c => houseScan c absDegree (seq 1 12)
  end.

(* ------------------------------------------------------------------ *)
(** ** AspectDetector *)

Record aspectType : Type := mkAspectType
  { at_type : string; at_angle : Q; at_orb : Q }.

Definition aspectTypes : list aspectType :=
  [ mkAspectType "Conjunction" 0 8;
    mkAspectType "Opposition" 180 8;
    mkAspectType "Trine" 120 8;
    mkAspectType "Square" 90 8;
    mkAspectType "Sextile" 60 6 ].

(** [let diff = Math.abs(a - b); if (diff > 180) diff = 360 - diff;] *)
Definition separation (a b : Q) : Q :=
  let diff := Qabs (a - b) in
  if Qlt_bool 180 diff then 360 - diff else diff.

(** [Math.abs(diff - asp.angle) <= asp.orb] *)
Definition aspectMatches (diff : Q) (asp : aspectType) : bool :=
  Qle_bool (Qabs (diff - at_angle asp)) (at_orb asp).

Record aspect : Type := mkAspect
  { a_type : string; a_between : string * string; a_orb : Q }.

(** The inner [for (const asp of aspectTypes)] loop for one pair. *)
Definition pairAspects (k1 k2 : string) (a b : option Q) : list aspect :=
  match a, b with
  | Some a, Some b =>
      let diff := separation a b in
      map (fun asp =>
             mkAspect (at_type asp) (k1, k2)
                      (toFixed2 (Qabs (diff - at_angle asp))))
          (filter (aspectMatches diff) aspectTypes)
  | _, _ => []
  end.

(* ------------------------------------------------------------------ *)
(** ** Objects used as maps

    A JavaScript object with string keys is a list of key/value pairs in
    insertion order, which is the order of [Object.keys] and of [for ... in]
    for the keys the program uses (none is an array index).  The keys of an
    object are distinct; theorems that need it assume [NoDup (keys o)]. *)

Module JsObj.

Definition obj (A : Type) : Type := list (string * A).

Definition keys {A : Type} (o : obj A) : list string := map fst o.

(** Own property read. *)
Fixpoint get {A : Type} (o : obj A) (k : string) : option A :=
  match o with
  | [] => None
  | (k', v) :: rest => if String.eqb k k' then Some v else get rest k
  end.

(** Property write: an existing key keeps its place, a new one goes last. *)
Fixpoint set {A : Type} (o : obj A) (k : string) (v : A) : obj A :=
  match o with
  | [] => [(k, v)]
  | (k', v') :: rest =>
      if String.eqb k k' then (k', v) :: rest else (k', v') :: set rest k v
  end.

End JsObj.
Import JsObj.

(** A position object.  The flat variant builds
    [{ sign, degree, house, absDegree }] and later deletes [absDegree]; the
    structured variant builds [{ sign, degree, house, retrograde }] and, for
    the aspect pass, [{ absDegree }].  A field that is absent, [undefined] or
    [null] is [None]. *)
Record position : Type := mkPosition
  { p_sign : option string;
    p_degree : option Q;
    p_house : option nat;
    p_absDegree : option Q;
    p_retrograde : option bool }.

(** [getAspects]: the loops [for i] / [for j = i + 1] over
    [Object.keys(positions)]; [positions[keys[i]]] is the entry at place
    [i]. *)
Fixpoint getAspects (positions : obj position) : list aspect :=
  match positions with
  | [] => []
  | (ki, pi) :: rest =>
      flat_map (fun e : string * position =>
                  pairAspects ki (fst e) (p_absDegree pi) (p_absDegree (snd e)))
               rest
      ++ getAspects rest
  end.

(* ------------------------------------------------------------------ *)
(** ** DistributionAggregator *)

Definition ELEMENTS : obj string :=
  [ ("Aries", "Fire"); ("Leo", "Fire"); ("Sagittarius", "Fire");
    ("Taurus", "Earth"); ("Virgo", "Earth"); ("Capricorn", "Earth");
    ("Gemini", "Air"); ("Libra", "Air"); ("Aquarius", "Air");
    ("Cancer", "Water"); ("Scorpio", "Water"); ("Pisces", "Water") ].

Definition MODES : obj string :=
  [ ("Aries", "Cardinal"); ("Cancer", "Cardinal"); ("Libra", "Cardinal");
    ("Capricorn", "Cardinal");
    ("Taurus", "Fixed"); ("Leo", "Fixed"); ("Scorpio", "Fixed");
    ("Aquarius", "Fixed");
    ("Gemini", "Mutable"); ("Virgo", "Mutable"); ("Sagittarius", "Mutable");
    ("Pisces", "Mutable") ].

(** [ELEMENTS] and [MODES] are object literals, so a read [table[k]] that
    finds no own property goes on to [Object.prototype].  These are its
    property names; each holds a function, except [__proto__], whose getter
    returns [Object.prototype] itself. *)
Definition ObjectPrototype : list string :=
  [ "constructor"; "__proto__"; "hasOwnProperty"; "isPrototypeOf";
    "propertyIsEnumerable"; "toLocaleString"; "toString"; "valueOf";
    "__defineGetter__"; "__defineSetter__"; "__lookupGetter__";
    "__lookupSetter__" ].

(** The value of a table read. *)
Inductive tableValue : Type :=
| TUndefined
| TString (s : string)
| TInherited (name : string).

Definition tableGet (table : obj string) (k : string) : tableValue :=
  match get table k with
  | Some v => TString v
  | None =>
      if existsb (String.eqb k) ObjectPrototype then TInherited k
      else TUndefined
  end.

Definition truthyString (s : string) : bool := negb (String.eqb s "").

Definition truthy (v : tableValue) : bool :=
  match v with
  | TUndefined => false
  | TString s => truthyString s
  | TInherited _ => true
  end.

(** The property key a value converts to when it indexes [dist]: a string
    is itself, a function is its source text and [Object.prototype] is
    ["[object Object]"]. *)
Definition toPropertyKey (v : tableValue) : string :=
  match v with
  | TUndefined => "undefined"
  | TString s => s
  | TInherited name =>
      if String.eqb name "__proto__" then "[object Object]"
      else if String.eqb name "constructor"
           then "function Object() { [native code] }"
           else "function " ++ name ++ "() { [native code] }"
  end.

(** [dist[key]] as a number: a key [dist] does not have reads [undefined],
    which converts to [NaN]. *)
Definition count (dist : obj jsnum) (key : string) : jsnum :=
  match get dist key with
  | Some n => n
  | None => NaN
  end.

(** [dist[key]++] *)
Definition increment (dist : obj jsnum) (key : string) : obj jsnum :=
  set dist key (jsadd (count dist key) (Fin 1)).

(** The loop body shared by the two distribution functions:
    [if (positions[planet].sign && TABLE[positions[planet].sign])
       dist[TABLE[positions[planet].sign]]++]. *)
Definition tally (table : obj string) (dist : obj jsnum)
                 (entry : string * position) : obj jsnum :=
  match p_sign (snd entry) with
  | None => dist
  | Some s =>
      if truthyString s && truthy (tableGet table s)
      then increment dist (toPropertyKey (tableGet table s))
      else dist
  end.

Definition getElementalDistribution (positions : obj position) : obj jsnum :=
  fold_left (tally ELEMENTS) positions
            [ ("Fire", Fin 0); ("Water", Fin 0); ("Earth", Fin 0);
              ("Air", Fin 0) ].

Definition getModalDistribution (positions : obj position) : obj jsnum :=
  fold_left (tally MODES) positions
            [ ("Cardinal", Fin 0); ("Fixed", Fin 0); ("Mutable", Fin 0) ].

(* ------------------------------------------------------------------ *)
(** ** Strings: [split], [Number], [parseFloat] and the two patterns *)

Module JsStr.

Definition isDigit (c : ascii) : bool :=
  let n := nat_of_ascii c in (48 <=? n)%nat && (n <=? 57)%nat.

Definition digitVal (c : ascii) : Z := (Z.of_nat (nat_of_ascii c) - 48)%Z.

Fixpoint digitsAcc (acc : Z) (s : string) : Z :=
  match s with
  | EmptyString => acc
  | String c r => digitsAcc (10 * acc + digitVal c)%Z r
  end.

(** [\d*] *)
Fixpoint allDigits (s : string) : bool :=
  match s with
  | EmptyString => true
  | String c r => isDigit c && allDigits r
  end.

(** [\d+] *)
Definition isDigits (s : string) : bool :=
  negb (String.eqb s "") && allDigits s.

(** [s.split(sep)] for a one-character separator. *)
Fixpoint split (sep : ascii) (s : string) : list string :=
  match s with
  | EmptyString => [""]
  | String c r =>
      if Ascii.eqb c sep then "" :: split sep r
      else match split sep r with
           | h :: t => String c h :: t
           | [] => [String c ""]
           end
  end.

(** The value of [int.frac], both strings of digits. *)
Definition decimalValue (int frac : string) : Q :=
  inject_Z (digitsAcc 0 int)
  + Qmake (digitsAcc 0 frac) (Z.to_pos (10 ^ Z.of_nat (String.length frac))).

(** [digits], [digits.], [digits.digits] and [.digits]. *)
Definition unsignedDecimal (s : string) : jsnum :=
  match split "." s with
  | [i] => if isDigits i then Fin (decimalValue i "") else NaN
  | [i; f] =>
      if allDigits i && allDigits f
         && negb (String.eqb i "" && String.eqb f "")
      then Fin (decimalValue i f) else NaN
  | _ => NaN
  end.

Definition signedDecimal (s : string) : jsnum :=
  match s with
  | String "+" r => unsignedDecimal r
  | String "-" r => jsmul (Fin (-1)) (unsignedDecimal r)
  | _ => unsignedDecimal s
  end.

Definition isWhite (c : ascii) : bool :=
  let n := nat_of_ascii c in
  ((9 <=? n)%nat && (n <=? 13)%nat) || (n =? 32)%nat.

Fixpoint trimStart (s : string) : string :=
  match s with
  | EmptyString => ""
  | String c r => if isWhite c then trimStart r else s
  end.

Fixpoint trimEnd (s : string) : string :=
  match s with
  | EmptyString => ""
  | String c r =>
      let r' := trimEnd r in
      if isWhite c && String.eqb r' "" then "" else String c r'
  end.

(** [Number(s)] on the decimal literals: white space around the literal
    is dropped, the empty string is 0, and a signed decimal literal has
    its value.  The other literals [Number] reads (an exponent part, the
    [0x]/[0o]/[0b] forms, [Infinity]) are outside this model, which
    gives them [NaN] as it does to text that is no number.  The value is
    the number written; it is the value of the source for the numerals a
    double holds exactly, among them every string of at most fifteen
    digits. *)
Definition Number (s : string) : jsnum :=
  let t := trimEnd (trimStart s) in
  if String.eqb t "" then Fin 0 else signedDecimal t.

(** [/^[+-]\d{2}:\d{2}$/.test(s)] *)
Definition isOffsetHHMM (s : string) : bool :=
  match list_ascii_of_string s with
  | [sg; a; b; c; d; e] =>
      (Ascii.eqb sg "+" || Ascii.eqb sg "-")
      && isDigit a && isDigit b && Ascii.eqb c ":" && isDigit d && isDigit e
  | _ => false
  end.

(** [/^[+-]?\d+(\.\d+)?$/.test(s)] *)
Definition isDecimalHours (s : string) : bool :=
  let body := match s with
              | String "+" r => r
              | String "-" r => r
              | _ => s
              end in
  match split "." body with
  | [i] => isDigits i
  | [i; f] => isDigits i && isDigits f
  | _ => false
  end.

(** [parseFloat(s)].  The source calls it only on a string the pattern
    above accepts, where it reads the whole string; on any other string
    the model gives [NaN]. *)
Definition parseFloat (s : string) : jsnum :=
  if isDecimalHours s then signedDecimal s else NaN.

(** [s.slice(1)] *)
Definition slice1 (s : string) : string :=
  match s with
  | EmptyString => ""
  | String _ r => r
  end.

(** [s[0] === c] *)
Definition firstIs (s : string) (c : ascii) : bool :=
  match s with
  | EmptyString => false
  | String c' _ => Ascii.eqb c' c
  end.

End JsStr.
Import JsStr.

(* ------------------------------------------------------------------ *)
(** ** TimeResolver *)

(** The [timezone] argument: a string, a number, or anything else
    ([undefined], [null], a boolean, an object). *)
Inductive tzValue : Type :=
| TzString (s : string)
| TzNumber (n : jsnum)
| TzOther.

(** An array element that may be missing converts to [NaN] in arithmetic. *)
Definition toNumber (v : option jsnum) : jsnum :=
  match v with
  | Some n => n
  | None => NaN
  end.

Record calendarMoment : Type := mkMoment
  { year : option jsnum;
    month : option jsnum;
    day : option jsnum;
    hour : jsnum }.

(** The value of the variable [offset] of [parseDateTime]. *)
Definition tzOffset (timezone : tzValue) : jsnum :=
  match timezone with
  | TzString tz =>
      if String.eqb tz "Z" then Fin 0
      else if isOffsetHHMM tz then
        let sign := if firstIs tz "-" then Fin (-1) else Fin 1 in
        let hm := map Number (split ":" (slice1 tz)) in
        let h := nth_error hm 0 in
        let m := nth_error hm 1 in
        jsmul sign (jsadd (toNumber h) (jsdiv (toNumber m) 60))
      else if isDecimalHours tz then parseFloat tz
      else Fin 0
  | TzNumber n => n
  | TzOther => Fin 0
  end.

(** [hh + mm / 60], the local decimal hour. *)
Definition localHour (time : string) : jsnum :=
  let t := map Number (split ":" time) in
  jsadd (toNumber (nth_error t 0)) (jsdiv (toNumber (nth_error t 1)) 60).

Definition parseDateTime (date time : string) (timezone : tzValue)
  : calendarMoment :=
  let d := map Number (split "-" date) in
  {| year := nth_error d 0;
     month := nth_error d 1;
     day := nth_error d 2;
     hour := jssub (localHour time) (tzOffset timezone) |}.

(** [n] is the finite number [q]. *)
Definition numIs (n : jsnum) (q : Q) : Prop :=
  match n with
  | Fin x => x == q
  | NaN => False
  end.

(* ------------------------------------------------------------------ *)
(** ** EphemerisGateway

    The Swiss Ephemeris binding is an external collaborator.  Its three
    entry points are the fields of an [ephemeris]; each is a function of its
    arguments, and the callbacks of the source receive its value.  The
    position query is taken to answer with a longitude and a speed, as its
    contract says. *)

Inductive body : Type :=
| SE_SUN | SE_MOON | SE_MERCURY | SE_VENUS | SE_MARS | SE_JUPITER
| SE_SATURN | SE_URANUS | SE_NEPTUNE | SE_PLUTO | SE_CHIRON | SE_TRUE_NODE.

Record planet : Type := mkPlanet { pl_name : string; pl_swe : body }.

Definition PLANETS : list planet :=
  [ mkPlanet "Sun" SE_SUN; mkPlanet "Moon" SE_MOON;
    mkPlanet "Mercury" SE_MERCURY; mkPlanet "Venus" SE_VENUS;
    mkPlanet "Mars" SE_MARS; mkPlanet "Jupiter" SE_JUPITER;
    mkPlanet "Saturn" SE_SATURN; mkPlanet "Uranus" SE_URANUS;
    mkPlanet "Neptune" SE_NEPTUNE; mkPlanet "Pluto" SE_PLUTO;
    mkPlanet "Chiron" SE_CHIRON; mkPlanet "North Node" SE_TRUE_NODE ].

(** The result of [swe_calc_ut]. *)
Record calcResult : Type := mkCalc { longitude : Q; speed : Q }.

(** What [swe_houses] hands to its callback, in either slot.  The auxiliary
    angles ([armc], [vertex], ...) are copied into the response and read by
    nothing else; they are left out. *)
Record housesRaw : Type := mkRaw
  { r_ascendant : option Q;
    r_mc : option Q;
    r_ascmc : option (list Q);
    r_cusps : option (list Q);
    r_house : option (list Q) }.

Record ephemeris : Type := mkEphemeris
  { JD : Type;
    swe_julday : option jsnum -> option jsnum -> option jsnum -> jsnum -> JD;
    swe_calc_ut : JD -> body -> calcResult;
    (** the pair [(err, result)] of the callback *)
    swe_houses : JD -> Q -> Q -> string -> option housesRaw * option housesRaw }.

(** The object [getHousesWithError] resolves to, in the shape of either
    variant: [{ ascendant, midheaven, cusps, warning }] or
    [{ error, detail }]. *)
Record housesData : Type := mkHouses
  { hd_ascendant : option Q;
    hd_midheaven : option Q;
    hd_cusps : option (list Q);
    hd_warning : option housesRaw;
    hd_error : option string;
    hd_detail : option housesRaw }.

(** [a || b]: an array or object is truthy whenever it is there. *)
Definition orElse {A : Type} (a b : option A) : option A :=
  match a with
  | Some _ => a
  | None => b
  end.

(** [a || b] on numbers: 0 is falsy. *)
Definition orNum (a b : option Q) : option Q :=
  match a with
  | Some x => if Qeq_bool x 0 then b else a
  | None => b
  end.

(** [name.replace('North Node', 'NorthNode')]; no other name of [PLANETS]
    contains the pattern. *)
Definition replaceNorthNode (name : string) : string :=
  if String.eqb name "North Node" then "NorthNode" else name.

(** A handler either sends a response or, on an exception, status 500. *)
Inductive outcome (A : Type) : Type :=
| Ok (a : A)
| Error500.
Arguments Ok {A} a.
Arguments Error500 {A}.

(** [parseDateTime] on request fields: [date.split] and [time.split] throw
    on [undefined]. *)
Definition parseDateTimeFields (date time : option string) (tz : tzValue)
  : outcome calendarMoment :=
  match date, time with
  | Some d, Some t => Ok (parseDateTime d t tz)
  | _, _ => Error500
  end.

(** Truthiness of a request field that holds a string. *)
Definition truthyField (s : option string) : bool :=
  match s with
  | Some s => truthyString s
  | None => false
  end.

Section Engine.

Variable E : ephemeris.

Definition toJulianDay (m : calendarMoment) : JD E :=
  swe_julday E (year m) (month m) (day m) (hour m).

Definition getPlanetPosition (jd : JD E) (p : body) : calcResult :=
  swe_calc_ut E jd p.

(** The cusps [getAllPositions] works with. *)
Definition cuspsOf (housesData : option housesData) : option (list Q) :=
  match housesData with
  | None => None
  | Some hd =>
      match hd_cusps hd with
      | Some c => Some c
      | None =>
          match hd_detail hd with
          | Some d => r_house d
          | None => None
          end
      end
  end.

Definition getAllPositions (jd : JD E) (housesData : option housesData)
  : obj position :=
  let cusps := cuspsOf housesData in
  fold_left
    (fun positions pl =>
       let res := getPlanetPosition jd (pl_swe pl) in
       let absDegree := longitude res in
       set positions (pl_name pl)
           {| p_sign := getSign absDegree;
              p_degree := Some (getDegreeInSign absDegree);
              p_house := houseOf cusps absDegree;
              p_absDegree := Some absDegree;
              p_retrograde := None |})
    PLANETS [].

(** [getTransits] calls [getAllPositions(jdTransit)]: no second
    argument. *)
Definition getTransits (jdNatal jdTransit : JD E) : obj position :=
  getAllPositions jdTransit None.

(** The position loop of the structured handler, used for the natal and
    for the transit planets with the same [houses]. *)
Definition positionsLoop (jd : JD E) (houses : option housesData)
                         (withRetro : bool) : obj position :=
  fold_left
    (fun positions pl =>
       let res := swe_calc_ut E jd (pl_swe pl) in
       let absDegree := longitude res in
       set positions (replaceNorthNode (pl_name pl))
           {| p_sign := getSign absDegree;
              p_degree := Some (toFixed2 (jsmod absDegree 30));
              p_house :=
                houseOf (match houses with
                         | Some hd => hd_cusps hd
                         | None => None
                         end) absDegree;
              p_absDegree := None;
              p_retrograde :=
                if withRetro then Some (Qlt_bool (speed res) 0) else None |})
    PLANETS [].

(** [natalAbs] / [transitAbs]: the longitudes, computed again for each
    key of the positions object that names a planet. *)
Definition absLoop (jd : JD E) (positions : obj position) : obj position :=
  fold_left
    (fun acc k =>
       match find (fun p => String.eqb (replaceNorthNode (pl_name p)) k)
                  PLANETS with
       | Some p =>
           set acc k
               {| p_sign := None; p_degree := None; p_house := None;
                  p_absDegree := Some (longitude (swe_calc_ut E jd (pl_swe p)));
                  p_retrograde := None |}
       | None => acc
       end)
    (keys positions) [].

(** The [aspects_to_natal] loops. *)
Definition aspectsToNatal (natalAbs transitAbs : obj position)
  : list aspect :=
  flat_map
    (fun n : string * position =>
       flat_map
         (fun t : string * position =>
            pairAspects ("Natal " ++ fst n) ("Transit " ++ fst t)
                        (p_absDegree (snd n)) (p_absDegree (snd t)))
         transitAbs)
    natalAbs.

End Engine.

(* ------------------------------------------------------------------ *)
(** ** The handler of the structured variant

    The [meta] part of the response echoes the request and is left out. *)

Module Structured.

Record location : Type := mkLocation
  { loc_lat : option Q; loc_lon : option Q }.

Record birthData : Type := mkBirth
  { b_date : option string;
    b_time : option string;
    b_timezone : tzValue;
    b_location : option location }.

Record chartSettings : Type := mkSettings { house_system : option string }.

Record transitChart : Type := mkTransitChart
  { tc_date : option string; tc_time : option string; tc_timezone : tzValue }.

(** [req.body]: the structured fields and the legacy flat ones the
    handler falls back to. *)
Record request : Type := mkRequest
  { birth : option birthData;
    chart_settings : option chartSettings;
    transit_chart : option transitChart;
    body_date : option string;
    body_time : option string;
    body_timezone : tzValue;
    body_lat : option Q;
    body_lon : option Q;
    body_hsys : option string }.

Record angle : Type := mkAngle { an_sign : option string; an_degree : Q }.

Record natalChart : Type := mkNatal
  { ascendant : option angle;
    midheaven : option angle;
    houses : option (list Q);
    planets : obj position;
    aspects : list aspect }.

Record transitResult : Type := mkTransit
  { tr_date : option string;
    tr_planets : obj position;
    aspects_to_natal : list aspect }.

Record response : Type := mkResponse
  { natal_chart : natalChart; transit_result : option transitResult }.

Section Handler.

Variable E : ephemeris.

(** [const data = result || err; ...] *)
Definition getHousesWithError (jd : JD E) (lat lon : Q) (hsys : string)
  : housesData :=
  let (err, result) := swe_houses E jd lat lon hsys in
  let data := orElse result err in
  let ascmc := match data with
               | Some d => match r_ascmc d with Some l => l | None => [] end
               | None => []
               end in
  let field {A : Type} (f : housesRaw -> option A) : option A :=
    match data with Some d => f d | None => None end in
  {| hd_ascendant := orNum (field r_ascendant) (nth_error ascmc 0);
     hd_midheaven := orNum (field r_mc) (nth_error ascmc 1);
     hd_cusps := orElse (field r_cusps) (field r_house);
     hd_warning := match err, result with
                   | Some e, Some _ => Some e
                   | _, _ => None
                   end;
     hd_error := None;
     hd_detail := None |}.

Definition emptyBirth : birthData := mkBirth None None TzOther None.

(** [birth || {}], then the fallback to the flat fields. *)
Definition birthDataOf (req : request) : birthData :=
  let b := match birth req with Some b => b | None => emptyBirth end in
  if negb (truthyField (b_date b)) && truthyField (body_date req)
  then mkBirth (body_date req) (body_time req) (body_timezone req)
               (Some (mkLocation (body_lat req) (body_lon req)))
  else b.

(** [(chart_settings && chart_settings.house_system) || req.body.hsys
    || 'P'] *)
Definition hsysOf (req : request) : string :=
  let cs := match chart_settings req with
            | Some c => house_system c
            | None => None
            end in
  match cs with
  | Some s =>
      if truthyString s then s
      else match body_hsys req with
           | Some h => if truthyString h then h else "P"
           | None => "P"
           end
  | None =>
      match body_hsys req with
      | Some h => if truthyString h then h else "P"
      | None => "P"
      end
  end.

(** [birthData.location?.lat ?? req.body.lat] *)
Definition coordOf (proj : location -> option Q) (b : birthData)
                   (fallback : option Q) : option Q :=
  match b_location b with
  | Some l => match proj l with Some x => Some x | None => fallback end
  | None => fallback
  end.

Definition angleOf (deg : option Q) : option angle :=
  match deg with
  | Some d => Some (mkAngle (getSign d) (toFixed2 (jsmod d 30)))
  | None => None
  end.

(** The transit block, run when
    [transit_chart && transit_chart.date && transit_chart.time]. *)
Definition transitPass (houses : option housesData)
                       (natalAbs : obj position) (tc : transitChart)
  : outcome transitResult :=
  match parseDateTimeFields (tc_date tc) (tc_time tc) (tc_timezone tc) with
  | Error500 => Error500
  | Ok transitDT =>
      let jdTransit := toJulianDay E transitDT in
      let transitPositions := positionsLoop E jdTransit houses false in
      let transitAbs := absLoop E jdTransit transitPositions in
      Ok (mkTransit (tc_date tc) transitPositions
                    (aspectsToNatal natalAbs transitAbs))
  end.

Definition natalChartHandler (req : request) : outcome response :=
  let birthData := birthDataOf req in
  let hsys := hsysOf req in
  match parseDateTimeFields (b_date birthData) (b_time birthData)
                            (b_timezone birthData) with
  | Error500 => Error500
  | Ok birthDT =>
      let jd := toJulianDay E birthDT in
      let lat := coordOf loc_lat birthData (body_lat req) in
      let lon := coordOf loc_lon birthData (body_lon req) in
      let houses := match lat, lon with
                    | Some la, Some lo =>
                        Some (getHousesWithError jd la lo hsys)
                    | _, _ => None
                    end in
      let natalPositions := positionsLoop E jd houses true in
      let cusps := match houses with
                   | Some hd => hd_cusps hd
                   | None => None
                   end in
      let natalAbs := absLoop E jd natalPositions in
      let natal :=
        mkNatal
          (angleOf (match houses with
                    | Some hd => hd_ascendant hd
                    | None => None
                    end))
          (angleOf (match houses with
                    | Some hd => hd_midheaven hd
                    | None => None
                    end))
          (match cusps with
           | Some c => Some (map toFixed2 c)
           | None => None
           end)
          natalPositions
          (getAspects natalAbs) in
      match transit_chart req with
      | Some tc =>
          if truthyField (tc_date tc) && truthyField (tc_time tc)
          then match transitPass houses natalAbs tc with
               | Ok t => Ok (mkResponse natal (Some t))
               | Error500 => Error500
               end
          else Ok (mkResponse natal None)
      | None => Ok (mkResponse natal None)
      end
  end.

End Handler.

End Structured.

(* ------------------------------------------------------------------ *)
(** ** The handler of the flat variant *)

Module Flat.

Record request : Type := mkRequest
  { date : option string;
    time : option string;
    lat : option Q;
    lon : option Q;
    transit_date : option string;
    transit_time : option string;
    hsys : option string;
    timezone : tzValue;
    transit_timezone : tzValue }.

(** [resultObj]: the spread positions, then the named fields. *)
Record response : Type := mkResponse
  { positions : obj position;
    aspects : list aspect;
    elemental_distribution : obj jsnum;
    modal_distribution : obj jsnum;
    houses : option housesData;
    transits : option (obj position) }.

(** [for (const k in o) delete o[k].absDegree] *)
Definition deleteAbsDegree (o : obj position) : obj position :=
  map (fun e : string * position =>
         (fst e,
          {| p_sign := p_sign (snd e);
             p_degree := p_degree (snd e);
             p_house := p_house (snd e);
             p_absDegree := None;
             p_retrograde := p_retrograde (snd e) |}))
      o.

Section Handler.

Variable E : ephemeris.

(** [hsys = 'P'] is the default of a missing argument. *)
Definition getHousesWithError (jd : JD E) (lat lon : Q)
                              (hsys : option string)
  : option housesData :=
  let hsys := match hsys with Some h => h | None => "P" end in
  let (err, result) := swe_houses E jd lat lon hsys in
  let failed := match err with
                | Some e =>
                    Some (mkHouses None None None None
                            (Some "Swiss Ephemeris internal error")
                            (Some e))
                | None => None
                end in
  match result with
  | Some r =>
      match orElse (r_cusps r) (r_house r) with
      | Some c =>
          let ascmc := r_ascmc r in
          let at_ (i : nat) : option Q :=
            match ascmc with
            | Some l => nth_error l i
            | None => None
            end in
          Some (mkHouses (orNum (r_ascendant r) (at_ 0%nat))
                         (orNum (r_mc r) (at_ 1%nat))
                         (Some c) err None None)
      | None => failed
      end
  | None => failed
  end.

Definition natalChartHandler (req : request) : outcome response :=
  match parseDateTimeFields (date req) (time req) (timezone req) with
  | Error500 => Error500
  | Ok birth =>
      let jd := toJulianDay E birth in
      let houses := match lat req, lon req with
                    | Some la, Some lo =>
                        getHousesWithError jd la lo (hsys req)
                    | _, _ => None
                    end in
      let positions := getAllPositions E jd houses in
      let aspects := getAspects positions in
      let elemental := getElementalDistribution positions in
      let modal := getModalDistribution positions in
      let finish (transits : option (obj position)) : response :=
        mkResponse (deleteAbsDegree positions) aspects elemental modal
                   houses
                   (match transits with
                    | Some t => Some (deleteAbsDegree t)
                    | None => None
                    end) in
      if truthyField (transit_date req) && truthyField (transit_time req)
      then match parseDateTimeFields (transit_date req) (transit_time req)
                                     (transit_timezone req) with
           | Error500 => Error500
           | Ok transit =>
               let jdTransit := toJulianDay E transit in
               Ok (finish (Some (getTransits E jd jdTransit)))
           end
      else Ok (finish None)
  end.

End Handler.

End Flat.

(* ------------------------------------------------------------------ *)
(** ** The handlers on any JSON body

    The records [Flat.request] and [Structured.request] hold the bodies
    whose date and time fields are strings or missing.  A client may send
    any JSON value there.  The handlers use such a field in two ways: in a
    truthiness test, and as the receiver of [split] in [parseDateTime],
    which throws a [TypeError] on every value that is no string.  A
    [jsonField] keeps what these two uses see of the value.  The
    coordinates and the house system are handed to the ephemeris and stay
    typed as its entry points take them. *)

Inductive jsonField : Type :=
| JAbsent                   (* no such field, or [null] *)
| JString (s : string)
| JOther (truthy : bool).   (* a number, a boolean, an array, an object *)

Definition truthyJson (v : jsonField) : bool :=
  match v with
  | JAbsent => false
  | JString s => truthyString s
  | JOther t => t
  end.

(** [parseDateTime] on fields of the body: [date.split] and [time.split]
    throw on [undefined], on [null] and on every value that has no method
    [split]. *)
Definition parseDateTimeJson (date time : jsonField) (tz : tzValue)
  : outcome calendarMoment :=
  match date, time with
  | JString d, JString t => Ok (parseDateTime d t tz)
  | _, _ => Error500
  end.

(** A field that is a string or missing, as a field of the body, and
    back. *)
Definition fieldOf (s : option string) : jsonField :=
  match s with
  | Some s => JString s
  | None => JAbsent
  end.

Definition stringOf (v : jsonField) : option string :=
  match v with
  | JString s => Some s
  | _ => None
  end.

Module FlatJson.

Record request : Type := mkRequest
  { date : jsonField;
    time : jsonField;
    lat : option Q;
    lon : option Q;
    transit_date : jsonField;
    transit_time : jsonField;
    hsys : option string;
    timezone : tzValue;
    transit_timezone : tzValue }.

Section Handler.

Variable E : ephemeris.

Definition natalChartHandler (req : request) : outcome Flat.response :=
  match parseDateTimeJson (date req) (time req) (timezone req) with
  | Error500 => Error500
  | Ok birth =>
      let jd := toJulianDay E birth in
      let houses := match lat req, lon req with
                    | Some la, Some lo =>
                        Flat.getHousesWithError E jd la lo (hsys req)
                    | _, _ => None
                    end in
      let positions := getAllPositions E jd houses in
      let aspects := getAspects positions in
      let elemental := getElementalDistribution positions in
      let modal := getModalDistribution positions in
      let finish (transits : option (obj position)) : Flat.response :=
        Flat.mkResponse (Flat.deleteAbsDegree positions) aspects elemental
                        modal houses
                        (match transits with
                         | Some t => Some (Flat.deleteAbsDegree t)
                         | None => None
                         end) in
      if truthyJson (transit_date req) && truthyJson (transit_time req)
      then match parseDateTimeJson (transit_date req) (transit_time req)
                                   (transit_timezone req) with
           | Error500 => Error500
           | Ok transit =>
               let jdTransit := toJulianDay E transit in
               Ok (finish (Some (getTransits E jd jdTransit)))
           end
      else Ok (finish None)
  end.

End Handler.

(** The body of a typed request. *)
Definition ofTyped (req : Flat.request) : request :=
  mkRequest (fieldOf (Flat.date req)) (fieldOf (Flat.time req))
            (Flat.lat req) (Flat.lon req)
            (fieldOf (Flat.transit_date req))
            (fieldOf (Flat.transit_time req))
            (Flat.hsys req) (Flat.timezone req) (Flat.transit_timezone req).

End FlatJson.

Module StructuredJson.

Record birthData : Type := mkBirth
  { b_date : jsonField;
    b_time : jsonField;
    b_timezone : tzValue;
    b_location : option Structured.location }.

Record transitChart : Type := mkTransitChart
  { tc_date : jsonField; tc_time : jsonField; tc_timezone : tzValue }.

Record request : Type := mkRequest
  { birth : option birthData;
    chart_settings : option Structured.chartSettings;
    transit_chart : option transitChart;
    body_date : jsonField;
    body_time : jsonField;
    body_timezone : tzValue;
    body_lat : option Q;
    body_lon : option Q;
    body_hsys : option string }.

Section Handler.

Variable E : ephemeris.

Definition emptyBirth : birthData := mkBirth JAbsent JAbsent TzOther None.

(** [birth || {}], then the fallback to the flat fields. *)
Definition birthDataOf (req : request) : birthData :=
  let b := match birth req with Some b => b | None => emptyBirth end in
  if negb (truthyJson (b_date b)) && truthyJson (body_date req)
  then mkBirth (body_date req) (body_time req) (body_timezone req)
               (Some (Structured.mkLocation (body_lat req) (body_lon req)))
  else b.

Definition hsysOf (req : request) : string :=
  let cs := match chart_settings req with
            | Some c => Structured.house_system c
            | None => None
            end in
  match cs with
  | Some s =>
      if truthyString s then s
      else match body_hsys req with
           | Some h => if truthyString h then h else "P"
           | None => "P"
           end
  | None =>
      match body_hsys req with
      | Some h => if truthyString h then h else "P"
      | None => "P"
      end
  end.

Definition coordOf (proj : Structured.location -> option Q) (b : birthData)
                   (fallback : option Q) : option Q :=
  match b_location b with
  | Some l => match proj l with Some x => Some x | None => fallback end
  | None => fallback
  end.

Definition transitPass (houses : option housesData)
                       (natalAbs : obj position) (tc : transitChart)
  : outcome Structured.transitResult :=
  match parseDateTimeJson (tc_date tc) (tc_time tc) (tc_timezone tc) with
  | Error500 => Error500
  | Ok transitDT =>
      let jdTransit := toJulianDay E transitDT in
      let transitPositions := positionsLoop E jdTransit houses false in
      let transitAbs := absLoop E jdTransit transitPositions in
      Ok (Structured.mkTransit (stringOf (tc_date tc)) transitPositions
                               (aspectsToNatal natalAbs transitAbs))
  end.

Definition natalChartHandler (req : request)
  : outcome Structured.response :=
  let birthData := birthDataOf req in
  let hsys := hsysOf req in
  match parseDateTimeJson (b_date birthData) (b_time birthData)
                          (b_timezone birthData) with
  | Error500 => Error500
  | Ok birthDT =>
      let jd := toJulianDay E birthDT in
      let lat := coordOf Structured.loc_lat birthData (body_lat req) in
      let lon := coordOf Structured.loc_lon birthData (body_lon req) in
      let houses := match lat, lon with
                    | Some la, Some lo =>
                        Some (Structured.getHousesWithError E jd la lo hsys)
                    | _, _ => None
                    end in
      let natalPositions := positionsLoop E jd houses true in
      let cusps := match houses with
                   | Some hd => hd_cusps hd
                   | None => None
                   end in
      let natalAbs := absLoop E jd natalPositions in
      let natal :=
        Structured.mkNatal
          (Structured.angleOf (match houses with
                               | Some hd => hd_ascendant hd
                               | None => None
                               end))
          (Structured.angleOf (match houses with
                               | Some hd => hd_midheaven hd
                               | None => None
                               end))
          (match cusps with
           | Some c => Some (map toFixed2 c)
           | None => None
           end)
          natalPositions
          (getAspects natalAbs) in
      match transit_chart req with
      | Some tc =>
          if truthyJson (tc_date tc) && truthyJson (tc_time tc)
          then match transitPass houses natalAbs tc with
               | Ok t => Ok (Structured.mkResponse natal (Some t))
               | Error500 => Error500
               end
          else Ok (Structured.mkResponse natal None)
      | None => Ok (Structured.mkResponse natal None)
      end
  end.

End Handler.

(** The body of a typed request. *)
Definition ofTypedBirth (b : Structured.birthData) : birthData :=
  mkBirth (fieldOf (Structured.b_date b)) (fieldOf (Structured.b_time b))
          (Structured.b_timezone b) (Structured.b_location b).

Definition ofTypedTransit (tc : Structured.transitChart) : transitChart :=
  mkTransitChart (fieldOf (Structured.tc_date tc))
                 (fieldOf (Structured.tc_time tc))
                 (Structured.tc_timezone tc).

Definition ofTyped (req : Structured.request) : request :=
  mkRequest (option_map ofTypedBirth (Structured.birth req))
            (Structured.chart_settings req)
            (option_map ofTypedTransit (Structured.transit_chart req))
            (fieldOf (Structured.body_date req))
            (fieldOf (Structured.body_time req))
            (Structured.body_timezone req)
            (Structured.body_lat req) (Structured.body_lon req)
            (Structured.body_hsys req).

End StructuredJson.

(* ------------------------------------------------------------------ *)
(** ** Vocabulary of the statements and sample data *)






(** A position object that holds a longitude only. *)
Definition at_longitude (q : Q) : position :=
  mkPosition None None None (Some q) None.

(** A position object that holds a sign only. *)
Definition with_sign (s : string) : position :=
  mkPosition (Some s) None None None None.

(** Equal houses of 30 degrees from 20 degrees on; the twelfth wraps. *)
Definition sampleCusps : list Q :=
  [20; 50; 80; 110; 140; 170; 200; 230; 260; 290; 320; 350].

Definition elementalTotal (dist : obj jsnum) : jsnum :=
  jsadd (jsadd (jsadd (count dist "Fire") (count dist "Water"))
               (count dist "Earth"))
        (count dist "Air").

Definition modalTotal (dist : obj jsnum) : jsnum :=
  jsadd (jsadd (count dist "Cardinal") (count dist "Fixed"))
        (count dist "Mutable").

(** An entry whose sign is one of the twelve. *)
Definition zodiacHit (e : string * position) : bool :=
  match p_sign (snd e) with
  | Some s => existsb (String.eqb s) SIGNS
  | None => false
  end.

(** An entry that increments category [c] of table [T]. *)
Definition hits (T : obj string) (c : string) (e : string * position) : bool :=
  match p_sign (snd e) with
  | Some s =>
      truthyString s
      && match get T s with
         | Some v => String.eqb v c
         | None => false
         end
  | None => false
  end.

(** An entry whose sign is absent or is no property name of
    [Object.prototype]. *)
Definition plainSign (e : string * position) : bool :=
  match p_sign (snd e) with
  | Some s => negb (existsb (String.eqb s) ObjectPrototype)
  | None => true
  end.

(** Is [m] a match between the bodies [k1] and [k2], in either order? *)
Definition betweenPair (k1 k2 : string) (m : aspect) : bool :=
  (String.eqb (fst (a_between m)) k1 && String.eqb (snd (a_between m)) k2)
  || (String.eqb (fst (a_between m)) k2 && String.eqb (snd (a_between m)) k1).

(** The tolerance windows on a separation in [0,180]: each catalog entry
    [angle +- orb], cut to the range of the separation. *)
Definition windows : list (string * Q * Q) :=
  [ ("Conjunction", 0, 8); ("Sextile", 54, 66); ("Square", 82, 98);
    ("Trine", 112, 128); ("Opposition", 172, 180) ].

(** The categories of the two distributions. *)
Definition elementCats : list string := ["Fire"; "Water"; "Earth"; "Air"].
Definition modeCats : list string := ["Cardinal"; "Fixed"; "Mutable"].

(** The key the second body must have for a pair starting at [ki] to be the
    pair [k1], [k2]. *)
Definition partner (ki k1 k2 : string) : string :=
  if String.eqb ki k1 then k2 else k1.

(** A sample ephemeris: the time coordinate is the day of the month, body
    number [i] stands at [7 * day + 29 * i] degrees (reduced below 360) and
    moves forward, and the houses are [sampleCusps] whatever the place. *)
Definition bodyIndex (b : body) : Z :=
  match b with
  | SE_SUN => 0 | SE_MOON => 1 | SE_MERCURY => 2 | SE_VENUS => 3
  | SE_MARS => 4 | SE_JUPITER => 5 | SE_SATURN => 6 | SE_URANUS => 7
  | SE_NEPTUNE => 8 | SE_PLUTO => 9 | SE_CHIRON => 10 | SE_TRUE_NODE => 11
  end%Z.

Definition sampleEphemeris : ephemeris :=
  {| JD := jsnum;
     swe_julday := fun _ _ d _ => toNumber d;
     swe_calc_ut := fun jd b =>
       match jd with
       | Fin d => mkCalc (Qred (jsmod (7 * d + 29 * inject_Z (bodyIndex b)) 360)) 1
       | NaN => mkCalc 0 0
       end;
     swe_houses := fun _ _ _ _ =>
       (None, Some (mkRaw (Some 20) (Some 290) None (Some sampleCusps) None)) |}.

(** The same birth and transit moments in the two request shapes. *)
Definition sampleFlatRequest : Flat.request :=
  Flat.mkRequest (Some "2000-01-15") (Some "10:00") (Some 48) (Some 2)
                 (Some "2024-03-20") (Some "12:00") None
                 (TzString "+05:30") (TzString "Z").

Definition sampleStructuredRequest : Structured.request :=
  Structured.mkRequest
    (Some (Structured.mkBirth (Some "2000-01-15") (Some "10:00")
             (TzString "+05:30")
             (Some (Structured.mkLocation (Some 48) (Some 2)))))
    None
    (Some (Structured.mkTransitChart (Some "2024-03-20") (Some "12:00")
             (TzString "Z")))
    None None TzOther None None None.

(** The houses of the entries of a positions object, in order. *)
Definition housesOf (o : obj position) : list (option nat) :=
  map (fun e : string * position => p_house (snd e)) o.

(** The houses of the transit bodies in the response of each variant
    ([None] when the handler fails or sends no transit part). *)
Definition flatTransitHouses (E : ephemeris) (req : Flat.request)
  : option (list (option nat)) :=
  match Flat.natalChartHandler E req with
  | Ok r => option_map housesOf (Flat.transits r)
  | Error500 => None
  end.

Definition structuredTransitHouses (E : ephemeris) (req : Structured.request)
  : option (list (option nat)) :=
  match Structured.natalChartHandler E req with
  | Ok r =>
      option_map (fun t => housesOf (Structured.tr_planets t))
                 (Structured.transit_result r)
  | Error500 => None
  end.

(** The cusps a handler holds after the house lookup. *)
Definition natalCusps (houses : option housesData) : option (list Q) :=
  match houses with
  | Some hd => hd_cusps hd
  | None => None
  end.

(* ------------------------------------------------------------------ *)
(** ** Vocabulary of the further properties *)

(** The part of a match that does not name the bodies. *)
Definition typeAndOrb (m : aspect) : string * Q := (a_type m, a_orb m).

(** Does the entry hold a longitude? *)
Definition hasLongitude (e : string * position) : bool :=
  match p_absDegree (snd e) with
  | Some _ => true
  | None => false
  end.

(** Does the interval of house [h] wrap, that is, does the loop take the
    branch of [start >= end] for it? *)
Definition wraps (cusps : list Q) (h : nat) : bool :=
  negb (lt_u (nth_error cusps (h - 1)) (nth_error cusps (h mod 12))).

(** Does the character occur in the string? *)
Definition hasChar (c : ascii) (s : string) : bool :=
  existsb (Ascii.eqb c) (list_ascii_of_string s).

(** The number a string of decimal digits spells. *)
Definition digitsValue (s : string) : Q := inject_Z (digitsAcc 0 s).

(** The time coordinate and the houses the flat handler works with, for a
    request whose [date] and [time] are the strings [d] and [t]. *)
Definition flatJd (E : ephemeris) (req : Flat.request) (d t : string) : JD E :=
  toJulianDay E (parseDateTime d t (Flat.timezone req)).

Definition flatHouses (E : ephemeris) (req : Flat.request) (d t : string)
  : option housesData :=
  match Flat.lat req, Flat.lon req with
  | Some la, Some lo =>
      Flat.getHousesWithError E (flatJd E req d t) la lo (Flat.hsys req)
  | _, _ => None
  end.

(** An ephemeris that keeps its contract at every moment: body number [i]
    stands at [10 + 29 * i] degrees. *)
Definition steadyEphemeris : ephemeris :=
  {| JD := jsnum;
     swe_julday := fun _ _ d _ => toNumber d;
     swe_calc_ut := fun _ b => mkCalc (10 + 29 * inject_Z (bodyIndex b)) 1;
     swe_houses := fun _ _ _ _ =>
       (None, Some (mkRaw (Some 20) (Some 290) None (Some sampleCusps) None)) |}.

(** The transit part of the flat response. *)
Definition flatTransits (E : ephemeris) (req : Flat.request) (d t : string)
  : option (obj position) :=
  match Flat.transit_date req, Flat.transit_time req with
  | Some tda, Some tti =>
      if truthyString tda && truthyString tti
      then Some (Flat.deleteAbsDegree
                   (getTransits E (flatJd E req d t)
                      (toJulianDay E
                         (parseDateTime tda tti (Flat.transit_timezone req)))))
      else None
  | _, _ => None
  end.

(** The natal part of a flat response. *)
Definition natalPart (r : Flat.response)
  : obj position * list aspect * obj jsnum * obj jsnum * option housesData :=
  (Flat.positions r, Flat.aspects r, Flat.elemental_distribution r,
   Flat.modal_distribution r, Flat.houses r).

(** Is the longitude field of every entry gone? *)
Definition noLongitude (o : obj position) : bool :=
  forallb (fun e : string * position =>
             match p_absDegree (snd e) with
             | Some _ => false
             | None => true
             end) o.

(** The time coordinate, the houses and the transit part the structured
    handler works with, for a request whose effective birth [date] and
    [time] are the strings [d] and [t]. *)
Definition structJd (E : ephemeris) (req : Structured.request) (d t : string)
  : JD E :=
  toJulianDay E
    (parseDateTime d t (Structured.b_timezone (Structured.birthDataOf req))).

Definition structHouses (E : ephemeris) (req : Structured.request)
                        (d t : string) : option housesData :=
  match Structured.coordOf Structured.loc_lat (Structured.birthDataOf req)
                           (Structured.body_lat req),
        Structured.coordOf Structured.loc_lon (Structured.birthDataOf req)
                           (Structured.body_lon req) with
  | Some la, Some lo =>
      Some (Structured.getHousesWithError E (structJd E req d t) la lo
              (Structured.hsysOf req))
  | _, _ => None
  end.

Definition structNatalAbs (E : ephemeris) (req : Structured.request)
                          (d t : string) : obj position :=
  absLoop E (structJd E req d t)
          (positionsLoop E (structJd E req d t) (structHouses E req d t) true).

Definition structTransit (E : ephemeris) (req : Structured.request)
                         (d t : string) : option Structured.transitResult :=
  match Structured.transit_chart req with
  | Some tc =>
      match Structured.tc_date tc, Structured.tc_time tc with
      | Some tda, Some tti =>
          if truthyString tda && truthyString tti
          then
            let jdTransit :=
              toJulianDay E
                (parseDateTime tda tti (Structured.tc_timezone tc)) in
            let transitPositions :=
              positionsLoop E jdTransit (structHouses E req d t) false in
            Some (Structured.mkTransit (Some tda) transitPositions
                    (aspectsToNatal (structNatalAbs E req d t)
                       (absLoop E jdTransit transitPositions)))
          else None
      | _, _ => None
      end
  | None => None
  end.

(** An ephemeris whose house lookup reports an ascendant of exactly 0
    degrees and no [ascmc] array. *)
Definition zeroAscEphemeris : ephemeris :=
  {| JD := jsnum;
     swe_julday := fun _ _ d _ => toNumber d;
     swe_calc_ut := fun _ b => mkCalc (10 + 29 * inject_Z (bodyIndex b)) 1;
     swe_houses := fun _ _ _ _ =>
       (None, Some (mkRaw (Some 0) (Some 270) None (Some sampleCusps) None)) |}.

(** The name a body has in the structured response. *)
Definition structuredName (pl : planet) : string :=
  replaceNorthNode (pl_name pl).

(** A request of the structured shape whose transit chart repeats the
    birth moment. *)
Definition sampleReturnRequest : Structured.request :=
  Structured.mkRequest
    (Some (Structured.mkBirth (Some "2000-01-15") (Some "10:00")
             (TzString "+05:30")
             (Some (Structured.mkLocation (Some 48) (Some 2)))))
    None
    (Some (Structured.mkTransitChart (Some "2000-01-15") (Some "10:00")
             (TzString "+05:30")))
    None None TzOther None None None.

(** The flat fields of a request sent to the structured variant, with no
    [birth], [chart_settings] or [transit_chart] object. *)
Definition legacyRequest (fr : Flat.request) : Structured.request :=
  Structured.mkRequest None None None
    (Flat.date fr) (Flat.time fr) (Flat.timezone fr)
    (Flat.lat fr) (Flat.lon fr) (Flat.hsys fr).

(** Name, sign and degree of the entries of a positions object, the name
    in the spelling of the structured variant. *)
Definition signsAndDegrees (o : obj position)
  : list (string * option string * option Q) :=
  map (fun e : string * position =>
         (replaceNorthNode (fst e), p_sign (snd e), p_degree (snd e))) o.

(** The longitudes of the entries of a positions object, in order. *)
Definition longitudesOf (o : obj position) : list (option Q) :=
  map (fun e : string * position => p_absDegree (snd e)) o.

(** An ephemeris whose house lookup is degraded: the result slot holds no
    cusps and the error slot carries a [house] array. *)
Definition degradedEphemeris : ephemeris :=
  {| JD := jsnum;
     swe_julday := fun _ _ d _ => toNumber d;
     swe_calc_ut := fun _ b => mkCalc (10 + 29 * inject_Z (bodyIndex b)) 1;
     swe_houses := fun _ _ _ _ =>
       (Some (mkRaw None None None None (Some sampleCusps)),
        Some (mkRaw None None None None None)) |}.



(** A group of one to fifteen decimal digits: it spells an integer below
    [10^15], which a double holds exactly. *)
Definition exactDigits (s : string) : bool :=
  isDigits s && (String.length s <=? 15)%nat.


(** A magnitude far above the subnormal doubles: a longitude at least this
    far below zero divides by 30 without underflow, so that its quotient
    is a negative number and never the negative zero. *)
Definition underflowGuard : Q := 1 # (10 ^ 300)%positive.

(** Cusps that are no whole numbers of hundredths, and an ephemeris that
    gives them, with the Sun at 15.1275 just behind the first cusp. *)
Definition fineCusps : list Q :=
  [15126 # 1000; 45376 # 1000; 75; 105; 135; 165; 195; 225; 255; 285; 315;
   345].

Definition fineCuspsEphemeris : ephemeris :=
  {| JD := jsnum;
     swe_julday := fun _ _ d _ => toNumber d;
     swe_calc_ut := fun _ b =>
       mkCalc ((151275 # 10000) + 29 * inject_Z (bodyIndex b)) 1;
     swe_houses := fun _ _ _ _ =>
       (None,
        Some (mkRaw (Some (15126 # 1000)) (Some 285) None (Some fineCusps)
                    None)) |}.

(** Is the field of the body a string? *)
Definition isString (v : jsonField) : bool :=
  match v with
  | JString _ => true
  | _ => false
  end.

(** Transit fields that start the transit pass and that [parseDateTime]
    cannot read: both are truthy and one of them is no string. *)
Definition unreadable (tda tti : jsonField) : bool :=
  truthyJson tda && truthyJson tti && negb (isString tda && isString tti).

(** The body with other transit fields. *)
Definition withTransitJson (req : FlatJson.request) (tda tti : jsonField)
                           (ttz : tzValue) : FlatJson.request :=
  FlatJson.mkRequest (FlatJson.date req) (FlatJson.time req)
                     (FlatJson.lat req) (FlatJson.lon req)
                     tda tti (FlatJson.hsys req) (FlatJson.timezone req) ttz.

(** The [birth] object of the body, [{}] when there is none. *)
Definition birthOrEmptyJson (req : StructuredJson.request)
  : StructuredJson.birthData :=
  match StructuredJson.birth req with
  | Some b => b
  | None => StructuredJson.emptyBirth
  end.

(** Bodies with a number where a string is expected: a flat one with the
    date 20000115, a flat one with the transit date 20240320, and the two
    structured ones alike. *)
Definition numericDateBody : FlatJson.request :=
  FlatJson.mkRequest (JOther true) (JString "10:00") (Some 48) (Some 2)
                     JAbsent JAbsent None (TzString "+05:30") TzOther.

Definition numericTransitBody : FlatJson.request :=
  FlatJson.mkRequest (JString "2000-01-15") (JString "10:00")
                     (Some 48) (Some 2)
                     (JOther true) (JString "12:00") None
                     (TzString "+05:30") (TzString "Z").

Definition numericBirthBody : StructuredJson.request :=
  StructuredJson.mkRequest
    (Some (StructuredJson.mkBirth (JOther true) (JString "10:00")
             (TzString "+05:30")
             (Some (Structured.mkLocation (Some 48) (Some 2)))))
    None None
    (JString "2000-01-15") (JString "10:00") TzOther None None None.

Definition numericTransitChartBody : StructuredJson.request :=
  StructuredJson.mkRequest
    (Some (StructuredJson.mkBirth (JString "2000-01-15") (JString "10:00")
             (TzString "+05:30")
             (Some (Structured.mkLocation (Some 48) (Some 2)))))
    None
    (Some (StructuredJson.mkTransitChart (JOther true) (JOther true)
             (TzString "Z")))
    JAbsent JAbsent TzOther None None None.

(* ================================================================== *)
(** * Properties *)

(* ------------------------------------------------------------------ *)
(** ** Facts on numbers *)

Lemma Qlt_bool_iff (x y : Q) : Qlt_bool x y = true <-> x < y.
Proof.
  unfold Qlt_bool. rewrite negb_true_iff. split; intro H.
  - apply Qnot_le_lt. intro Hle. apply Qle_bool_iff in Hle. congruence.
  - destruct (Qle_bool y x) eqn:E; [|reflexivity].
    apply Qle_bool_iff in E. exfalso. apply (Qlt_not_le _ _ H E).
Qed.

Lemma Qlt_bool_false_iff (x y : Q) : Qlt_bool x y = false <-> y <= x.
Proof.
  unfold Qlt_bool. rewrite negb_false_iff. apply Qle_bool_iff.
Qed.

Lemma Qle_bool_false_iff (x y : Q) : Qle_bool x y = false <-> y < x.
Proof.
  rewrite <- Qlt_bool_iff. unfold Qlt_bool.
  destruct (Qle_bool x y); simpl; intuition congruence.
Qed.

(** Case analysis on a boolean comparison, leaving the order fact. *)
Ltac qcases :=
  repeat match goal with
    | H : Qlt_bool _ _ = true |- _ => apply Qlt_bool_iff in H
    | H : Qlt_bool _ _ = false |- _ => apply Qlt_bool_false_iff in H
    | H : Qle_bool _ _ = true |- _ => apply Qle_bool_iff in H
    | H : Qle_bool _ _ = false |- _ => apply Qle_bool_false_iff in H
    end.

Lemma Qfloor_range (x : Q) (a b : Z) :
  inject_Z a <= x -> x < inject_Z b -> (a <= Qfloor x < b)%Z.
Proof.
  intros Ha Hb. split.
  - rewrite <- (Qfloor_Z a). now apply Qfloor_resp_le.
  - rewrite Zlt_Qlt. apply Qle_lt_trans with x; [apply Qfloor_le | exact Hb].
Qed.

Lemma Qfloor_bounds (x : Q) :
  inject_Z (Qfloor x) <= x /\ x < inject_Z (Qfloor x) + 1.
Proof.
  split; [apply Qfloor_le|].
  pose proof (Qlt_floor x) as H. rewrite inject_Z_plus in H. exact H.
Qed.

Lemma div30 (x : Q) : x / 30 == x * (1 # 30).
Proof. reflexivity. Qed.

Lemma signIndex_bounds (L : Q) :
  30 * inject_Z (signIndex L) <= L /\ L < 30 * inject_Z (signIndex L) + 30.
Proof.
  unfold signIndex. destruct (Qfloor_bounds (L / 30)) as [H1 H2].
  pose proof (div30 L) as E. set (q := L / 30) in *. split; lra.
Qed.

Lemma signIndex_range (L : Q) :
  0 <= L -> L < 360 -> (0 <= signIndex L < 12)%Z.
Proof.
  intros H0 H1. unfold signIndex. pose proof (div30 L) as E.
  apply Qfloor_range; set (q := L / 30) in *.
  - change (inject_Z 0) with 0. lra.
  - change (inject_Z 12) with 12. lra.
Qed.


Lemma round2_spec (y : Q) :
  round2 y - (1 # 200) <= y /\ y < round2 y + (1 # 200).
Proof.
  unfold round2. rewrite Qred_correct.
  destruct (Qfloor_bounds (y * 100 + (1 # 2))) as [H1 H2].
  set (n := inject_Z (Qfloor (y * 100 + (1 # 2)))) in *.
  assert (E : n / 100 == n * (1 # 100)) by reflexivity.
  rewrite E. split; lra.
Qed.

Lemma round2_range (y : Q) (a b : Z) :
  inject_Z a <= y -> y < inject_Z b ->
  inject_Z a <= round2 y /\ round2 y <= inject_Z b.
Proof.
  intros Ha Hb. unfold round2. rewrite Qred_correct.
  assert (R : (100 * a <= Qfloor (y * 100 + (1 # 2)) < 100 * b + 1)%Z).
  { apply Qfloor_range.
    - rewrite inject_Z_mult. change (inject_Z 100) with 100. lra.
    - rewrite inject_Z_plus, inject_Z_mult.
      change (inject_Z 100) with 100. change (inject_Z 1) with 1. lra. }
  set (n := Qfloor (y * 100 + (1 # 2))) in *.
  assert (E : inject_Z n / 100 == inject_Z n * (1 # 100)) by reflexivity.
  rewrite E.
  assert (R1 : inject_Z (100 * a) <= inject_Z n) by (rewrite <- Zle_Qle; lia).
  assert (R2 : inject_Z n <= inject_Z (100 * b)) by (rewrite <- Zle_Qle; lia).
  rewrite inject_Z_mult in R1, R2. change (inject_Z 100) with 100 in R1, R2.
  split; lra.
Qed.

(* ------------------------------------------------------------------ *)
(** ** Sign lookup *)

Lemma nth_error_SIGNS (i : Z) :
  (0 <= i < 12)%Z -> exists s, nth_error SIGNS (Z.to_nat i) = Some s /\ In s SIGNS.
Proof.
  intro H. assert (Hn : (Z.to_nat i < 12)%nat) by lia.
  destruct (nth_error SIGNS (Z.to_nat i)) as [s|] eqn:E.
  - exists s. split; [reflexivity|]. eapply nth_error_In; eauto.
  - apply nth_error_None in E. simpl in E. lia.
Qed.

(** C3, the claim as written fails: [getSign] does not normalize its
    argument, so the sign of 10 degrees is Aries and the lookup for
    10 + 360 degrees is [undefined]. *)
Lemma getSign_not_periodic :
  ~ (forall (L : Q) (k : Z), getSign (L + 360 * inject_Z k) = getSign L).
Proof.
  intro H. specialize (H 10 1%Z). vm_compute in H. discriminate H.
Qed.

(** C3, amended: [getSign] performs no normalization.  For a longitude [L]
    in [0,360) it returns the sign at index [floor(L/30)] of the twelve-sign
    list, and for every integer [k] other than 0 the lookup at [L + 360k] is
    [undefined]; the sign of [L + 360k] equals the sign of [L] only for
    [k = 0]. *)
Theorem getSign_defined_exactly_in_range (L : Q) (k : Z)
  (H : 0 <= L /\ L < 360) :
  (exists s, getSign L = Some s
             /\ nth_error SIGNS (Z.to_nat (signIndex L)) = Some s
             /\ In s SIGNS)
  /\ (k <> 0%Z -> getSign (L + 360 * inject_Z k) = None).
Proof.
  destruct H as [H0 H1]. split.
  - pose proof (signIndex_range L H0 H1) as R.
    destruct (nth_error_SIGNS _ R) as [s [Es Hin]].
    exists s. unfold getSign.
    replace (signIndex L <? 0)%Z with false by (symmetry; apply Z.ltb_ge; lia).
    auto.
  - intro Hk. unfold getSign.
    destruct (signIndex_bounds (L + 360 * inject_Z k)) as [B1 B2].
    set (i := signIndex (L + 360 * inject_Z k)) in *.
    destruct (Z_lt_le_dec k 0) as [Hneg|Hpos].
    + assert (Hk1 : inject_Z k <= inject_Z (-1)) by (rewrite <- Zle_Qle; lia).
      change (inject_Z (-1)) with (-1) in Hk1.
      assert (Hi : (i < 0)%Z).
      { rewrite Zlt_Qlt. change (inject_Z 0) with 0. lra. }
      apply Z.ltb_lt in Hi. rewrite Hi. reflexivity.
    + assert (Hk1 : inject_Z 1 <= inject_Z k) by (rewrite <- Zle_Qle; lia).
      change (inject_Z 1) with 1 in Hk1.
      assert (Hi : (11 < i)%Z).
      { rewrite Zlt_Qlt. change (inject_Z 11) with 11. lra. }
      replace (i <? 0)%Z with false by (symmetry; apply Z.ltb_ge; lia).
      apply nth_error_None. simpl. lia.
Qed.

Lemma getSign_defined_exactly_in_range_witness :
  (0 <= 95 /\ 95 < 360)
  /\ ((exists s, getSign 95 = Some s
                 /\ nth_error SIGNS (Z.to_nat (signIndex 95)) = Some s
                 /\ In s SIGNS)
      /\ (1%Z <> 0%Z -> getSign (95 + 360 * inject_Z 1) = None)).
Proof.
  assert (R : 0 <= 95 /\ 95 < 360) by (split; [discriminate | reflexivity]).
  split; [exact R | exact (getSign_defined_exactly_in_range 95 1 R)].
Defined.

(* ------------------------------------------------------------------ *)
(** ** Degree in sign *)




(** The scenario of the specification: 95 degrees is Cancer, 5.00. *)
Example sign_of_95 : getSign 95 = Some "Cancer" /\ getDegreeInSign 95 = 5.
Proof. split; reflexivity. Qed.

(* ------------------------------------------------------------------ *)
(** ** Angular separation *)

(** The separation of two longitudes in [0,360) lies in [0,180]. *)
Lemma separation_bounds (a b : Q) :
  0 <= a /\ a < 360 -> 0 <= b /\ b < 360 ->
  0 <= separation a b /\ separation a b <= 180.
Proof.
  intros [Ha0 Ha1] [Hb0 Hb1]. unfold separation.
  assert (D0 : 0 <= Qabs (a - b)) by apply Qabs_nonneg.
  assert (D1 : Qabs (a - b) < 360) by (apply Qabs_case; intros; lra).
  set (d := Qabs (a - b)) in *.
  destruct (Qlt_bool 180 d) eqn:C; qcases; split; lra.
Qed.

(** C7: for longitudes [a], [b] in [0,360) the separation the aspect
    detector computes (in [getAspects] and in the [aspects_to_natal] loop,
    both through [pairAspects]) is [min(|a-b|, 360-|a-b|)], is symmetric,
    and lies in [0,180]. *)
Theorem separation_min_symmetric_bounded (a b : Q)
  (Ha : 0 <= a /\ a < 360) (Hb : 0 <= b /\ b < 360) :
  separation a b == Qmin (Qabs (a - b)) (360 - Qabs (a - b))
  /\ separation a b == separation b a
  /\ 0 <= separation a b /\ separation a b <= 180.
Proof.
  destruct Ha as [Ha0 Ha1], Hb as [Hb0 Hb1].
  unfold separation. rewrite (Qabs_Qminus b a).
  assert (D0 : 0 <= Qabs (a - b)) by apply Qabs_nonneg.
  assert (D1 : Qabs (a - b) < 360).
  { apply Qabs_case; intros; lra. }
  set (d := Qabs (a - b)) in *.
  destruct (Q.min_spec d (360 - d)) as [[Hm Em]|[Hm Em]];
    destruct (Qlt_bool 180 d) eqn:C; qcases; rewrite Em;
    repeat split; lra.
Qed.

Lemma separation_min_symmetric_bounded_witness :
  (0 <= 350 /\ 350 < 360) /\ (0 <= 10 /\ 10 < 360)
  /\ (separation 350 10 == Qmin (Qabs (350 - 10)) (360 - Qabs (350 - 10))
      /\ separation 350 10 == separation 10 350
      /\ 0 <= separation 350 10 /\ separation 350 10 <= 180).
Proof.
  assert (Ra : 0 <= 350 /\ 350 < 360) by (split; [discriminate | reflexivity]).
  assert (Rb : 0 <= 10 /\ 10 < 360) by (split; [discriminate | reflexivity]).
  split; [exact Ra | split; [exact Rb |]].
  exact (separation_min_symmetric_bounded 350 10 Ra Rb).
Defined.

(* ------------------------------------------------------------------ *)
(** ** House assignment *)

(** What the scan over [h = a, a+1, ..., a+n-1] returns. *)
Lemma houseScan_seq (cusps : list Q) (L : Q) (n : nat) :
  forall a : nat,
    match houseScan cusps L (seq a n) with
    | Some h =>
        (a <= h < a + n)%nat
        /\ houseContains cusps L h = true
        /\ forall h', (a <= h' < h)%nat -> houseContains cusps L h' = false
    | None =>
        forall h', (a <= h' < a + n)%nat -> houseContains cusps L h' = false
    end.
Proof.
  induction n as [|n IH]; intro a; simpl.
  - intros h' Hh'. lia.
  - destruct (houseContains cusps L a) eqn:C.
    + split; [lia|]. split; [exact C|]. intros h' Hh'. lia.
    + specialize (IH (S a)).
      destruct (houseScan cusps L (seq (S a) n)) as [h|].
      * destruct IH as [R [Ch Hpre]]. split; [lia|]. split; [exact Ch|].
        intros h' Hh'. destruct (Nat.eq_dec h' a) as [->|Hne];
          [exact C | apply Hpre; lia].
      * intros h' Hh'. destruct (Nat.eq_dec h' a) as [->|Hne];
          [exact C | apply IH; lia].
Qed.

(** A house that does not contain [L]: an ascending interval leaves both
    cusps on the same side of [L]; a descending (wrapping) one needs its
    start above [L] and its end at or below it. *)
Lemma not_contains_step (s e L : Q) :
  (if lt_u (Some s) (Some e)
   then ge_u (Some L) (Some s) && lt_u (Some L) (Some e)
   else ge_u (Some L) (Some s) || lt_u (Some L) (Some e)) = false ->
  (L < e -> L < s) /\ (e <= s -> L < s /\ e <= L).
Proof.
  simpl. destruct (Qlt_bool s e) eqn:C; intro H.
  - apply andb_false_iff in H. qcases. destruct H as [H|H]; qcases;
      split; intros; try split; lra.
  - apply orb_false_iff in H. destruct H as [Ha Hb]. qcases.
    split; intros; try split; lra.
Qed.

(** Around the cycle of twelve cusps some house contains [L]. *)
Lemma some_house_contains (cusps : list Q) (L : Q) :
  List.length cusps = 12%nat ->
  ~ (forall h, (1 <= h < 1 + 12)%nat -> houseContains cusps L h = false).
Proof.
  intros Hlen Hall.
  destruct cusps as [|c0 cusps]; [discriminate Hlen|].
  destruct cusps as [|c1 cusps]; [discriminate Hlen|].
  destruct cusps as [|c2 cusps]; [discriminate Hlen|].
  destruct cusps as [|c3 cusps]; [discriminate Hlen|].
  destruct cusps as [|c4 cusps]; [discriminate Hlen|].
  destruct cusps as [|c5 cusps]; [discriminate Hlen|].
  destruct cusps as [|c6 cusps]; [discriminate Hlen|].
  destruct cusps as [|c7 cusps]; [discriminate Hlen|].
  destruct cusps as [|c8 cusps]; [discriminate Hlen|].
  destruct cusps as [|c9 cusps]; [discriminate Hlen|].
  destruct cusps as [|c10 cusps]; [discriminate Hlen|].
  destruct cusps as [|c11 cusps]; [discriminate Hlen|].
  destruct cusps; [|discriminate Hlen]. clear Hlen.
  pose proof (Hall 1%nat ltac:(lia)) as H1.
  apply not_contains_step in H1. destruct H1 as [A1 B1].
  pose proof (Hall 2%nat ltac:(lia)) as H2.
  apply not_contains_step in H2. destruct H2 as [A2 B2].
  pose proof (Hall 3%nat ltac:(lia)) as H3.
  apply not_contains_step in H3. destruct H3 as [A3 B3].
  pose proof (Hall 4%nat ltac:(lia)) as H4.
  apply not_contains_step in H4. destruct H4 as [A4 B4].
  pose proof (Hall 5%nat ltac:(lia)) as H5.
  apply not_contains_step in H5. destruct H5 as [A5 B5].
  pose proof (Hall 6%nat ltac:(lia)) as H6.
  apply not_contains_step in H6. destruct H6 as [A6 B6].
  pose proof (Hall 7%nat ltac:(lia)) as H7.
  apply not_contains_step in H7. destruct H7 as [A7 B7].
  pose proof (Hall 8%nat ltac:(lia)) as H8.
  apply not_contains_step in H8. destruct H8 as [A8 B8].
  pose proof (Hall 9%nat ltac:(lia)) as H9.
  apply not_contains_step in H9. destruct H9 as [A9 B9].
  pose proof (Hall 10%nat ltac:(lia)) as H10.
  apply not_contains_step in H10. destruct H10 as [A10 B10].
  pose proof (Hall 11%nat ltac:(lia)) as H11.
  apply not_contains_step in H11. destruct H11 as [A11 B11].
  pose proof (Hall 12%nat ltac:(lia)) as H12.
  apply not_contains_step in H12. destruct H12 as [A12 B12].
  clear Hall.
  (* no interval descends: a descending one has its start above [L] and
     its end at or below it, and the side of [L] a cusp lies on is
     passed on, backwards for "above" and forwards for "below" *)
  destruct (Qlt_le_dec L c0) as [Side|Side].
  - pose proof (A12 Side) as U11.
    pose proof (A11 U11) as U10.
    pose proof (A10 U10) as U9.
    pose proof (A9 U9) as U8.
    pose proof (A8 U8) as U7.
    pose proof (A7 U7) as U6.
    pose proof (A6 U6) as U5.
    pose proof (A5 U5) as U4.
    pose proof (A4 U4) as U3.
    pose proof (A3 U3) as U2.
    pose proof (A2 U2) as U1.
    destruct (Qlt_le_dec c0 c1) as [S1|S1]; [|destruct (B1 S1); lra].
    destruct (Qlt_le_dec c1 c2) as [S2|S2]; [|destruct (B2 S2); lra].
    destruct (Qlt_le_dec c2 c3) as [S3|S3]; [|destruct (B3 S3); lra].
    destruct (Qlt_le_dec c3 c4) as [S4|S4]; [|destruct (B4 S4); lra].
    destruct (Qlt_le_dec c4 c5) as [S5|S5]; [|destruct (B5 S5); lra].
    destruct (Qlt_le_dec c5 c6) as [S6|S6]; [|destruct (B6 S6); lra].
    destruct (Qlt_le_dec c6 c7) as [S7|S7]; [|destruct (B7 S7); lra].
    destruct (Qlt_le_dec c7 c8) as [S8|S8]; [|destruct (B8 S8); lra].
    destruct (Qlt_le_dec c8 c9) as [S9|S9]; [|destruct (B9 S9); lra].
    destruct (Qlt_le_dec c9 c10) as [S10|S10]; [|destruct (B10 S10); lra].
    destruct (Qlt_le_dec c10 c11) as [S11|S11]; [|destruct (B11 S11); lra].
    destruct (Qlt_le_dec c11 c0) as [S12|S12]; [|destruct (B12 S12); lra].
    lra.
  - destruct (Qlt_le_dec c0 c1) as [S1|S1]; [|destruct (B1 S1); lra].
    destruct (Qlt_le_dec c1 c2) as [S2|S2]; [|destruct (B2 S2); lra].
    destruct (Qlt_le_dec c2 c3) as [S3|S3]; [|destruct (B3 S3); lra].
    destruct (Qlt_le_dec c3 c4) as [S4|S4]; [|destruct (B4 S4); lra].
    destruct (Qlt_le_dec c4 c5) as [S5|S5]; [|destruct (B5 S5); lra].
    destruct (Qlt_le_dec c5 c6) as [S6|S6]; [|destruct (B6 S6); lra].
    destruct (Qlt_le_dec c6 c7) as [S7|S7]; [|destruct (B7 S7); lra].
    destruct (Qlt_le_dec c7 c8) as [S8|S8]; [|destruct (B8 S8); lra].
    destruct (Qlt_le_dec c8 c9) as [S9|S9]; [|destruct (B9 S9); lra].
    destruct (Qlt_le_dec c9 c10) as [S10|S10]; [|destruct (B10 S10); lra].
    destruct (Qlt_le_dec c10 c11) as [S11|S11]; [|destruct (B11 S11); lra].
    destruct (Qlt_le_dec c11 c0) as [S12|S12]; [|destruct (B12 S12); lra].
    lra.
Qed.



(** The scenario of the specification: the twelfth house wraps past 0
    degrees and holds 355 degrees. *)
Example house_of_355 : houseOf (Some sampleCusps) 355 = Some 12%nat.
Proof. reflexivity. Qed.

(* ------------------------------------------------------------------ *)
(** ** The aspect catalog and the square scenario *)

(** C5: the catalog is Conjunction (0, orb 8), Opposition (180, orb 8),
    Trine (120, orb 8), Square (90, orb 8), Sextile (60, orb 6); two bodies
    at 10 and 100 degrees are 90 degrees apart and the detector emits one
    match, a Square of orb 0.00, and no other. *)
Theorem catalog_and_square_scenario :
  map (fun t => (at_type t, at_angle t, at_orb t)) aspectTypes
  = [ ("Conjunction", 0, 8); ("Opposition", 180, 8); ("Trine", 120, 8);
      ("Square", 90, 8); ("Sextile", 60, 6) ]
  /\ separation 10 100 == 90
  /\ getAspects [ ("Sun", at_longitude 10); ("Moon", at_longitude 100) ]
     = [ mkAspect "Square" ("Sun", "Moon") 0 ].
Proof.
  split; [reflexivity|]. split; reflexivity.
Qed.

(* ------------------------------------------------------------------ *)
(** ** Time parsing *)

Lemma split_without (sep : ascii) (s : string) :
  hasChar sep s = false -> split sep s = [s].
Proof.
  unfold hasChar. induction s as [|c r IH]; simpl; [reflexivity|].
  intro H. apply orb_false_iff in H. destruct H as [Hc Hr].
  rewrite Ascii.eqb_sym in Hc. rewrite Hc, (IH Hr). reflexivity.
Qed.

Lemma isDigit_not_white (c : ascii) : isDigit c = true -> isWhite c = false.
Proof.
  unfold isDigit, isWhite. intro H. apply andb_true_iff in H.
  destruct H as [H1 H2]. apply Nat.leb_le in H1. apply Nat.leb_le in H2.
  apply orb_false_iff. split.
  - apply andb_false_iff. right. apply Nat.leb_gt. lia.
  - apply Nat.eqb_neq. lia.
Qed.

Lemma digit_is_not (c sep : ascii) :
  isDigit c = true -> isDigit sep = false -> Ascii.eqb c sep = false.
Proof.
  intros Hc Hs. destruct (Ascii.eqb_spec c sep) as [->|]; congruence.
Qed.

Lemma trimEnd_digits (s : string) : allDigits s = true -> trimEnd s = s.
Proof.
  induction s as [|c r IH]; simpl; [reflexivity|].
  intro H. apply andb_true_iff in H. destruct H as [Hc Hr].
  rewrite (IH Hr), (isDigit_not_white c Hc). reflexivity.
Qed.

Lemma trimStart_digits (s : string) : allDigits s = true -> trimStart s = s.
Proof.
  destruct s as [|c r]; simpl; [reflexivity|].
  intro H. apply andb_true_iff in H. destruct H as [Hc _].
  rewrite (isDigit_not_white c Hc). reflexivity.
Qed.

Lemma hasChar_digits (sep : ascii) (s : string) :
  allDigits s = true -> isDigit sep = false -> hasChar sep s = false.
Proof.
  unfold hasChar. induction s as [|c r IH]; simpl; [reflexivity|].
  intros H Hs. apply andb_true_iff in H. destruct H as [Hc Hr].
  rewrite Ascii.eqb_sym, (digit_is_not c sep Hc Hs). simpl. now apply IH.
Qed.

Lemma split_digits_then (sep : ascii) (s rest : string) :
  allDigits s = true -> isDigit sep = false ->
  split sep (s ++ String sep rest) = s :: split sep rest.
Proof.
  intros H Hs. induction s as [|c r IH]; simpl.
  - rewrite Ascii.eqb_refl. reflexivity.
  - simpl in H. apply andb_true_iff in H. destruct H as [Hc Hr].
    rewrite (digit_is_not c sep Hc Hs), (IH Hr). reflexivity.
Qed.

Lemma signedDecimal_digits (c : ascii) (r : string) :
  isDigit c = true ->
  signedDecimal (String c r) = unsignedDecimal (String c r).
Proof.
  intro H. destruct c as [b0 b1 b2 b3 b4 b5 b6 b7].
  destruct b0, b1, b2, b3, b4, b5, b6, b7;
    try reflexivity; vm_compute in H; discriminate H.
Qed.

Lemma Number_digits (s : string) :
  isDigits s = true -> numIs (Number s) (digitsValue s).
Proof.
  unfold isDigits. intro H. apply andb_true_iff in H.
  destruct H as [Hne Hd]. unfold Number.
  rewrite (trimStart_digits s Hd), (trimEnd_digits s Hd).
  apply negb_true_iff in Hne. rewrite Hne.
  destruct s as [|c r]; [discriminate Hne|].
  assert (Hc : isDigit c = true)
    by (simpl in Hd; apply andb_true_iff in Hd; tauto).
  rewrite (signedDecimal_digits c r Hc). unfold unsignedDecimal.
  rewrite (split_without "." (String c r))
    by (apply hasChar_digits; [exact Hd | reflexivity]).
  unfold isDigits. rewrite Hd. cbn [String.eqb negb andb].
  unfold numIs, decimalValue, digitsValue.
  change (digitsAcc 0 "") with 0%Z. cbn [String.length Z.of_nat].
  change (Z.to_pos (10 ^ 0)) with 1%positive.
  apply Qplus_0_r.
Qed.

Lemma exactDigits_isDigits (s : string) :
  exactDigits s = true -> isDigits s = true.
Proof.
  unfold exactDigits. intro H. apply andb_true_iff in H. tauto.
Qed.

Lemma isDigits_all (s : string) : isDigits s = true -> allDigits s = true.
Proof.
  unfold isDigits. intro H. apply andb_true_iff in H. tauto.
Qed.


(** A time written [hh:mm] with digits is split into the two groups, and
    the hour is the first plus the sixtieth of the second. *)
Lemma localHour_digits (hh mm : string) :
  isDigits hh = true -> isDigits mm = true ->
  localHour (hh ++ ":" ++ mm) = jsadd (Number hh) (jsdiv (Number mm) 60).
Proof.
  intros Hh Hm. unfold localHour.
  change (hh ++ ":" ++ mm) with (hh ++ String ":" mm).
  rewrite (split_digits_then ":" hh _ (isDigits_all hh Hh) eq_refl).
  rewrite (split_without ":" mm)
    by (apply hasChar_digits; [exact (isDigits_all mm Hm) | reflexivity]).
  reflexivity.
Qed.















(** The decimal-hour strings ["5.5"] and ["-3.25"] and the time 10:30. *)
Example decimal_hours_read :
  numIs (tzOffset (TzString "5.5")) (11 # 2)
  /\ numIs (tzOffset (TzString "-3.25")) (- (13 # 4))
  /\ numIs (localHour "10:30") (21 # 2).
Proof. repeat split; reflexivity. Qed.

(* ------------------------------------------------------------------ *)
(** ** Objects: reads after writes *)

Lemma get_set {A : Type} (o : obj A) (k k' : string) (v : A) :
  get (set o k v) k' = if String.eqb k' k then Some v else get o k'.
Proof.
  induction o as [|[k0 v0] o IH]; simpl.
  - reflexivity.
  - destruct (String.eqb_spec k k0) as [->|Hk]; simpl.
    + destruct (String.eqb_spec k' k0); reflexivity.
    + rewrite IH. destruct (String.eqb_spec k' k0) as [->|Hk'].
      * destruct (String.eqb_spec k0 k); [congruence | reflexivity].
      * reflexivity.
Qed.

Lemma keys_set_in {A : Type} (o : obj A) (k : string) (v : A) :
  In k (keys o) -> keys (set o k v) = keys o.
Proof.
  induction o as [|[k0 v0] o IH]; simpl; intro H.
  - contradiction.
  - destruct (String.eqb_spec k k0) as [->|Hk]; simpl.
    + reflexivity.
    + f_equal. apply IH. destruct H as [H|H]; [congruence | exact H].
Qed.

Lemma inject_Z_succ (z : Z) : inject_Z z + 1 = inject_Z (z + 1).
Proof.
  unfold Qplus, inject_Z. simpl. f_equal. lia.
Qed.

Lemma filter_length_cons {A : Type} (f : A -> bool) (x : A) (l : list A) :
  List.length (filter f (x :: l))
  = (Nat.b2n (f x) + List.length (filter f l))%nat.
Proof.
  simpl. destruct (f x); reflexivity.
Qed.

(* ------------------------------------------------------------------ *)
(** ** Distributions *)

Section TallyFacts.

Variable T : obj string.
Variable cats : list string.

(** Every value of the table is one of the categories. *)
Hypothesis T_values : forall s v, get T s = Some v -> In v cats.
(** A category is a non-empty string and is not the key an inherited
    value converts to. *)
Hypothesis cats_plain :
  forall c name, In c cats ->
                 truthyString c = true
                 /\ String.eqb c (toPropertyKey (TInherited name)) = false.

Lemma tally_get (dist : obj jsnum) (e : string * position) (c : string) :
  In c cats ->
  get (tally T dist e) c
  = if hits T c e then Some (jsadd (count dist c) (Fin 1)) else get dist c.
Proof.
  intro Hc. unfold tally, hits.
  destruct (p_sign (snd e)) as [s|]; [|reflexivity].
  destruct (truthyString s); simpl; [|reflexivity].
  unfold tableGet. destruct (get T s) as [v|] eqn:G.
  - destruct (cats_plain v "" (T_values s v G)) as [Tv _].
    simpl. rewrite Tv. unfold increment. rewrite get_set.
    rewrite String.eqb_sym.
    destruct (String.eqb_spec v c) as [->|Hne]; reflexivity.
  - destruct (existsb (String.eqb s) ObjectPrototype); [|reflexivity].
    cbn [truthy]. unfold increment. rewrite get_set.
    destruct (cats_plain c s Hc) as [_ Hk]. rewrite Hk. reflexivity.
Qed.

Lemma fold_tally_get (ps : obj position) :
  forall (dist : obj jsnum) (c : string) (z : Z),
    In c cats ->
    get dist c = Some (Fin (inject_Z z)) ->
    get (fold_left (tally T) ps dist) c
    = Some (Fin (inject_Z
                   (z + Z.of_nat (List.length (filter (hits T c) ps))))).
Proof.
  induction ps as [|e ps IH]; intros dist c z Hc Hz.
  - simpl. rewrite Z.add_0_r. exact Hz.
  - cbn [fold_left]. rewrite filter_length_cons.
    pose proof (tally_get dist e c Hc) as Hstep.
    destruct (hits T c e).
    + unfold count in Hstep. rewrite Hz in Hstep. simpl in Hstep.
      rewrite inject_Z_succ in Hstep.
      rewrite (IH _ c (z + 1)%Z Hc Hstep). simpl Nat.b2n.
      do 3 f_equal. lia.
    + rewrite Hz in Hstep. rewrite (IH _ c z Hc Hstep). reflexivity.
Qed.

(** On entries with plain signs the loop adds no key. *)
Lemma tally_keys (dist : obj jsnum) (e : string * position) :
  plainSign e = true ->
  (forall c, In c cats -> In c (keys dist)) ->
  keys (tally T dist e) = keys dist.
Proof.
  intros Hp Hin. unfold tally, plainSign in *.
  destruct (p_sign (snd e)) as [s|]; [|reflexivity].
  destruct (truthyString s); simpl; [|reflexivity].
  unfold tableGet. destruct (get T s) as [v|] eqn:G.
  - simpl. destruct (truthyString v); [|reflexivity].
    unfold increment. apply keys_set_in. apply Hin. eapply T_values; eauto.
  - apply negb_true_iff in Hp. rewrite Hp. reflexivity.
Qed.

Lemma fold_tally_keys (ps : obj position) :
  forall dist : obj jsnum,
    forallb plainSign ps = true ->
    (forall c, In c cats -> In c (keys dist)) ->
    keys (fold_left (tally T) ps dist) = keys dist.
Proof.
  induction ps as [|e ps IH]; intros dist Hp Hin; [reflexivity|].
  simpl in Hp. apply andb_true_iff in Hp. destruct Hp as [He Hps].
  cbn [fold_left]. pose proof (tally_keys dist e He Hin) as K.
  rewrite IH; [exact K | exact Hps |].
  intros c Hc. rewrite K. apply Hin, Hc.
Qed.

End TallyFacts.

Ltac split_sign s :=
  repeat match goal with
    | |- context [String.eqb s ?x] =>
        destruct (String.eqb_spec s x); [subst s|]
    | H : context [String.eqb s ?x] |- _ =>
        destruct (String.eqb_spec s x); [subst s|]
    end.

Lemma ELEMENTS_values (s v : string) :
  get ELEMENTS s = Some v -> In v elementCats.
Proof.
  simpl. intro H. split_sign s; inversion H; subst; simpl; auto 6.
Qed.

Lemma MODES_values (s v : string) :
  get MODES s = Some v -> In v modeCats.
Proof.
  simpl. intro H. split_sign s; inversion H; subst; simpl; auto 6.
Qed.

Lemma inherited_key_plain (c name : string) :
  In c (elementCats ++ modeCats) ->
  truthyString c = true
  /\ String.eqb c (toPropertyKey (TInherited name)) = false.
Proof.
  intro H. simpl in H.
  repeat (destruct H as [<-|H];
          [split; [reflexivity|];
           unfold toPropertyKey;
           destruct (String.eqb name "__proto__"); [reflexivity|];
           destruct (String.eqb name "constructor"); reflexivity |]).
  contradiction.
Qed.

Lemma elementCats_plain (c name : string) :
  In c elementCats ->
  truthyString c = true
  /\ String.eqb c (toPropertyKey (TInherited name)) = false.
Proof.
  intro H. apply inherited_key_plain. apply in_or_app. now left.
Qed.

Lemma modeCats_plain (c name : string) :
  In c modeCats ->
  truthyString c = true
  /\ String.eqb c (toPropertyKey (TInherited name)) = false.
Proof.
  intro H. apply inherited_key_plain. apply in_or_app. now right.
Qed.

(** An entry with a sign of the zodiac increments one element and one mode;
    any other entry increments no category. *)
Lemma hits_elements (e : string * position) :
  (Nat.b2n (hits ELEMENTS "Fire" e) + Nat.b2n (hits ELEMENTS "Water" e)
   + Nat.b2n (hits ELEMENTS "Earth" e) + Nat.b2n (hits ELEMENTS "Air" e))%nat
  = Nat.b2n (zodiacHit e).
Proof.
  unfold hits, zodiacHit. destruct (p_sign (snd e)) as [s|]; [|reflexivity].
  simpl. split_sign s; try reflexivity.
  simpl. rewrite !andb_false_r. reflexivity.
Qed.

Lemma hits_modes (e : string * position) :
  (Nat.b2n (hits MODES "Cardinal" e) + Nat.b2n (hits MODES "Fixed" e)
   + Nat.b2n (hits MODES "Mutable" e))%nat
  = Nat.b2n (zodiacHit e).
Proof.
  unfold hits, zodiacHit. destruct (p_sign (snd e)) as [s|]; [|reflexivity].
  simpl. split_sign s; try reflexivity.
  simpl. rewrite !andb_false_r. reflexivity.
Qed.

Lemma count_elements (ps : obj position) :
  (List.length (filter (hits ELEMENTS "Fire") ps)
   + List.length (filter (hits ELEMENTS "Water") ps)
   + List.length (filter (hits ELEMENTS "Earth") ps)
   + List.length (filter (hits ELEMENTS "Air") ps))%nat
  = List.length (filter zodiacHit ps).
Proof.
  induction ps as [|e ps IH]; [reflexivity|].
  rewrite !filter_length_cons, <- IH, <- (hits_elements e). lia.
Qed.

Lemma count_modes (ps : obj position) :
  (List.length (filter (hits MODES "Cardinal") ps)
   + List.length (filter (hits MODES "Fixed") ps)
   + List.length (filter (hits MODES "Mutable") ps))%nat
  = List.length (filter zodiacHit ps).
Proof.
  induction ps as [|e ps IH]; [reflexivity|].
  rewrite !filter_length_cons, <- IH, <- (hits_modes e). lia.
Qed.

Lemma elemental_count (ps : obj position) (c : string) :
  In c elementCats ->
  count (getElementalDistribution ps) c
  = Fin (inject_Z (Z.of_nat (List.length (filter (hits ELEMENTS c) ps)))).
Proof.
  intro Hc. unfold count, getElementalDistribution.
  rewrite (fold_tally_get ELEMENTS elementCats ELEMENTS_values
             elementCats_plain ps _ c 0%Z Hc).
  - reflexivity.
  - simpl in Hc. repeat (destruct Hc as [<-|Hc]; [reflexivity|]).
    contradiction.
Qed.

Lemma modal_count (ps : obj position) (c : string) :
  In c modeCats ->
  count (getModalDistribution ps) c
  = Fin (inject_Z (Z.of_nat (List.length (filter (hits MODES c) ps)))).
Proof.
  intro Hc. unfold count, getModalDistribution.
  rewrite (fold_tally_get MODES modeCats MODES_values
             modeCats_plain ps _ c 0%Z Hc).
  - reflexivity.
  - simpl in Hc. repeat (destruct Hc as [<-|Hc]; [reflexivity|]).
    contradiction.
Qed.

(** C10: for every body-to-position mapping the counts of the four
    elements and the counts of the three modes have the same sum, the
    number of entries whose sign is one of the twelve signs, on which both
    tables are defined. *)
Theorem distribution_totals_agree (positions : obj position) :
  exists n : nat,
    n = List.length (filter zodiacHit positions)
    /\ numIs (elementalTotal (getElementalDistribution positions))
             (inject_Z (Z.of_nat n))
    /\ numIs (modalTotal (getModalDistribution positions))
             (inject_Z (Z.of_nat n)).
Proof.
  exists (List.length (filter zodiacHit positions)).
  split; [reflexivity|]. split.
  - unfold elementalTotal.
    rewrite !elemental_count by (simpl; auto 6).
    rewrite <- count_elements. simpl.
    rewrite !Nat2Z.inj_add, !inject_Z_plus. reflexivity.
  - unfold modalTotal.
    rewrite !modal_count by (simpl; auto 6).
    rewrite <- count_modes. simpl.
    rewrite !Nat2Z.inj_add, !inject_Z_plus. reflexivity.
Qed.

(** With signs that are absent, of the zodiac, or any text that names no
    property of [Object.prototype], the distributions hold the four and the
    three categories and nothing else. *)
Lemma distribution_keys_plain (positions : obj position) :
  forallb plainSign positions = true ->
  keys (getElementalDistribution positions) = elementCats
  /\ keys (getModalDistribution positions) = modeCats.
Proof.
  intro Hp. split.
  - unfold getElementalDistribution.
    rewrite (fold_tally_keys ELEMENTS elementCats ELEMENTS_values
               positions _ Hp); [reflexivity | intros c Hc; exact Hc].
  - unfold getModalDistribution.
    rewrite (fold_tally_keys MODES modeCats MODES_values
               positions _ Hp); [reflexivity | intros c Hc; exact Hc].
Qed.

(** The sign ["constructor"] evaluated: the table read finds the inherited
    [Object] function, which is truthy, and the increment adds a fifth
    (resp. fourth) key holding [NaN] to the distribution. *)
Lemma distribution_inherited_sign :
  let positions := [ ("Sun", with_sign "constructor") ] in
  keys (getElementalDistribution positions)
  = [ "Fire"; "Water"; "Earth"; "Air"; "function Object() { [native code] }" ]
  /\ keys (getModalDistribution positions)
     = [ "Cardinal"; "Fixed"; "Mutable";
         "function Object() { [native code] }" ]
  /\ get (getElementalDistribution positions)
         "function Object() { [native code] }" = Some NaN.
Proof.
  repeat split; reflexivity.
Qed.





(* ------------------------------------------------------------------ *)
(** ** At most one aspect per pair *)

Lemma aspectMatches_window (d : Q) (asp : aspectType) :
  aspectMatches d asp = true
  <-> at_angle asp - at_orb asp <= d /\ d <= at_angle asp + at_orb asp.
Proof.
  unfold aspectMatches. rewrite Qle_bool_iff, Qabs_Qle_condition.
  split; intros [H1 H2]; split; lra.
Qed.

(** The five windows are pairwise disjoint, so the catalog filter keeps at
    most one entry. *)
Lemma matching_types_le1 (d : Q) :
  (List.length (filter (aspectMatches d) aspectTypes) <= 1)%nat.
Proof.
  unfold aspectTypes. cbn [filter].
  repeat match goal with
    | |- context [aspectMatches d ?t] =>
        let C := fresh "C" in
        destruct (aspectMatches d t) eqn:C;
        [apply aspectMatches_window in C; cbn in C|clear C]
    end;
    cbn [List.length]; try lia; exfalso; lra.
Qed.

Lemma pairAspects_le1 (k1 k2 : string) (a b : option Q) :
  (List.length (pairAspects k1 k2 a b) <= 1)%nat.
Proof.
  unfold pairAspects. destruct a as [a|], b as [b|]; simpl; try lia.
  rewrite length_map. apply matching_types_le1.
Qed.

Lemma pairAspects_between (k1 k2 : string) (a b : option Q) (m : aspect) :
  In m (pairAspects k1 k2 a b) -> a_between m = (k1, k2).
Proof.
  unfold pairAspects. destruct a as [a|], b as [b|]; simpl; try contradiction.
  intro H. apply in_map_iff in H. destruct H as [asp [<- _]]. reflexivity.
Qed.

Lemma getAspects_keys (ps : obj position) (m : aspect) :
  In m (getAspects ps) ->
  In (fst (a_between m)) (keys ps) /\ In (snd (a_between m)) (keys ps).
Proof.
  induction ps as [|[ki pi] rest IH]; simpl; [contradiction|].
  intro H. apply in_app_or in H. destruct H as [H|H].
  - apply in_flat_map in H. destruct H as [e [He Hm]].
    apply pairAspects_between in Hm. rewrite Hm. simpl. split; [now left|].
    right. unfold keys. now apply in_map.
  - destruct (IH H) as [H1 H2]. split; now right.
Qed.

Lemma filter_nil {A : Type} (f : A -> bool) (l : list A) :
  (forall x, In x l -> f x = false) -> filter f l = [].
Proof.
  induction l as [|x l IH]; intro H; [reflexivity|].
  simpl. rewrite (H x (or_introl eq_refl)). apply IH.
  intros y Hy. apply H. now right.
Qed.

Lemma betweenPair_true (k1 k2 : string) (m : aspect) :
  betweenPair k1 k2 m = true ->
  (fst (a_between m) = k1 /\ snd (a_between m) = k2)
  \/ (fst (a_between m) = k2 /\ snd (a_between m) = k1).
Proof.
  unfold betweenPair. intro H. apply orb_true_iff in H.
  destruct H as [H|H]; apply andb_true_iff in H; destruct H as [H1 H2];
    apply String.eqb_eq in H1, H2; auto.
Qed.

Lemma pair_filter_nil (ki kj k1 k2 : string) (a b : option Q) :
  kj <> partner ki k1 k2 ->
  filter (betweenPair k1 k2) (pairAspects ki kj a b) = [].
Proof.
  intro Hne. apply filter_nil. intros m Hm.
  apply pairAspects_between in Hm.
  destruct (betweenPair k1 k2 m) eqn:B; [|reflexivity].
  apply betweenPair_true in B. rewrite Hm in B. simpl in B.
  unfold partner in Hne.
  destruct (String.eqb_spec ki k1); destruct B as [[B1 B2]|[B1 B2]];
    congruence.
Qed.

Lemma row_le1 (ki k1 k2 : string) (a : option Q) (rest : obj position) :
  NoDup (keys rest) ->
  (List.length
     (filter (betweenPair k1 k2)
        (flat_map (fun e : string * position =>
                     pairAspects ki (fst e) a (p_absDegree (snd e)))
                  rest)) <= 1)%nat.
Proof.
  induction rest as [|e rest IH]; intro Hnd; simpl; [lia|].
  inversion Hnd as [|k ks Hnotin Hnd']; subst.
  rewrite filter_app, length_app.
  destruct (string_dec (fst e) (partner ki k1 k2)) as [Heq|Hne].
  - (* this entry may match; no later one has the partner key *)
    assert (Z0 : filter (betweenPair k1 k2)
                   (flat_map (fun e0 : string * position =>
                                pairAspects ki (fst e0) a
                                            (p_absDegree (snd e0)))
                             rest) = []).
    { apply filter_nil. intros m Hm. apply in_flat_map in Hm.
      destruct Hm as [e' [He' Hm]].
      assert (Hk : fst e' <> partner ki k1 k2).
      { intro Hk. apply Hnotin. rewrite Heq, <- Hk. unfold keys.
        now apply in_map. }
      pose proof (pair_filter_nil ki (fst e') k1 k2 a
                    (p_absDegree (snd e')) Hk) as F.
      destruct (betweenPair k1 k2 m) eqn:B; [|reflexivity].
      assert (Hin : In m (filter (betweenPair k1 k2)
                            (pairAspects ki (fst e') a
                                         (p_absDegree (snd e')))))
        by (apply filter_In; split; assumption).
      rewrite F in Hin. contradiction. }
    rewrite Z0. simpl. rewrite Nat.add_0_r.
    eapply Nat.le_trans; [apply filter_length_le | apply pairAspects_le1].
  - rewrite (pair_filter_nil _ _ _ _ _ _ Hne). simpl. apply IH, Hnd'.
Qed.

Lemma getAspects_pair_le1 (ps : obj position) (k1 k2 : string) :
  NoDup (keys ps) ->
  (List.length (filter (betweenPair k1 k2) (getAspects ps)) <= 1)%nat.
Proof.
  induction ps as [|[ki pi] rest IH]; intro Hnd; simpl; [lia|].
  inversion Hnd as [|k ks Hnotin Hnd']; subst.
  rewrite filter_app, length_app.
  destruct (string_dec ki k1) as [E1|N1]; [|destruct (string_dec ki k2) as [E2|N2]].
  - (* [ki] is one of the two bodies: no later pair can be the pair *)
    rewrite (filter_nil _ (getAspects rest)).
    + simpl. rewrite Nat.add_0_r. apply row_le1, Hnd'.
    + intros m Hm. destruct (betweenPair k1 k2 m) eqn:B; [|reflexivity].
      destruct (getAspects_keys rest m Hm) as [K1 K2].
      apply betweenPair_true in B. exfalso. apply Hnotin.
      destruct B as [[B1 _]|[_ B2]]; congruence.
  - rewrite (filter_nil _ (getAspects rest)).
    + simpl. rewrite Nat.add_0_r. apply row_le1, Hnd'.
    + intros m Hm. destruct (betweenPair k1 k2 m) eqn:B; [|reflexivity].
      destruct (getAspects_keys rest m Hm) as [K1 K2].
      apply betweenPair_true in B. exfalso. apply Hnotin.
      destruct B as [[_ B2]|[B1 _]]; congruence.
  - (* [ki] is neither body: its row holds no match of the pair *)
    rewrite (filter_nil _ (flat_map _ rest)).
    + simpl. apply IH, Hnd'.
    + intros m Hm. apply in_flat_map in Hm. destruct Hm as [e [_ Hm]].
      apply pairAspects_between in Hm.
      destruct (betweenPair k1 k2 m) eqn:B; [|reflexivity].
      apply betweenPair_true in B. rewrite Hm in B. simpl in B.
      destruct B as [[B1 _]|[B1 _]]; congruence.
Qed.

(** C9, the claim as written fails on the Sextile window: the orb of the
    Sextile is 6, so two bodies 53 degrees apart, inside the claimed window
    [52,66], get no Sextile match (and no match at all). *)
Lemma sextile_window_not_from_52 :
  ~ (forall a b : Q,
        0 <= a /\ a < 360 -> 0 <= b /\ b < 360 ->
        52 <= separation a b /\ separation a b <= 66 ->
        exists m,
          In m (getAspects [ ("Sun", at_longitude a); ("Moon", at_longitude b) ])
          /\ a_type m = "Sextile").
Proof.
  intro H. destruct (H 0 53) as [m [Hm _]].
  - split; [discriminate | reflexivity].
  - split; [discriminate | reflexivity].
  - split; discriminate.
  - vm_compute in Hm. exact Hm.
Qed.

(** C9, amended: for every positions mapping (distinct keys) [getAspects]
    emits at most one match per unordered pair of bodies; on the separation
    of two longitudes in [0,360) each catalog entry matches exactly on its
    window, the windows being [0,8] Conjunction, [54,66] Sextile, [82,98]
    Square, [112,128] Trine, [172,180] Opposition, and these are pairwise
    disjoint. *)
Theorem at_most_one_aspect_per_pair
  (positions : obj position) (k1 k2 : string) (a b : Q)
  (Hkeys : NoDup (keys positions))
  (Ha : 0 <= a /\ a < 360) (Hb : 0 <= b /\ b < 360) :
  (List.length (filter (betweenPair k1 k2) (getAspects positions)) <= 1)%nat
  /\ (forall asp, In asp aspectTypes ->
        exists lo hi,
          In (at_type asp, lo, hi) windows
          /\ (aspectMatches (separation a b) asp = true
              <-> lo <= separation a b /\ separation a b <= hi))
  /\ (forall n1 l1 h1 n2 l2 h2,
        In (n1, l1, h1) windows -> In (n2, l2, h2) windows ->
        n1 <> n2 -> h1 < l2 \/ h2 < l1).
Proof.
  split; [apply getAspects_pair_le1, Hkeys|]. split.
  - destruct (separation_bounds a b Ha Hb) as [S0 S1].
    set (d := separation a b) in *.
    intros asp Hasp. unfold aspectTypes in Hasp. simpl in Hasp.
    destruct Hasp as [<-|[<-|[<-|[<-|[<-|[]]]]]].
    + exists 0, 8. rewrite aspectMatches_window. cbn [at_type at_angle at_orb].
      split; [simpl; auto 8|]. split; intros [? ?]; split; lra.
    + exists 172, 180. rewrite aspectMatches_window.
      cbn [at_type at_angle at_orb].
      split; [simpl; auto 8|]. split; intros [? ?]; split; lra.
    + exists 112, 128. rewrite aspectMatches_window.
      cbn [at_type at_angle at_orb].
      split; [simpl; auto 8|]. split; intros [? ?]; split; lra.
    + exists 82, 98. rewrite aspectMatches_window.
      cbn [at_type at_angle at_orb].
      split; [simpl; auto 8|]. split; intros [? ?]; split; lra.
    + exists 54, 66. rewrite aspectMatches_window.
      cbn [at_type at_angle at_orb].
      split; [simpl; auto 8|]. split; intros [? ?]; split; lra.
  - intros n1 l1 h1 n2 l2 h2 H1 H2 Hne. unfold windows in H1, H2.
    simpl in H1, H2.
    repeat match goal with
      | H : _ \/ _ |- _ => destruct H as [H|H]
      | H : (_, _, _) = (_, _, _) |- _ => inversion H; subst; clear H
      | H : False |- _ => contradiction
      end;
      try congruence;
      first [left; reflexivity | right; reflexivity].
Qed.

Lemma at_most_one_aspect_per_pair_witness :
  NoDup (keys [ ("Sun", at_longitude 10); ("Moon", at_longitude 100) ])
  /\ (0 <= 10 /\ 10 < 360) /\ (0 <= 100 /\ 100 < 360)
  /\ ((List.length
         (filter (betweenPair "Moon" "Sun")
            (getAspects [ ("Sun", at_longitude 10);
                          ("Moon", at_longitude 100) ])) <= 1)%nat
      /\ (forall asp, In asp aspectTypes ->
            exists lo hi,
              In (at_type asp, lo, hi) windows
              /\ (aspectMatches (separation 10 100) asp = true
                  <-> lo <= separation 10 100 /\ separation 10 100 <= hi))
      /\ (forall n1 l1 h1 n2 l2 h2,
            In (n1, l1, h1) windows -> In (n2, l2, h2) windows ->
            n1 <> n2 -> h1 < l2 \/ h2 < l1)).
Proof.
  assert (N : NoDup (keys [ ("Sun", at_longitude 10);
                            ("Moon", at_longitude 100) ])).
  { simpl. constructor.
    - simpl. intros [H|H]; [discriminate H | exact H].
    - constructor; [intros [] | constructor]. }
  assert (Ra : 0 <= 10 /\ 10 < 360) by (split; [discriminate | reflexivity]).
  assert (Rb : 0 <= 100 /\ 100 < 360) by (split; [discriminate | reflexivity]).
  split; [exact N | split; [exact Ra | split; [exact Rb |]]].
  exact (at_most_one_aspect_per_pair _ "Moon" "Sun" 10 100 N Ra Rb).
Defined.

(* ------------------------------------------------------------------ *)
(** ** The transit pass *)

(** [getTransits] passes no houses on: every transit body comes back with
    house [null], whatever the ephemeris. *)
Lemma getTransits_no_house (E : ephemeris) (jdNatal jdTransit : JD E) :
  housesOf (getTransits E jdNatal jdTransit) = repeat None 12.
Proof. reflexivity. Qed.

Lemma deleteAbsDegree_houses (o : obj position) :
  housesOf (Flat.deleteAbsDegree o) = housesOf o.
Proof.
  unfold housesOf, Flat.deleteAbsDegree. rewrite map_map. reflexivity.
Qed.

(** In the flat variant a response with a transit part has no house in
    it. *)
Lemma flat_transits_no_house (E : ephemeris) (req : Flat.request)
                             (hs : list (option nat)) :
  flatTransitHouses E req = Some hs -> hs = repeat None 12.
Proof.
  unfold flatTransitHouses, Flat.natalChartHandler.
  destruct (parseDateTimeFields (Flat.date req) (Flat.time req)
                                (Flat.timezone req)) as [birth|];
    [|discriminate].
  destruct (truthyField (Flat.transit_date req)
            && truthyField (Flat.transit_time req)).
  - destruct (parseDateTimeFields (Flat.transit_date req)
                (Flat.transit_time req) (Flat.transit_timezone req))
      as [transit|]; [|discriminate].
    cbn [Flat.transits option_map]. rewrite deleteAbsDegree_houses.
    intro H. inversion H. reflexivity.
  - cbn. discriminate.
Qed.

(** The position loop of the structured variant puts each body in the house
    its longitude has among the cusps of the [houses] it is given. *)
Lemma positionsLoop_houses (E : ephemeris) (jd : JD E)
                           (houses : option housesData) (withRetro : bool) :
  housesOf (positionsLoop E jd houses withRetro)
  = map (fun pl => houseOf (natalCusps houses)
                           (longitude (swe_calc_ut E jd (pl_swe pl))))
        PLANETS.
Proof. reflexivity. Qed.

Opaque positionsLoop absLoop getAspects aspectsToNatal toFixed2 getSign.

(** In the structured variant the natal and the transit planets are built
    by the same loop from the same [houses], those of the birth moment. *)
Lemma structured_transit_uses_natal_houses
  (E : ephemeris) (req : Structured.request) (r : Structured.response)
  (t : Structured.transitResult) :
  Structured.natalChartHandler E req = Ok r ->
  Structured.transit_result r = Some t ->
  exists (jd jdTransit : JD E) (houses : option housesData),
    Structured.planets (Structured.natal_chart r)
    = positionsLoop E jd houses true
    /\ Structured.tr_planets t = positionsLoop E jdTransit houses false.
Proof.
  unfold Structured.natalChartHandler.
  destruct (parseDateTimeFields _ _ _) as [birthDT|]; [|discriminate].
  set (jd := toJulianDay E birthDT).
  set (houses := match Structured.coordOf _ _ _, Structured.coordOf _ _ _ with
                 | Some la, Some lo => _
                 | _, _ => None
                 end).
  destruct (Structured.transit_chart req) as [tc|].
  - destruct (truthyField (Structured.tc_date tc)
              && truthyField (Structured.tc_time tc)).
    + unfold Structured.transitPass.
      destruct (parseDateTimeFields _ _ _) as [transitDT|]; [|discriminate].
      intros [= <-] [= <-].
      exists jd, (toJulianDay E transitDT), houses. split; reflexivity.
    + intros [= <-]. discriminate.
  - intros [= <-]. discriminate.
Qed.

Transparent positionsLoop absLoop getAspects aspectsToNatal toFixed2 getSign.

(** C1, at the failing input: one birth moment, place and transit moment
    sent in the two request shapes.  The structured variant places the
    transit bodies among the natal cusps; the flat variant, whose
    [getTransits] calls [getAllPositions] without the houses, returns every
    transit body with house [null], although the natal bodies of the same
    response have houses. *)
Theorem flat_transits_lack_natal_houses :
  structuredTransitHouses sampleEphemeris sampleStructuredRequest
  = Some (map Some [5; 5; 6; 7; 8; 9; 10; 11; 12; 1; 2; 3]%nat)
  /\ flatTransitHouses sampleEphemeris sampleFlatRequest
     = Some (repeat None 12)
  /\ (exists r,
         Flat.natalChartHandler sampleEphemeris sampleFlatRequest = Ok r
         /\ natalCusps (Flat.houses r) = Some sampleCusps
         /\ housesOf (Flat.positions r)
            = map Some [3; 4; 5; 6; 7; 8; 9; 10; 11; 12; 1; 2]%nat).
Proof.
  split; [vm_compute; reflexivity|]. split; [vm_compute; reflexivity|].
  eexists. split; [vm_compute; reflexivity|]. split; vm_compute; reflexivity.
Qed.

(* ================================================================== *)
(** * Further properties of the engine *)

(* ------------------------------------------------------------------ *)
(** ** Rounding to two decimals *)

Lemma Qlt_bool_proper (x x' y y' : Q) :
  x == x' -> y == y' -> Qlt_bool x y = Qlt_bool x' y'.
Proof.
  intros Hx Hy. unfold Qlt_bool. now rewrite Hx, Hy.
Qed.

Lemma round2_proper (x y : Q) : x == y -> round2 x = round2 y.
Proof.
  intro H. unfold round2. apply Qred_complete.
  assert (E : Qfloor (x * 100 + (1 # 2)) = Qfloor (y * 100 + (1 # 2)))
    by now rewrite H.
  rewrite E. reflexivity.
Qed.

(** Equal numbers are printed alike. *)
Lemma toFixed2_proper (x y : Q) : x == y -> toFixed2 x = toFixed2 y.
Proof.
  intro H. unfold toFixed2.
  rewrite (Qlt_bool_proper x y 0 0 H (Qeq_refl 0)).
  assert (Hn : - x == - y) by now rewrite H.
  rewrite (round2_proper _ _ H), (round2_proper _ _ Hn). reflexivity.
Qed.

Lemma round2_hundredths (y : Q) : exists z : Z, round2 y == inject_Z z / 100.
Proof.
  exists (Qfloor (y * 100 + (1 # 2))). unfold round2. apply Qred_correct.
Qed.

Lemma toFixed2_hundredths (x : Q) :
  exists z : Z, toFixed2 x == inject_Z z / 100.
Proof.
  unfold toFixed2. destruct (Qlt_bool x 0).
  - destruct (round2_hundredths (- x)) as [z Hz]. exists (- z)%Z.
    rewrite Hz, inject_Z_opp.
    assert (E : forall q, q / 100 == q * (1 # 100)) by reflexivity.
    rewrite !E. ring.
  - apply round2_hundredths.
Qed.

Lemma toFixed2_error (x : Q) : Qabs (toFixed2 x - x) <= 1 # 200.
Proof.
  unfold toFixed2. apply Qabs_Qle_condition.
  destruct (Qlt_bool x 0).
  - destruct (round2_spec (- x)) as [H1 H2]. split; lra.
  - destruct (round2_spec x) as [H1 H2]. split; lra.
Qed.

Lemma toFixed2_nonneg (x : Q) : 0 <= x -> 0 <= toFixed2 x.
Proof.
  intro H. unfold toFixed2.
  destruct (Qlt_bool x 0) eqn:C; qcases; [lra|].
  assert (A : inject_Z 0 <= x) by exact H.
  assert (B : x < inject_Z (Qfloor x + 1)) by apply Qlt_floor.
  destruct (round2_range x 0 (Qfloor x + 1) A B) as [R _]. exact R.
Qed.

(** Rounding does not carry a number past an integer bound. *)
Lemma toFixed2_le (x : Q) (b : Z) :
  0 <= x -> x <= inject_Z b -> toFixed2 x <= inject_Z b.
Proof.
  intros H0 Hb. unfold toFixed2.
  destruct (Qlt_bool x 0) eqn:C; qcases; [lra|].
  unfold round2. rewrite Qred_correct.
  assert (R : (Qfloor (x * 100 + (1 # 2)) < 100 * b + 1)%Z).
  { apply (Qfloor_range _ 0 (100 * b + 1)).
    - change (inject_Z 0) with 0. lra.
    - rewrite inject_Z_plus, inject_Z_mult.
      change (inject_Z 100) with 100. change (inject_Z 1) with 1. lra. }
  set (n := Qfloor (x * 100 + (1 # 2))) in *.
  assert (E : inject_Z n / 100 == inject_Z n * (1 # 100)) by reflexivity.
  rewrite E.
  assert (R2 : inject_Z n <= inject_Z (100 * b)) by (rewrite <- Zle_Qle; lia).
  rewrite inject_Z_mult in R2. change (inject_Z 100) with 100 in R2. lra.
Qed.

(* ------------------------------------------------------------------ *)
(** ** Sign and degree beyond the contract *)

(** X1: for every longitude, in or out of [0,360), the degree in sign is a
    whole number of hundredths and lies within 0.005 of the remainder
    [degree % 30]. *)
Theorem getDegreeInSign_two_decimals (L : Q) :
  (exists z : Z, getDegreeInSign L == inject_Z z / 100)
  /\ Qabs (getDegreeInSign L - jsmod L 30) <= 1 # 200.
Proof.
  unfold getDegreeInSign. split.
  - apply toFixed2_hundredths.
  - apply toFixed2_error.
Qed.

Lemma jsmod_neg (L : Q) :
  L < 0 -> jsmod L 30 <= 0 /\ -30 < jsmod L 30.
Proof.
  intro H. unfold jsmod, Qtrunc.
  pose proof (div30 L) as E.
  assert (Hq : Qle_bool 0 (L / 30) = false).
  { apply Qle_bool_false_iff. set (q := L / 30) in *. lra. }
  rewrite Hq.
  pose proof (Qle_ceiling (L / 30)) as C1.
  pose proof (Qceiling_lt (L / 30)) as C2.
  unfold Z.sub in C2. rewrite inject_Z_plus in C2.
  set (q := L / 30) in *. set (c := inject_Z (Qceiling q)) in *.
  assert (C3 : c + -1 < q) by exact C2.
  split; lra.
Qed.

Lemma underflowGuard_pos : 0 < underflowGuard.
Proof. reflexivity. Qed.

(** X2: a negative longitude whose quotient by 30 does not underflow (one
    of magnitude at least [underflowGuard], 10^-300) is taken as it comes:
    the sign lookup is [undefined] and the degree in sign, the remainder
    keeping the sign of the dividend, lies in [-30,0]. *)
Theorem negative_longitude (L : Q) (H : L <= - underflowGuard) :
  getSign L = None
  /\ -30 <= getDegreeInSign L /\ getDegreeInSign L <= 0.
Proof.
  assert (H0 : L < 0) by (pose proof underflowGuard_pos; lra).
  split.
  - unfold getSign. destruct (signIndex_bounds L) as [B1 B2].
    assert (Hi : (signIndex L < 0)%Z).
    { rewrite Zlt_Qlt. change (inject_Z 0) with 0. lra. }
    apply Z.ltb_lt in Hi. rewrite Hi. reflexivity.
  - destruct (jsmod_neg L H0) as [M1 M2]. unfold getDegreeInSign.
    set (m := jsmod L 30) in *.
    destruct (Qeq_dec m 0) as [Z0|NZ].
    + rewrite (toFixed2_proper m 0 Z0). split; discriminate.
    + assert (Hneg : m < 0).
      { destruct (Qlt_le_dec m 0) as [?|Hge]; [assumption|].
        exfalso. apply NZ. apply Qle_antisym; assumption. }
      unfold toFixed2. apply Qlt_bool_iff in Hneg as Hb. rewrite Hb.
      assert (P0 : 0 <= - m) by lra.
      assert (P1 : - m <= inject_Z 30) by (change (inject_Z 30) with 30; lra).
      pose proof (toFixed2_nonneg _ P0) as T0.
      pose proof (toFixed2_le _ 30 P0 P1) as T1.
      change (inject_Z 30) with 30 in T1.
      unfold toFixed2 in T0, T1.
      assert (Hb' : Qlt_bool (- m) 0 = false)
        by (apply Qlt_bool_false_iff; lra).
      rewrite Hb' in T0, T1. split; lra.
Qed.

Lemma negative_longitude_witness :
  -5 <= - underflowGuard
  /\ (getSign (-5) = None
      /\ -30 <= getDegreeInSign (-5) /\ getDegreeInSign (-5) <= 0).
Proof.
  assert (R : -5 <= - underflowGuard) by (vm_compute; discriminate).
  split; [exact R | exact (negative_longitude (-5) R)].
Defined.

Lemma NoDup_SIGNS : NoDup SIGNS.
Proof.
  unfold SIGNS.
  repeat (constructor;
          [simpl; intro H;
           repeat (destruct H as [H|H]; [discriminate H|]); exact H|]).
  constructor.
Qed.

(** X3: two longitudes in [0,360) get the same sign exactly when they lie
    in the same sector of 30 degrees; no sign name serves two sectors. *)
Theorem same_sign_same_sector (L L' : Q)
  (H : 0 <= L /\ L < 360) (H' : 0 <= L' /\ L' < 360) :
  getSign L = getSign L' <-> signIndex L = signIndex L'.
Proof.
  destruct H as [H0 H1], H' as [H0' H1'].
  pose proof (signIndex_range L H0 H1) as R.
  pose proof (signIndex_range L' H0' H1') as R'.
  unfold getSign.
  replace (signIndex L <? 0)%Z with false by (symmetry; apply Z.ltb_ge; lia).
  replace (signIndex L' <? 0)%Z with false by (symmetry; apply Z.ltb_ge; lia).
  split.
  - intro E. pose proof NoDup_SIGNS as N.
    rewrite NoDup_nth_error in N.
    assert (Hn : Z.to_nat (signIndex L) = Z.to_nat (signIndex L')).
    { apply N; [simpl; lia | exact E]. }
    lia.
  - intros ->. reflexivity.
Qed.

Lemma same_sign_same_sector_witness :
  (0 <= 95 /\ 95 < 360) /\ (0 <= 119 /\ 119 < 360)
  /\ (getSign 95 = getSign 119 <-> signIndex 95 = signIndex 119).
Proof.
  assert (R : 0 <= 95 /\ 95 < 360) by (split; [discriminate | reflexivity]).
  assert (R' : 0 <= 119 /\ 119 < 360) by (split; [discriminate | reflexivity]).
  split; [exact R | split; [exact R' |]].
  exact (same_sign_same_sector 95 119 R R').
Defined.

(* ------------------------------------------------------------------ *)
(** ** What [getAspects] emits *)

Lemma in_pairAspects (k1 k2 : string) (a b : option Q) (m : aspect) :
  In m (pairAspects k1 k2 a b) <->
  exists x y asp,
    a = Some x /\ b = Some y /\ In asp aspectTypes
    /\ aspectMatches (separation x y) asp = true
    /\ m = mkAspect (at_type asp) (k1, k2)
                    (toFixed2 (Qabs (separation x y - at_angle asp))).
Proof.
  unfold pairAspects. split.
  - destruct a as [x|], b as [y|]; try contradiction.
    intro H. apply in_map_iff in H. destruct H as [asp [<- Hf]].
    apply filter_In in Hf. destruct Hf as [Hin Hm].
    exists x, y, asp. auto 6.
  - intros [x [y [asp [-> [-> [Hin [Hm ->]]]]]]].
    apply in_map_iff. exists asp. split; [reflexivity|].
    apply filter_In. auto.
Qed.

(** X4: [getAspects] emits a match exactly for two entries of the mapping,
    the first listed before the second, that both hold a longitude, and a
    catalog entry whose angle the separation meets within the orb; the
    match names the two bodies in that order and carries the rounded
    distance from the exact angle. *)
Theorem getAspects_characterised (positions : obj position) (m : aspect) :
  In m (getAspects positions) <->
  exists l1 l2 l3 k1 p1 k2 p2 a b asp,
    positions = (l1 ++ (k1, p1) :: l2 ++ (k2, p2) :: l3)%list
    /\ p_absDegree p1 = Some a /\ p_absDegree p2 = Some b
    /\ In asp aspectTypes
    /\ Qabs (separation a b - at_angle asp) <= at_orb asp
    /\ m = mkAspect (at_type asp) (k1, k2)
                    (toFixed2 (Qabs (separation a b - at_angle asp))).
Proof.
  split.
  - induction positions as [|[ki pi] rest IH]; simpl; [contradiction|].
    intro H. apply in_app_or in H. destruct H as [H|H].
    + apply in_flat_map in H. destruct H as [[kj pj] [He Hm]].
      apply in_pairAspects in Hm.
      destruct Hm as [x [y [asp [Hx [Hy [Hin [Hmatch ->]]]]]]].
      apply in_split in He. destruct He as [l2 [l3 ->]].
      exists [], l2, l3, ki, pi, kj, pj, x, y, asp. simpl in *.
      apply Qle_bool_iff in Hmatch. auto 8.
    + destruct (IH H)
        as [l1 [l2 [l3 [k1 [p1 [k2 [p2 [a [b [asp [-> R]]]]]]]]]]].
      exists ((ki, pi) :: l1), l2, l3, k1, p1, k2, p2, a, b, asp.
      split; [reflexivity | exact R].
  - intros [l1 [l2 [l3 [k1 [p1 [k2 [p2 [a [b [asp
             [-> [Ha [Hb [Hin [Hle ->]]]]]]]]]]]]]]].
    induction l1 as [|[k0 p0] l1 IH]; simpl.
    + apply in_or_app. left. apply in_flat_map. exists (k2, p2).
      split; [apply in_or_app; right; now left|].
      apply in_pairAspects. exists a, b, asp. simpl.
      apply Qle_bool_iff in Hle. auto 8.
    + apply in_or_app. right. exact IH.
Qed.

Lemma Sextile_is_the_entry (asp : aspectType) :
  In asp aspectTypes -> at_type asp = "Sextile" -> at_orb asp = 6.
Proof.
  unfold aspectTypes. simpl.
  intros [<-|[<-|[<-|[<-|[<-|[]]]]]]; simpl; intro H;
    try discriminate H; reflexivity.
Qed.

Lemma catalog_orb_le_8 (asp : aspectType) :
  In asp aspectTypes -> at_orb asp <= inject_Z 8.
Proof.
  unfold aspectTypes. simpl.
  intros [<-|[<-|[<-|[<-|[<-|[]]]]]]; simpl; discriminate.
Qed.

(** X5: no match carries a negative orb or one above 8 degrees, 6 for a
    Sextile: rounding to two decimals never lifts the orb over the
    tolerance of its type. *)
Theorem aspect_orb_within_tolerance (positions : obj position) (m : aspect) :
  In m (getAspects positions) ->
  0 <= a_orb m /\ a_orb m <= 8 /\ (a_type m = "Sextile" -> a_orb m <= 6).
Proof.
  intro H. apply getAspects_characterised in H.
  destruct H as [l1 [l2 [l3 [k1 [p1 [k2 [p2 [a [b [asp
                   [_ [_ [_ [Hin [Hle ->]]]]]]]]]]]]]]].
  cbn [a_orb a_type].
  set (d := Qabs (separation a b - at_angle asp)) in *.
  assert (D0 : 0 <= d) by apply Qabs_nonneg.
  split; [now apply toFixed2_nonneg|]. split.
  - apply (toFixed2_le d 8 D0).
    eapply Qle_trans; [exact Hle | now apply catalog_orb_le_8].
  - intro Hs. apply (toFixed2_le d 6 D0).
    rewrite (Sextile_is_the_entry asp Hin Hs) in Hle. exact Hle.
Qed.

Lemma aspect_orb_within_tolerance_witness :
  In (mkAspect "Square" ("Sun", "Moon") 0)
     (getAspects [ ("Sun", at_longitude 10); ("Moon", at_longitude 100) ])
  /\ (0 <= a_orb (mkAspect "Square" ("Sun", "Moon") 0)
      /\ a_orb (mkAspect "Square" ("Sun", "Moon") 0) <= 8
      /\ (a_type (mkAspect "Square" ("Sun", "Moon") 0) = "Sextile" ->
          a_orb (mkAspect "Square" ("Sun", "Moon") 0) <= 6)).
Proof.
  assert (I : In (mkAspect "Square" ("Sun", "Moon") 0)
                (getAspects [ ("Sun", at_longitude 10);
                              ("Moon", at_longitude 100) ]))
    by (left; reflexivity).
  split; [exact I | exact (aspect_orb_within_tolerance _ _ I)].
Defined.

Lemma row_length (ki : string) (a : option Q) (rest : obj position) :
  (List.length
     (flat_map (fun e : string * position =>
                  pairAspects ki (fst e) a (p_absDegree (snd e)))
               rest) <= List.length rest)%nat.
Proof.
  induction rest as [|e rest IH]; simpl; [lia|].
  rewrite length_app.
  pose proof (pairAspects_le1 ki (fst e) a (p_absDegree (snd e))). lia.
Qed.

(** X6: a mapping of [n] bodies yields at most [n (n - 1) / 2] matches,
    one per pair; an empty mapping or a single body yields none. *)
Theorem aspect_count_bound (positions : obj position) :
  (2 * List.length (getAspects positions)
   <= List.length positions * (List.length positions - 1))%nat.
Proof.
  induction positions as [|[ki pi] rest IH]; simpl; [lia|].
  rewrite length_app.
  pose proof (row_length ki (p_absDegree pi) rest) as R.
  rewrite Nat.sub_0_r. nia.
Qed.

Lemma row_skips_missing (ki : string) (a : option Q) (rest : obj position) :
  flat_map (fun e : string * position =>
              pairAspects ki (fst e) a (p_absDegree (snd e)))
           (filter hasLongitude rest)
  = flat_map (fun e : string * position =>
                pairAspects ki (fst e) a (p_absDegree (snd e)))
             rest.
Proof.
  induction rest as [|e rest IH]; simpl; [reflexivity|].
  unfold hasLongitude at 1.
  destruct (p_absDegree (snd e)) as [b|] eqn:E; simpl.
  - rewrite E, IH. reflexivity.
  - rewrite IH. unfold pairAspects at 2. destruct a; reflexivity.
Qed.

Lemma row_of_missing (ki : string) (rest : obj position) :
  flat_map (fun e : string * position =>
              pairAspects ki (fst e) None (p_absDegree (snd e)))
           rest = [].
Proof.
  induction rest as [|e rest IH]; simpl; [reflexivity | exact IH].
Qed.

(** X7: entries whose longitude is missing ([null] or [undefined]) are
    skipped: the matches are those of the mapping without them. *)
Theorem getAspects_skips_missing (positions : obj position) :
  getAspects positions = getAspects (filter hasLongitude positions).
Proof.
  induction positions as [|[ki pi] rest IH]; [reflexivity|].
  cbn [getAspects filter]. unfold hasLongitude at 1. cbn [snd].
  destruct (p_absDegree pi) as [a|] eqn:E; cbn [getAspects].
  - rewrite E, row_skips_missing, IH. reflexivity.
  - rewrite row_of_missing, IH. reflexivity.
Qed.

Lemma separation_sym (a b : Q) : separation a b = separation b a.
Proof.
  unfold separation. rewrite (Qabs_Qminus a b). reflexivity.
Qed.

(** X8: which of two bodies comes first in the mapping changes the order
    of the names in the match and nothing else: types and orbs are the
    same. *)
Theorem two_bodies_either_order (k1 k2 : string) (p1 p2 : position) :
  map typeAndOrb (getAspects [ (k1, p1); (k2, p2) ])
  = map typeAndOrb (getAspects [ (k2, p2); (k1, p1) ]).
Proof.
  simpl. rewrite !app_nil_r. unfold pairAspects.
  destruct (p_absDegree p1) as [a|], (p_absDegree p2) as [b|];
    try reflexivity.
  rewrite (separation_sym b a), !map_map. reflexivity.
Qed.

(* ------------------------------------------------------------------ *)
(** ** How many houses hold a longitude *)

(** One interval: it holds [L] as often as it wraps, plus one if its start
    is at or below [L], minus one if its end is. *)
Lemma interval_balance (s e L : Q) :
  Z.b2z (if lt_u (Some s) (Some e)
         then ge_u (Some L) (Some s) && lt_u (Some L) (Some e)
         else ge_u (Some L) (Some s) || lt_u (Some L) (Some e))
  = (Z.b2z (negb (lt_u (Some s) (Some e)))
     + Z.b2z (Qle_bool s L) - Z.b2z (Qle_bool e L))%Z.
Proof.
  simpl. unfold Qlt_bool.
  destruct (Qle_bool e s) eqn:A, (Qle_bool s L) eqn:B, (Qle_bool e L) eqn:C;
    simpl; try reflexivity; exfalso; qcases; lra.
Qed.

Lemma b2n_b2z (b : bool) : Z.of_nat (Nat.b2n b) = Z.b2z b.
Proof. destruct b; reflexivity. Qed.

Lemma count_1_to_12 (f : nat -> bool) :
  Z.of_nat (List.length (filter f (seq 1 12)))
  = (Z.b2z (f 1%nat) + Z.b2z (f 2%nat) + Z.b2z (f 3%nat) + Z.b2z (f 4%nat)
     + Z.b2z (f 5%nat) + Z.b2z (f 6%nat) + Z.b2z (f 7%nat) + Z.b2z (f 8%nat)
     + Z.b2z (f 9%nat) + Z.b2z (f 10%nat) + Z.b2z (f 11%nat)
     + Z.b2z (f 12%nat))%Z.
Proof.
  cbn [seq]. rewrite !filter_length_cons. cbn [filter List.length].
  rewrite !Nat2Z.inj_add, !b2n_b2z. simpl Z.of_nat. lia.
Qed.

(** Going once round the twelve cusps the starts and ends cancel: the
    houses that hold [L] are as many as the intervals that wrap. *)
Lemma containing_count (cusps : list Q) (L : Q) :
  List.length cusps = 12%nat ->
  List.length (filter (houseContains cusps L) (seq 1 12))
  = List.length (filter (wraps cusps) (seq 1 12)).
Proof.
  intro Hlen.
  destruct cusps as [|c0 cusps]; [discriminate Hlen|].
  destruct cusps as [|c1 cusps]; [discriminate Hlen|].
  destruct cusps as [|c2 cusps]; [discriminate Hlen|].
  destruct cusps as [|c3 cusps]; [discriminate Hlen|].
  destruct cusps as [|c4 cusps]; [discriminate Hlen|].
  destruct cusps as [|c5 cusps]; [discriminate Hlen|].
  destruct cusps as [|c6 cusps]; [discriminate Hlen|].
  destruct cusps as [|c7 cusps]; [discriminate Hlen|].
  destruct cusps as [|c8 cusps]; [discriminate Hlen|].
  destruct cusps as [|c9 cusps]; [discriminate Hlen|].
  destruct cusps as [|c10 cusps]; [discriminate Hlen|].
  destruct cusps as [|c11 cusps]; [discriminate Hlen|].
  destruct cusps; [|discriminate Hlen]. clear Hlen.
  apply Nat2Z.inj. rewrite !count_1_to_12.
  set (cs := [c0; c1; c2; c3; c4; c5; c6; c7; c8; c9; c10; c11]).
  pose proof (interval_balance c0 c1 L) as B1.
  pose proof (interval_balance c1 c2 L) as B2.
  pose proof (interval_balance c2 c3 L) as B3.
  pose proof (interval_balance c3 c4 L) as B4.
  pose proof (interval_balance c4 c5 L) as B5.
  pose proof (interval_balance c5 c6 L) as B6.
  pose proof (interval_balance c6 c7 L) as B7.
  pose proof (interval_balance c7 c8 L) as B8.
  pose proof (interval_balance c8 c9 L) as B9.
  pose proof (interval_balance c9 c10 L) as B10.
  pose proof (interval_balance c10 c11 L) as B11.
  pose proof (interval_balance c11 c0 L) as B12.
  change (Z.b2z (houseContains cs L 1)
          = (Z.b2z (wraps cs 1) + Z.b2z (Qle_bool c0 L)
             - Z.b2z (Qle_bool c1 L))%Z) in B1.
  change (Z.b2z (houseContains cs L 2)
          = (Z.b2z (wraps cs 2) + Z.b2z (Qle_bool c1 L)
             - Z.b2z (Qle_bool c2 L))%Z) in B2.
  change (Z.b2z (houseContains cs L 3)
          = (Z.b2z (wraps cs 3) + Z.b2z (Qle_bool c2 L)
             - Z.b2z (Qle_bool c3 L))%Z) in B3.
  change (Z.b2z (houseContains cs L 4)
          = (Z.b2z (wraps cs 4) + Z.b2z (Qle_bool c3 L)
             - Z.b2z (Qle_bool c4 L))%Z) in B4.
  change (Z.b2z (houseContains cs L 5)
          = (Z.b2z (wraps cs 5) + Z.b2z (Qle_bool c4 L)
             - Z.b2z (Qle_bool c5 L))%Z) in B5.
  change (Z.b2z (houseContains cs L 6)
          = (Z.b2z (wraps cs 6) + Z.b2z (Qle_bool c5 L)
             - Z.b2z (Qle_bool c6 L))%Z) in B6.
  change (Z.b2z (houseContains cs L 7)
          = (Z.b2z (wraps cs 7) + Z.b2z (Qle_bool c6 L)
             - Z.b2z (Qle_bool c7 L))%Z) in B7.
  change (Z.b2z (houseContains cs L 8)
          = (Z.b2z (wraps cs 8) + Z.b2z (Qle_bool c7 L)
             - Z.b2z (Qle_bool c8 L))%Z) in B8.
  change (Z.b2z (houseContains cs L 9)
          = (Z.b2z (wraps cs 9) + Z.b2z (Qle_bool c8 L)
             - Z.b2z (Qle_bool c9 L))%Z) in B9.
  change (Z.b2z (houseContains cs L 10)
          = (Z.b2z (wraps cs 10) + Z.b2z (Qle_bool c9 L)
             - Z.b2z (Qle_bool c10 L))%Z) in B10.
  change (Z.b2z (houseContains cs L 11)
          = (Z.b2z (wraps cs 11) + Z.b2z (Qle_bool c10 L)
             - Z.b2z (Qle_bool c11 L))%Z) in B11.
  change (Z.b2z (houseContains cs L 12)
          = (Z.b2z (wraps cs 12) + Z.b2z (Qle_bool c11 L)
             - Z.b2z (Qle_bool c0 L))%Z) in B12.
  lia.
Qed.

(** X9: for any twelve cusps and any longitude, the number of houses whose
    interval holds the longitude equals the number of intervals that wrap
    ([start >= end]). *)
Theorem houses_holding_equal_wraps (cusps : list Q) (L : Q)
  (H : List.length cusps = 12%nat) :
  List.length (filter (houseContains cusps L) (seq 1 12))
  = List.length (filter (wraps cusps) (seq 1 12)).
Proof. exact (containing_count cusps L H). Qed.

Lemma houses_holding_equal_wraps_witness :
  List.length sampleCusps = 12%nat
  /\ List.length (filter (houseContains sampleCusps 355) (seq 1 12))
     = List.length (filter (wraps sampleCusps) (seq 1 12)).
Proof.
  split; [reflexivity | exact (houses_holding_equal_wraps sampleCusps 355 eq_refl)].
Defined.

Lemma singleton_filter {A : Type} (f : A -> bool) (l : list A) (x y : A) :
  List.length (filter f l) = 1%nat ->
  In x l -> f x = true -> In y l -> f y = true -> x = y.
Proof.
  intros Hlen Hx Fx Hy Fy.
  assert (Ix : In x (filter f l)) by (apply filter_In; auto).
  assert (Iy : In y (filter f l)) by (apply filter_In; auto).
  destruct (filter f l) as [|z [|z' t]]; try discriminate Hlen.
  destruct Ix as [<-|[]], Iy as [<-|[]]. reflexivity.
Qed.

(** X10: when the cusps go once round the zodiac, so that one interval
    wraps and no other, every longitude lies in one house only: the house
    the scan assigns is the single house whose interval holds it, and the
    rule that the first interval wins never has to choose. *)
Theorem one_wrap_one_house (cusps : list Q) (L : Q)
  (Hlen : List.length cusps = 12%nat)
  (Hwrap : List.length (filter (wraps cusps) (seq 1 12)) = 1%nat) :
  exists h : nat,
    houseOf (Some cusps) L = Some h
    /\ forall h', (1 <= h' <= 12)%nat ->
                  (houseContains cusps L h' = true <-> h' = h).
Proof.
  rewrite <- (containing_count cusps L Hlen) in Hwrap.
  unfold houseOf. pose proof (houseScan_seq cusps L 12 1) as S.
  destruct (houseScan cusps L (seq 1 12)) as [h|].
  - destruct S as [R [C _]]. exists h. split; [reflexivity|].
    intros h' R'. split.
    + intro C'. apply (singleton_filter _ _ h' h Hwrap);
        try assumption; apply in_seq; lia.
    + intros ->. exact C.
  - exfalso. exact (some_house_contains cusps L Hlen S).
Qed.

Lemma one_wrap_one_house_witness :
  List.length sampleCusps = 12%nat
  /\ List.length (filter (wraps sampleCusps) (seq 1 12)) = 1%nat
  /\ exists h : nat,
       houseOf (Some sampleCusps) 355 = Some h
       /\ forall h', (1 <= h' <= 12)%nat ->
                     (houseContains sampleCusps 355 h' = true <-> h' = h).
Proof.
  split; [reflexivity | split; [reflexivity |]].
  exact (one_wrap_one_house sampleCusps 355 eq_refl eq_refl).
Defined.

Lemma contains_own_start (s e : Q) :
  (if lt_u (Some s) (Some e)
   then ge_u (Some s) (Some s) && lt_u (Some s) (Some e)
   else ge_u (Some s) (Some s) || lt_u (Some s) (Some e)) = true.
Proof.
  simpl. assert (R : Qle_bool s s = true) by (apply Qle_bool_iff, Qle_refl).
  rewrite R. destruct (Qlt_bool s e); reflexivity.
Qed.

(** X11: the start of an interval belongs to it: a body standing exactly on
    the cusp that opens house [h] is held by the interval of house [h], and
    the scan gives it house [h] or one before it. *)
Theorem body_on_cusp (cusps : list Q) (h : nat)
  (Hlen : List.length cusps = 12%nat) (Hh : (1 <= h <= 12)%nat) :
  exists c : Q,
    nth_error cusps (h - 1) = Some c
    /\ houseContains cusps c h = true
    /\ exists h', houseOf (Some cusps) c = Some h' /\ (1 <= h' <= h)%nat.
Proof.
  destruct (nth_error cusps (h - 1)) as [c|] eqn:Es;
    [|apply nth_error_None in Es; lia].
  destruct (nth_error cusps (h mod 12)) as [e|] eqn:Ee;
    [|apply nth_error_None in Ee;
      pose proof (Nat.mod_upper_bound h 12 ltac:(lia)); lia].
  assert (C : houseContains cusps c h = true).
  { unfold houseContains. rewrite Es, Ee. apply contains_own_start. }
  exists c. split; [reflexivity|]. split; [exact C|].
  unfold houseOf. pose proof (houseScan_seq cusps c 12 1) as S.
  destruct (houseScan cusps c (seq 1 12)) as [h'|].
  - destruct S as [R [_ Hpre]]. exists h'. split; [reflexivity|].
    split; [lia|]. destruct (le_lt_dec h' h) as [?|Hlt]; [assumption|].
    rewrite (Hpre h ltac:(lia)) in C. discriminate C.
  - rewrite (S h ltac:(lia)) in C. discriminate C.
Qed.

Lemma body_on_cusp_witness :
  List.length sampleCusps = 12%nat /\ (1 <= 12 <= 12)%nat
  /\ exists c : Q,
       nth_error sampleCusps (12 - 1) = Some c
       /\ houseContains sampleCusps c 12 = true
       /\ exists h', houseOf (Some sampleCusps) c = Some h'
                     /\ (1 <= h' <= 12)%nat.
Proof.
  assert (R : (1 <= 12 <= 12)%nat) by lia.
  split; [reflexivity | split; [exact R |]].
  exact (body_on_cusp sampleCusps 12 eq_refl R).
Defined.

(* ------------------------------------------------------------------ *)
(** ** Parsing dates and times *)

(** X12: a time with no colon raises nothing and gives no hour: the
    minutes are read from a missing array element, and the hour returned is
    [NaN] whatever the date and the timezone. *)
Theorem time_without_colon (date time : string) (tz : tzValue)
  (H : hasChar ":" time = false) :
  hour (parseDateTime date time tz) = NaN.
Proof.
  unfold parseDateTime, localHour. cbn [hour].
  rewrite (split_without _ _ H). cbn [map nth_error toNumber jsdiv].
  destruct (Number time); reflexivity.
Qed.

Lemma time_without_colon_witness :
  hasChar ":" "1000" = false
  /\ hour (parseDateTime "2000-01-15" "1000" (TzString "Z")) = NaN.
Proof.
  split; [reflexivity|].
  exact (time_without_colon "2000-01-15" "1000" (TzString "Z") eq_refl).
Defined.

(** X13: a date written as three groups of digits and a time written as
    two, each of at most fifteen digits (so that the number the digits
    spell is a double), are read as those numbers with no check of their
    range (a month 13 or an hour 25 is taken as it is): year, month and
    day are the numbers spelled, the local hour is the sum of the number
    of the first group and the quotient by 60 of the number of the second,
    and the hour returned is that sum less the offset. *)
Theorem digits_are_taken_as_written (y m d hh mm : string) (tz : tzValue)
  (Hy : exactDigits y = true) (Hm : exactDigits m = true)
  (Hd : exactDigits d = true)
  (Hhh : exactDigits hh = true) (Hmm : exactDigits mm = true) :
  let r := parseDateTime (y ++ "-" ++ m ++ "-" ++ d) (hh ++ ":" ++ mm) tz in
  numIs (toNumber (year r)) (digitsValue y)
  /\ numIs (toNumber (month r)) (digitsValue m)
  /\ numIs (toNumber (day r)) (digitsValue d)
  /\ numIs (Number hh) (digitsValue hh)
  /\ numIs (Number mm) (digitsValue mm)
  /\ localHour (hh ++ ":" ++ mm) = jsadd (Number hh) (jsdiv (Number mm) 60)
  /\ hour r = jssub (jsadd (Number hh) (jsdiv (Number mm) 60)) (tzOffset tz).
Proof.
  apply exactDigits_isDigits in Hy, Hm, Hd, Hhh, Hmm.
  pose proof (localHour_digits hh mm Hhh Hmm) as LH.
  cbv zeta. unfold parseDateTime. cbn [year month day hour].
  rewrite LH. clear LH.
  change (y ++ "-" ++ m ++ "-" ++ d)
    with (y ++ String "-" (m ++ String "-" d)).
  rewrite (split_digits_then "-" y _ (isDigits_all y Hy) eq_refl).
  rewrite (split_digits_then "-" m _ (isDigits_all m Hm) eq_refl).
  rewrite (split_without "-" d)
    by (apply hasChar_digits; [exact (isDigits_all d Hd) | reflexivity]).
  cbn [map nth_error toNumber].
  pose proof (Number_digits y Hy) as Ny.
  pose proof (Number_digits m Hm) as Nm.
  pose proof (Number_digits d Hd) as Nd.
  pose proof (Number_digits hh Hhh) as Nh.
  pose proof (Number_digits mm Hmm) as Nmm.
  repeat split; assumption.
Qed.

Lemma digits_are_taken_as_written_witness :
  exactDigits "2000" = true /\ exactDigits "13" = true
  /\ exactDigits "45" = true
  /\ exactDigits "25" = true /\ exactDigits "30" = true
  /\ (let r := parseDateTime ("2000" ++ "-" ++ "13" ++ "-" ++ "45")
                             ("25" ++ ":" ++ "30") (TzNumber (Fin 2)) in
      numIs (toNumber (year r)) (digitsValue "2000")
      /\ numIs (toNumber (month r)) (digitsValue "13")
      /\ numIs (toNumber (day r)) (digitsValue "45")
      /\ numIs (Number "25") (digitsValue "25")
      /\ numIs (Number "30") (digitsValue "30")
      /\ localHour ("25" ++ ":" ++ "30")
         = jsadd (Number "25") (jsdiv (Number "30") 60)
      /\ hour r = jssub (jsadd (Number "25") (jsdiv (Number "30") 60))
                        (tzOffset (TzNumber (Fin 2)))).
Proof.
  do 5 (split; [reflexivity|]).
  exact (digits_are_taken_as_written "2000" "13" "45" "25" "30"
           (TzNumber (Fin 2)) eq_refl eq_refl eq_refl eq_refl eq_refl).
Defined.

(** The reading of 25:30 at offset 2, evaluated: hour 23.5. *)
Example digits_scenario :
  numIs (hour (parseDateTime "2000-13-45" "25:30" (TzNumber (Fin 2))))
        (47 # 2).
Proof. vm_compute. reflexivity. Qed.

(* ------------------------------------------------------------------ *)
(** ** Distributions on any mapping *)

(** X14: in either distribution every category holds a whole number
    between 0 and the number of entries of the mapping, whatever the signs
    are. *)
Theorem counts_are_bounded (positions : obj position) (c : string) :
  (In c elementCats ->
   exists n : nat,
     (n <= List.length positions)%nat
     /\ count (getElementalDistribution positions) c
        = Fin (inject_Z (Z.of_nat n)))
  /\ (In c modeCats ->
      exists n : nat,
        (n <= List.length positions)%nat
        /\ count (getModalDistribution positions) c
           = Fin (inject_Z (Z.of_nat n))).
Proof.
  split; intro Hc.
  - exists (List.length (filter (hits ELEMENTS c) positions)).
    split; [apply filter_length_le | now apply elemental_count].
  - exists (List.length (filter (hits MODES c) positions)).
    split; [apply filter_length_le | now apply modal_count].
Qed.

Lemma filter_length_perm {A : Type} (f : A -> bool) (l l' : list A) :
  Permutation l l' ->
  List.length (filter f l) = List.length (filter f l').
Proof.
  induction 1 as [|x l l' _ IH|x y l|l l' l'' _ IH1 _ IH2].
  - reflexivity.
  - rewrite !filter_length_cons, IH. reflexivity.
  - rewrite !filter_length_cons. lia.
  - congruence.
Qed.

(** X15: the counts do not depend on the order in which the bodies are
    listed. *)
Theorem counts_ignore_order (positions positions' : obj position)
  (c : string) (H : Permutation positions positions') :
  (In c elementCats ->
   count (getElementalDistribution positions) c
   = count (getElementalDistribution positions') c)
  /\ (In c modeCats ->
      count (getModalDistribution positions) c
      = count (getModalDistribution positions') c).
Proof.
  split; intro Hc.
  - rewrite !elemental_count by exact Hc.
    rewrite (filter_length_perm _ _ _ H). reflexivity.
  - rewrite !modal_count by exact Hc.
    rewrite (filter_length_perm _ _ _ H). reflexivity.
Qed.

Lemma counts_ignore_order_witness :
  Permutation [ ("Sun", with_sign "Leo"); ("Moon", with_sign "Cancer") ]
              [ ("Moon", with_sign "Cancer"); ("Sun", with_sign "Leo") ]
  /\ ((In "Fire" elementCats ->
       count (getElementalDistribution
                [ ("Sun", with_sign "Leo"); ("Moon", with_sign "Cancer") ])
             "Fire"
       = count (getElementalDistribution
                  [ ("Moon", with_sign "Cancer"); ("Sun", with_sign "Leo") ])
               "Fire")
      /\ (In "Fire" modeCats ->
          count (getModalDistribution
                   [ ("Sun", with_sign "Leo"); ("Moon", with_sign "Cancer") ])
                "Fire"
          = count (getModalDistribution
                     [ ("Moon", with_sign "Cancer"); ("Sun", with_sign "Leo") ])
                  "Fire")).
Proof.
  assert (P : Permutation
                [ ("Sun", with_sign "Leo"); ("Moon", with_sign "Cancer") ]
                [ ("Moon", with_sign "Cancer"); ("Sun", with_sign "Leo") ])
    by apply perm_swap.
  split; [exact P | exact (counts_ignore_order _ _ "Fire" P)].
Defined.

(** X16: the two tables classify the twelve signs and nothing else: each
    sign has one element and one mode, no other name has either, and the
    element together with the mode tells the sign. *)
Theorem tables_classify_the_signs :
  (forall s, In s SIGNS ->
     exists e m,
       get ELEMENTS s = Some e /\ In e elementCats
       /\ get MODES s = Some m /\ In m modeCats)
  /\ (forall s, get ELEMENTS s <> None \/ get MODES s <> None -> In s SIGNS)
  /\ (forall s s', In s SIGNS -> In s' SIGNS ->
        get ELEMENTS s = get ELEMENTS s' -> get MODES s = get MODES s' ->
        s = s').
Proof.
  split; [|split].
  - intros s Hs. unfold SIGNS in Hs. simpl in Hs.
    repeat (destruct Hs as [<-|Hs];
            [eexists; eexists; repeat split; simpl; auto 6|]).
    contradiction.
  - intros s H. destruct (in_dec string_dec s SIGNS) as [?|Hn]; [assumption|].
    exfalso. unfold SIGNS in Hn. simpl in Hn, H.
    split_sign s; try (apply Hn; auto 13; fail).
    destruct H as [H|H]; apply H; reflexivity.
  - intros s s' Hs Hs'. unfold SIGNS in Hs, Hs'. simpl in Hs, Hs'.
    repeat (destruct Hs as [<-|Hs]);
      try contradiction;
      repeat (destruct Hs' as [<-|Hs']);
      try contradiction; simpl; intros E M;
      try reflexivity; try discriminate E; discriminate M.
Qed.

(* ------------------------------------------------------------------ *)
(** ** The flat handler *)

Lemma getAllPositions_entries (E : ephemeris) (jd : JD E)
                              (houses : option housesData) :
  getAllPositions E jd houses
  = map (fun pl =>
           (pl_name pl,
            {| p_sign := getSign (longitude (swe_calc_ut E jd (pl_swe pl)));
               p_degree :=
                 Some (getDegreeInSign
                         (longitude (swe_calc_ut E jd (pl_swe pl))));
               p_house := houseOf (cuspsOf houses)
                            (longitude (swe_calc_ut E jd (pl_swe pl)));
               p_absDegree := Some (longitude (swe_calc_ut E jd (pl_swe pl)));
               p_retrograde := None |}))
        PLANETS.
Proof. reflexivity. Qed.

Lemma getSign_in (q : Q) (s : string) : getSign q = Some s -> In s SIGNS.
Proof.
  unfold getSign. destruct (signIndex q <? 0)%Z; [discriminate|].
  apply nth_error_In.
Qed.

Lemma zodiac_not_inherited (s : string) :
  In s SIGNS -> existsb (String.eqb s) ObjectPrototype = false.
Proof.
  unfold SIGNS. simpl.
  intro H. repeat (destruct H as [<-|H]; [reflexivity|]). contradiction.
Qed.

Lemma getAllPositions_plain (E : ephemeris) (jd : JD E)
                            (houses : option housesData) :
  forallb plainSign (getAllPositions E jd houses) = true.
Proof.
  rewrite getAllPositions_entries. apply forallb_forall.
  intros e He. apply in_map_iff in He. destruct He as [pl [<- _]].
  unfold plainSign. cbn [snd p_sign].
  destruct (getSign _) as [s|] eqn:G; [|reflexivity].
  rewrite (zodiac_not_inherited s (getSign_in _ _ G)). reflexivity.
Qed.

Opaque getAllPositions getAspects getElementalDistribution
       getModalDistribution getTransits parseDateTime.

(** The response of the flat handler when [date] and [time] are there. *)
Lemma flat_handler_ok (E : ephemeris) (req : Flat.request) (d t : string) :
  Flat.date req = Some d -> Flat.time req = Some t ->
  Flat.natalChartHandler E req
  = Ok (Flat.mkResponse
          (Flat.deleteAbsDegree
             (getAllPositions E (flatJd E req d t) (flatHouses E req d t)))
          (getAspects
             (getAllPositions E (flatJd E req d t) (flatHouses E req d t)))
          (getElementalDistribution
             (getAllPositions E (flatJd E req d t) (flatHouses E req d t)))
          (getModalDistribution
             (getAllPositions E (flatJd E req d t) (flatHouses E req d t)))
          (flatHouses E req d t)
          (flatTransits E req d t)).
Proof.
  intros Hd Ht.
  unfold Flat.natalChartHandler, flatTransits, flatHouses, flatJd.
  rewrite Hd, Ht. cbn [parseDateTimeFields].
  destruct (Flat.transit_date req) as [tda|],
           (Flat.transit_time req) as [tti|]; cbn [truthyField].
  - destruct (truthyString tda && truthyString tti); reflexivity.
  - rewrite andb_false_r. reflexivity.
  - reflexivity.
  - reflexivity.
Qed.

(** On a body whose fields are strings or missing the handler on JSON
    bodies is the typed handler. *)
Lemma flat_json_typed (E : ephemeris) (req : Flat.request) :
  FlatJson.natalChartHandler E (FlatJson.ofTyped req)
  = Flat.natalChartHandler E req.
Proof.
  destruct req as [d t la lo td tt h tz ttz].
  unfold FlatJson.natalChartHandler, Flat.natalChartHandler, FlatJson.ofTyped.
  cbn [FlatJson.date FlatJson.time FlatJson.lat FlatJson.lon
       FlatJson.transit_date FlatJson.transit_time FlatJson.hsys
       FlatJson.timezone FlatJson.transit_timezone
       Flat.date Flat.time Flat.lat Flat.lon Flat.transit_date
       Flat.transit_time Flat.hsys Flat.timezone Flat.transit_timezone].
  destruct d as [d|], t as [t|];
    cbn [fieldOf parseDateTimeJson parseDateTimeFields]; try reflexivity.
  destruct td as [td|], tt as [tt|];
    cbn [fieldOf truthyJson truthyField parseDateTimeJson
         parseDateTimeFields andb];
    reflexivity.
Qed.

(** X17: the flat handler, on a body that may hold any JSON value in its
    date and time fields, answers with status 500 exactly when [date] is
    no string, or [time] is no string, or both transit fields are truthy
    and one of them is no string.  Nothing else in the body (a string that
    is no date, a missing place, transit fields of which one is missing,
    empty, zero or false) makes it fail.  The coordinates are numbers or
    missing and the ephemeris answers every call. *)
Theorem flat_handler_fails_iff (E : ephemeris) (req : FlatJson.request) :
  FlatJson.natalChartHandler E req = Error500
  <-> isString (FlatJson.date req) = false
      \/ isString (FlatJson.time req) = false
      \/ unreadable (FlatJson.transit_date req) (FlatJson.transit_time req)
         = true.
Proof.
  unfold FlatJson.natalChartHandler, unreadable.
  destruct (FlatJson.date req) as [|d|bd], (FlatJson.time req) as [|t|bt];
    cbn [parseDateTimeJson isString];
    try (split; [intros _; auto | reflexivity]).
  destruct (FlatJson.transit_date req) as [|td|btd],
           (FlatJson.transit_time req) as [|tt|btt];
    cbn [truthyJson isString andb negb parseDateTimeJson];
    repeat match goal with
           | |- context [truthyString ?s] => destruct (truthyString s)
           | b : bool |- _ => destruct b
           end;
    cbn [andb negb];
    (split;
     [ intro H; try discriminate H; auto
     | intros [H|[H|H]]; try discriminate H; reflexivity ]).
Qed.

(** The two bodies with a number for a date, evaluated: status 500 for
    each, and a response once the number is sent as a string. *)
Example numeric_date_fails :
  FlatJson.natalChartHandler sampleEphemeris numericDateBody = Error500
  /\ FlatJson.natalChartHandler sampleEphemeris numericTransitBody = Error500
  /\ FlatJson.natalChartHandler sampleEphemeris
       (withTransitJson numericTransitBody JAbsent JAbsent TzOther)
     <> Error500
  /\ FlatJson.natalChartHandler sampleEphemeris
       (withTransitJson numericTransitBody (JOther true) JAbsent TzOther)
     <> Error500.
Proof.
  split; [reflexivity|]. split; [reflexivity|].
  split; intro H; vm_compute in H; discriminate H.
Qed.

Transparent getAllPositions getAspects getElementalDistribution
            getModalDistribution getTransits parseDateTime.

(** X18: in a response of the flat handler the elemental and the modal
    distribution hold the four and the three categories and no other key,
    for every ephemeris: the signs the handler computes never reach the
    inherited names of the tables. *)
Theorem flat_response_distributions (E : ephemeris) (req : Flat.request)
  (d t : string) (Hd : Flat.date req = Some d) (Ht : Flat.time req = Some t) :
  exists r,
    Flat.natalChartHandler E req = Ok r
    /\ keys (Flat.elemental_distribution r) = elementCats
    /\ keys (Flat.modal_distribution r) = modeCats.
Proof.
  eexists. split; [apply (flat_handler_ok E req d t Hd Ht)|].
  cbn [Flat.elemental_distribution Flat.modal_distribution].
  apply distribution_keys_plain, getAllPositions_plain.
Qed.

Lemma flat_response_distributions_witness :
  Flat.date sampleFlatRequest = Some "2000-01-15"
  /\ Flat.time sampleFlatRequest = Some "10:00"
  /\ exists r,
       Flat.natalChartHandler sampleEphemeris sampleFlatRequest = Ok r
       /\ keys (Flat.elemental_distribution r) = elementCats
       /\ keys (Flat.modal_distribution r) = modeCats.
Proof.
  split; [reflexivity | split; [reflexivity |]].
  exact (flat_response_distributions sampleEphemeris sampleFlatRequest
           "2000-01-15" "10:00" eq_refl eq_refl).
Defined.

Lemma elemental_total_count (ps : obj position) :
  numIs (elementalTotal (getElementalDistribution ps))
        (inject_Z (Z.of_nat (List.length (filter zodiacHit ps)))).
Proof.
  unfold elementalTotal. rewrite !elemental_count by (simpl; auto 6).
  rewrite <- count_elements. simpl.
  rewrite !Nat2Z.inj_add, !inject_Z_plus. reflexivity.
Qed.

Lemma modal_total_count (ps : obj position) :
  numIs (modalTotal (getModalDistribution ps))
        (inject_Z (Z.of_nat (List.length (filter zodiacHit ps)))).
Proof.
  unfold modalTotal. rewrite !modal_count by (simpl; auto 6).
  rewrite <- count_modes. simpl.
  rewrite !Nat2Z.inj_add, !inject_Z_plus. reflexivity.
Qed.

Lemma filter_all {A : Type} (f : A -> bool) (l : list A) :
  forallb f l = true -> filter f l = l.
Proof.
  induction l as [|x l IH]; simpl; [reflexivity|].
  intro H. apply andb_true_iff in H. destruct H as [Hx Hl].
  rewrite Hx, (IH Hl). reflexivity.
Qed.

Lemma in_contract_zodiac (E : ephemeris) (jd : JD E)
                         (houses : option housesData) :
  (forall b, 0 <= longitude (swe_calc_ut E jd b)
             /\ longitude (swe_calc_ut E jd b) < 360) ->
  forallb zodiacHit (getAllPositions E jd houses) = true.
Proof.
  intro Hc. rewrite getAllPositions_entries. apply forallb_forall.
  intros e He. apply in_map_iff in He. destruct He as [pl [<- _]].
  unfold zodiacHit. cbn [snd p_sign].
  destruct (Hc (pl_swe pl)) as [H0 H1].
  pose proof (signIndex_range _ H0 H1) as R.
  destruct (nth_error_SIGNS _ R) as [s [Es Hin]].
  unfold getSign.
  replace (signIndex (longitude (swe_calc_ut E jd (pl_swe pl))) <? 0)%Z
    with false by (symmetry; apply Z.ltb_ge; lia).
  rewrite Es. apply existsb_exists. exists s.
  split; [exact Hin | apply String.eqb_refl].
Qed.

(** X19: when the ephemeris keeps its contract (every longitude in
    [0,360)), each of the twelve bodies is counted once in either
    distribution of the flat response: the four elements sum to 12 and so
    do the three modes. *)
Theorem flat_response_totals (E : ephemeris) (req : Flat.request)
  (d t : string) (Hd : Flat.date req = Some d) (Ht : Flat.time req = Some t)
  (Hc : forall jd b, 0 <= longitude (swe_calc_ut E jd b)
                     /\ longitude (swe_calc_ut E jd b) < 360) :
  exists r,
    Flat.natalChartHandler E req = Ok r
    /\ numIs (elementalTotal (Flat.elemental_distribution r)) 12
    /\ numIs (modalTotal (Flat.modal_distribution r)) 12.
Proof.
  eexists. split; [apply (flat_handler_ok E req d t Hd Ht)|].
  cbn [Flat.elemental_distribution Flat.modal_distribution].
  pose proof (elemental_total_count
                (getAllPositions E (flatJd E req d t) (flatHouses E req d t)))
    as Te.
  pose proof (modal_total_count
                (getAllPositions E (flatJd E req d t) (flatHouses E req d t)))
    as Tm.
  rewrite (filter_all _ _ (in_contract_zodiac E _ _ (Hc _))) in Te, Tm.
  rewrite getAllPositions_entries, length_map in Te, Tm.
  split; assumption.
Qed.

Lemma steady_in_contract :
  forall (jd : JD steadyEphemeris) (b : body),
    0 <= longitude (swe_calc_ut steadyEphemeris jd b)
    /\ longitude (swe_calc_ut steadyEphemeris jd b) < 360.
Proof.
  intros jd b. destruct b; split; simpl; first [discriminate | reflexivity].
Defined.

Lemma flat_response_totals_witness :
  Flat.date sampleFlatRequest = Some "2000-01-15"
  /\ Flat.time sampleFlatRequest = Some "10:00"
  /\ (forall (jd : JD steadyEphemeris) (b : body),
        0 <= longitude (swe_calc_ut steadyEphemeris jd b)
        /\ longitude (swe_calc_ut steadyEphemeris jd b) < 360)
  /\ exists r,
       Flat.natalChartHandler steadyEphemeris sampleFlatRequest = Ok r
       /\ numIs (elementalTotal (Flat.elemental_distribution r)) 12
       /\ numIs (modalTotal (Flat.modal_distribution r)) 12.
Proof.
  split; [reflexivity | split; [reflexivity | split; [exact steady_in_contract |]]].
  exact (flat_response_totals steadyEphemeris sampleFlatRequest
           "2000-01-15" "10:00" eq_refl eq_refl steady_in_contract).
Defined.

Lemma deleteAbsDegree_keys (o : obj position) :
  keys (Flat.deleteAbsDegree o) = keys o.
Proof.
  unfold keys, Flat.deleteAbsDegree. rewrite map_map. reflexivity.
Qed.

Lemma deleteAbsDegree_noLongitude (o : obj position) :
  noLongitude (Flat.deleteAbsDegree o) = true.
Proof.
  unfold noLongitude, Flat.deleteAbsDegree.
  induction o as [|e o IH]; simpl; [reflexivity | exact IH].
Qed.

Lemma getAllPositions_keys (E : ephemeris) (jd : JD E)
                           (houses : option housesData) :
  keys (getAllPositions E jd houses) = map pl_name PLANETS.
Proof. reflexivity. Qed.

(** X20: a response of the flat handler lists the twelve bodies once each,
    in the order of the catalog, and never shows the absolute longitude of
    one: the field is deleted from the natal and from the transit
    positions.  The transit part is there exactly when both transit fields
    are non-empty. *)
Theorem flat_response_shape (E : ephemeris) (req : Flat.request)
  (d t : string) (Hd : Flat.date req = Some d) (Ht : Flat.time req = Some t) :
  exists r,
    Flat.natalChartHandler E req = Ok r
    /\ keys (Flat.positions r) = map pl_name PLANETS
    /\ noLongitude (Flat.positions r) = true
    /\ (forall tr, Flat.transits r = Some tr ->
          keys tr = map pl_name PLANETS /\ noLongitude tr = true)
    /\ (Flat.transits r <> None
        <-> truthyField (Flat.transit_date req)
            && truthyField (Flat.transit_time req) = true).
Proof.
  eexists. split; [apply (flat_handler_ok E req d t Hd Ht)|].
  cbn [Flat.positions Flat.transits].
  split; [rewrite deleteAbsDegree_keys; apply getAllPositions_keys|].
  split; [apply deleteAbsDegree_noLongitude|].
  unfold flatTransits.
  destruct (Flat.transit_date req) as [tda|],
           (Flat.transit_time req) as [tti|]; cbn [truthyField].
  - destruct (truthyString tda && truthyString tti).
    + split.
      * intros tr Htr.
        assert (Etr : tr = Flat.deleteAbsDegree
                             (getTransits E (flatJd E req d t)
                                (toJulianDay E
                                   (parseDateTime tda tti
                                      (Flat.transit_timezone req)))))
          by congruence.
        rewrite Etr. split;
          [rewrite deleteAbsDegree_keys; apply getAllPositions_keys
          | apply deleteAbsDegree_noLongitude].
      * split; [reflexivity | discriminate].
    + split; [discriminate|]. split; [congruence | discriminate].
  - rewrite andb_false_r. split; [discriminate|].
    split; [congruence | discriminate].
  - split; [discriminate|]. split; [congruence | discriminate].
  - split; [discriminate|]. split; [congruence | discriminate].
Qed.

Lemma flat_response_shape_witness :
  Flat.date sampleFlatRequest = Some "2000-01-15"
  /\ Flat.time sampleFlatRequest = Some "10:00"
  /\ exists r,
       Flat.natalChartHandler sampleEphemeris sampleFlatRequest = Ok r
       /\ keys (Flat.positions r) = map pl_name PLANETS
       /\ noLongitude (Flat.positions r) = true
       /\ (forall tr, Flat.transits r = Some tr ->
             keys tr = map pl_name PLANETS /\ noLongitude tr = true)
       /\ (Flat.transits r <> None
           <-> truthyField (Flat.transit_date sampleFlatRequest)
               && truthyField (Flat.transit_time sampleFlatRequest) = true).
Proof.
  split; [reflexivity | split; [reflexivity |]].
  exact (flat_response_shape sampleEphemeris sampleFlatRequest
           "2000-01-15" "10:00" eq_refl eq_refl).
Defined.

Opaque getAllPositions getAspects getElementalDistribution
       getModalDistribution getTransits parseDateTime.

(** X21: the transit fields do not touch the natal part of the flat
    response.  Take a body and the same body with any other JSON values
    for the transit date, time and timezone.  When the handler answers
    both, the two responses hold the same positions, aspects,
    distributions and houses.  It answers one and fails the other only
    when the transit fields of the failing body are both truthy and not
    both strings. *)
Theorem natal_part_ignores_transit (E : ephemeris) (req : FlatJson.request)
  (tda tti : jsonField) (ttz : tzValue) :
  match FlatJson.natalChartHandler E req,
        FlatJson.natalChartHandler E (withTransitJson req tda tti ttz) with
  | Ok r, Ok r' => natalPart r = natalPart r'
  | Ok _, Error500 => unreadable tda tti = true
  | Error500, Ok _ =>
      unreadable (FlatJson.transit_date req) (FlatJson.transit_time req)
      = true
  | Error500, Error500 => True
  end.
Proof.
  unfold FlatJson.natalChartHandler, withTransitJson, unreadable, natalPart.
  cbn [FlatJson.date FlatJson.time FlatJson.lat FlatJson.lon
       FlatJson.transit_date FlatJson.transit_time FlatJson.hsys
       FlatJson.timezone FlatJson.transit_timezone].
  destruct (FlatJson.date req) as [|d|bd], (FlatJson.time req) as [|t|bt];
    cbn [parseDateTimeJson]; try exact I.
  destruct (FlatJson.transit_date req) as [|td|btd],
           (FlatJson.transit_time req) as [|tt|btt],
           tda as [|td'|btd'], tti as [|tt'|btt'];
    cbn [truthyJson isString andb negb parseDateTimeJson];
    repeat match goal with
           | |- context [truthyString ?s] => destruct (truthyString s)
           | b : bool |- _ => destruct b
           end;
    cbn [andb negb Flat.positions Flat.aspects Flat.elemental_distribution
         Flat.modal_distribution Flat.houses];
    first [ reflexivity | exact I ].
Qed.

Transparent getAllPositions getAspects getElementalDistribution
            getModalDistribution getTransits parseDateTime.

(** X22: the cusps the flat variant places bodies with are those of the
    result of the house lookup ([cusps], else [house]); when the result has
    none, the [house] array of the error slot is used, and when that is
    missing too there are no cusps. *)
Theorem flat_cusps_fall_back (E : ephemeris) (jd : JD E) (la lo : Q)
                             (hsys : option string) :
  cuspsOf (Flat.getHousesWithError E jd la lo hsys)
  = orElse
      (match snd (swe_houses E jd la lo
                    (match hsys with Some h => h | None => "P" end)) with
       | Some r => orElse (r_cusps r) (r_house r)
       | None => None
       end)
      (match fst (swe_houses E jd la lo
                    (match hsys with Some h => h | None => "P" end)) with
       | Some e => r_house e
       | None => None
       end).
Proof.
  unfold Flat.getHousesWithError.
  destruct (swe_houses E jd la lo _) as [err result]. cbn [fst snd].
  destruct result as [r|].
  - destruct (orElse (r_cusps r) (r_house r)) as [c|]; [reflexivity|].
    destruct err as [e|]; reflexivity.
  - destruct err as [e|]; reflexivity.
Qed.

(* ------------------------------------------------------------------ *)
(** ** The structured handler *)

Opaque positionsLoop absLoop getAspects aspectsToNatal toFixed2 getSign
       parseDateTime.

(** The response of the structured handler when the effective birth [date]
    and [time] are there. *)
Lemma structured_handler_ok (E : ephemeris) (req : Structured.request)
                            (d t : string) :
  Structured.b_date (Structured.birthDataOf req) = Some d ->
  Structured.b_time (Structured.birthDataOf req) = Some t ->
  Structured.natalChartHandler E req
  = Ok (Structured.mkResponse
          (Structured.mkNatal
             (Structured.angleOf
                (match structHouses E req d t with
                 | Some hd => hd_ascendant hd
                 | None => None
                 end))
             (Structured.angleOf
                (match structHouses E req d t with
                 | Some hd => hd_midheaven hd
                 | None => None
                 end))
             (match natalCusps (structHouses E req d t) with
              | Some c => Some (map toFixed2 c)
              | None => None
              end)
             (positionsLoop E (structJd E req d t)
                            (structHouses E req d t) true)
             (getAspects (structNatalAbs E req d t)))
          (structTransit E req d t)).
Proof.
  intros Hd Ht.
  unfold Structured.natalChartHandler, structTransit, structNatalAbs,
    structHouses, structJd, natalCusps.
  rewrite Hd, Ht. cbn [parseDateTimeFields].
  destruct (Structured.transit_chart req) as [tc|]; [|reflexivity].
  unfold Structured.transitPass.
  destruct (Structured.tc_date tc) as [tda|],
           (Structured.tc_time tc) as [tti|]; cbn [truthyField].
  - destruct (truthyString tda && truthyString tti); reflexivity.
  - rewrite andb_false_r. reflexivity.
  - reflexivity.
  - reflexivity.
Qed.

(** On a body whose fields are strings or missing the structured handler
    on JSON bodies is the typed handler. *)
Lemma structured_json_typed (E : ephemeris) (req : Structured.request) :
  StructuredJson.natalChartHandler E (StructuredJson.ofTyped req)
  = Structured.natalChartHandler E req.
Proof.
  assert (T : forall s, truthyJson (fieldOf s) = truthyField s)
    by (intros [s|]; reflexivity).
  assert (S : forall s, stringOf (fieldOf s) = s)
    by (intros [s|]; reflexivity).
  assert (P : forall d t tz,
             parseDateTimeJson (fieldOf d) (fieldOf t) tz
             = parseDateTimeFields d t tz)
    by (intros [d|] [t|] tz; reflexivity).
  assert (B : StructuredJson.birthDataOf (StructuredJson.ofTyped req)
              = StructuredJson.ofTypedBirth (Structured.birthDataOf req)).
  { unfold StructuredJson.birthDataOf, Structured.birthDataOf,
      StructuredJson.ofTyped.
    cbn [StructuredJson.birth StructuredJson.body_date
         StructuredJson.body_time StructuredJson.body_timezone
         StructuredJson.body_lat StructuredJson.body_lon].
    destruct (Structured.birth req) as [b|]; cbn [option_map].
    - unfold StructuredJson.ofTypedBirth at 1. cbn [StructuredJson.b_date].
      rewrite !T.
      destruct (negb (truthyField (Structured.b_date b))
                && truthyField (Structured.body_date req)); reflexivity.
    - cbn [StructuredJson.emptyBirth StructuredJson.b_date truthyJson
           Structured.emptyBirth Structured.b_date truthyField negb andb].
      rewrite T.
      destruct (truthyField (Structured.body_date req)); reflexivity. }
  unfold StructuredJson.natalChartHandler, Structured.natalChartHandler.
  cbv zeta. rewrite B.
  unfold StructuredJson.ofTypedBirth at 1 2 3.
  cbn [StructuredJson.b_date StructuredJson.b_time StructuredJson.b_timezone].
  rewrite P.
  destruct (parseDateTimeFields _ _ _) as [birthDT|]; [|reflexivity].
  change (StructuredJson.hsysOf (StructuredJson.ofTyped req))
    with (Structured.hsysOf req).
  change (StructuredJson.coordOf Structured.loc_lat
            (StructuredJson.ofTypedBirth (Structured.birthDataOf req))
            (StructuredJson.body_lat (StructuredJson.ofTyped req)))
    with (Structured.coordOf Structured.loc_lat (Structured.birthDataOf req)
            (Structured.body_lat req)).
  change (StructuredJson.coordOf Structured.loc_lon
            (StructuredJson.ofTypedBirth (Structured.birthDataOf req))
            (StructuredJson.body_lon (StructuredJson.ofTyped req)))
    with (Structured.coordOf Structured.loc_lon (Structured.birthDataOf req)
            (Structured.body_lon req)).
  unfold StructuredJson.ofTyped at 1.
  cbn [StructuredJson.transit_chart].
  destruct (Structured.transit_chart req) as [tc|]; cbn [option_map];
    [|reflexivity].
  unfold StructuredJson.transitPass, Structured.transitPass,
    StructuredJson.ofTypedTransit.
  cbn [StructuredJson.tc_date StructuredJson.tc_time
       StructuredJson.tc_timezone].
  rewrite !T, P, S.
  destruct (truthyField (Structured.tc_date tc)
            && truthyField (Structured.tc_time tc)); [|reflexivity].
  destruct (parseDateTimeFields _ _ _); reflexivity.
Qed.

(** X23: the structured handler, on a body that may hold any JSON value in
    its date and time fields, answers with status 500 exactly when the
    date of the birth data it settles on is no string, or the time is no
    string, or the body has a transit chart whose date and time are both
    truthy and not both strings.  The birth data it settles on are the
    [birth] object when that holds a truthy date, the flat fields when it
    does not and the flat [date] is truthy, and the [birth] object again
    when neither date is truthy.  A [birth] object with a truthy date is
    never completed from the flat fields, so its missing [time] fails the
    request even if a flat [time] was sent. *)
Theorem structured_handler_fails_iff (E : ephemeris)
                                     (req : StructuredJson.request) :
  (StructuredJson.natalChartHandler E req = Error500
   <-> isString (StructuredJson.b_date (StructuredJson.birthDataOf req))
       = false
       \/ isString (StructuredJson.b_time (StructuredJson.birthDataOf req))
          = false
       \/ match StructuredJson.transit_chart req with
          | Some tc =>
              unreadable (StructuredJson.tc_date tc)
                         (StructuredJson.tc_time tc) = true
          | None => False
          end)
  /\ (truthyJson (StructuredJson.b_date (birthOrEmptyJson req)) = true ->
      StructuredJson.birthDataOf req = birthOrEmptyJson req)
  /\ (truthyJson (StructuredJson.b_date (birthOrEmptyJson req)) = false ->
      truthyJson (StructuredJson.body_date req) = true ->
      StructuredJson.b_date (StructuredJson.birthDataOf req)
      = StructuredJson.body_date req
      /\ StructuredJson.b_time (StructuredJson.birthDataOf req)
         = StructuredJson.body_time req)
  /\ (truthyJson (StructuredJson.b_date (birthOrEmptyJson req)) = false ->
      truthyJson (StructuredJson.body_date req) = false ->
      StructuredJson.birthDataOf req = birthOrEmptyJson req)
  /\ (truthyJson (StructuredJson.b_date (birthOrEmptyJson req)) = true ->
      isString (StructuredJson.b_time (birthOrEmptyJson req)) = false ->
      StructuredJson.natalChartHandler E req = Error500).
Proof.
  assert (B : StructuredJson.birthDataOf req
              = if negb (truthyJson
                           (StructuredJson.b_date (birthOrEmptyJson req)))
                   && truthyJson (StructuredJson.body_date req)
                then StructuredJson.mkBirth
                       (StructuredJson.body_date req)
                       (StructuredJson.body_time req)
                       (StructuredJson.body_timezone req)
                       (Some (Structured.mkLocation
                                (StructuredJson.body_lat req)
                                (StructuredJson.body_lon req)))
                else birthOrEmptyJson req) by reflexivity.
  assert (F : isString (StructuredJson.b_date
                          (StructuredJson.birthDataOf req)) = false
              \/ isString (StructuredJson.b_time
                             (StructuredJson.birthDataOf req)) = false ->
              StructuredJson.natalChartHandler E req = Error500).
  { unfold StructuredJson.natalChartHandler. cbv zeta.
    destruct (StructuredJson.b_date (StructuredJson.birthDataOf req))
      as [|d|bd],
      (StructuredJson.b_time (StructuredJson.birthDataOf req)) as [|t|bt];
      cbn [parseDateTimeJson isString]; try reflexivity.
    intros [H|H]; discriminate H. }
  split; [|split; [|split; [|split]]].
  - split.
    + unfold StructuredJson.natalChartHandler, unreadable. cbv zeta.
      destruct (StructuredJson.b_date (StructuredJson.birthDataOf req))
        as [|d|bd],
        (StructuredJson.b_time (StructuredJson.birthDataOf req))
        as [|t|bt];
        cbn [parseDateTimeJson isString]; auto.
      destruct (StructuredJson.transit_chart req) as [tc|];
        [|intro H; discriminate H].
      unfold StructuredJson.transitPass.
      destruct (StructuredJson.tc_date tc) as [|td|btd],
               (StructuredJson.tc_time tc) as [|tt|btt];
        cbn [truthyJson isString andb negb parseDateTimeJson];
        repeat match goal with
               | |- context [truthyString ?s] => destruct (truthyString s)
               | b : bool |- _ => destruct b
               end;
        cbn [andb negb]; intro H; try discriminate H; auto.
    + intros [H|[H|H]]; [apply F; now left | apply F; now right |].
      unfold StructuredJson.natalChartHandler. cbv zeta.
      destruct (parseDateTimeJson _ _ _) as [birthDT|]; [|reflexivity].
      destruct (StructuredJson.transit_chart req) as [tc|];
        [|contradiction].
      unfold unreadable in H. unfold StructuredJson.transitPass.
      destruct (StructuredJson.tc_date tc) as [|td|btd],
               (StructuredJson.tc_time tc) as [|tt|btt];
        cbn [truthyJson isString andb negb parseDateTimeJson] in *;
        repeat match goal with
               | H : context [truthyString ?s] |- _ =>
                   destruct (truthyString s)
               | b : bool |- _ => destruct b
               end;
        cbn [andb negb] in *; try discriminate H; reflexivity.
  - intro H. rewrite B, H. reflexivity.
  - intros H1 H2. rewrite B, H1, H2. split; reflexivity.
  - intros H1 H2. rewrite B, H2. rewrite andb_false_r. reflexivity.
  - intros H1 H2. apply F. right. rewrite B, H1. exact H2.
Qed.

(** The two structured bodies with a number for a date, evaluated: status
    500 for each; the first fails although its flat fields hold a date
    and a time. *)
Example numeric_birth_date_fails :
  StructuredJson.natalChartHandler sampleEphemeris numericBirthBody
  = Error500
  /\ StructuredJson.natalChartHandler sampleEphemeris
       numericTransitChartBody
     = Error500.
Proof. split; reflexivity. Qed.

Transparent positionsLoop absLoop getAspects aspectsToNatal toFixed2 getSign
            parseDateTime.

(** X24: an ascendant of exactly 0 degrees counts as missing: the
    structured variant reads [data.ascendant || ascmc[0]], so it answers
    with the first entry of [ascmc] instead, and with no ascendant at all
    ([null] in the response) when the lookup gives no [ascmc]. *)
Theorem ascendant_zero_is_dropped
  (E : ephemeris) (jd : JD E) (la lo : Q) (hsys : string)
  (err : option housesRaw) (r : housesRaw) (a : Q)
  (Hs : swe_houses E jd la lo hsys = (err, Some r))
  (Ha : r_ascendant r = Some a) (Hz : a == 0) :
  hd_ascendant (Structured.getHousesWithError E jd la lo hsys)
  = nth_error (match r_ascmc r with Some l => l | None => [] end) 0
  /\ (r_ascmc r = None ->
      Structured.angleOf
        (hd_ascendant (Structured.getHousesWithError E jd la lo hsys))
      = None).
Proof.
  assert (A : hd_ascendant (Structured.getHousesWithError E jd la lo hsys)
              = nth_error (match r_ascmc r with Some l => l | None => [] end)
                          0).
  { unfold Structured.getHousesWithError. rewrite Hs.
    cbn [orElse hd_ascendant]. rewrite Ha. unfold orNum.
    apply Qeq_bool_iff in Hz. rewrite Hz. reflexivity. }
  split; [exact A|]. intro Hn. rewrite A, Hn. reflexivity.
Qed.

Lemma ascendant_zero_is_dropped_witness :
  swe_houses zeroAscEphemeris (Fin 15) 48 2 "P"
  = (None, Some (mkRaw (Some 0) (Some 270) None (Some sampleCusps) None))
  /\ r_ascendant (mkRaw (Some 0) (Some 270) None (Some sampleCusps) None)
     = Some 0
  /\ 0 == 0
  /\ (hd_ascendant
        (Structured.getHousesWithError zeroAscEphemeris (Fin 15) 48 2 "P")
      = nth_error
          (match r_ascmc (mkRaw (Some 0) (Some 270) None (Some sampleCusps)
                                None) with
           | Some l => l
           | None => []
           end) 0
      /\ (r_ascmc (mkRaw (Some 0) (Some 270) None (Some sampleCusps) None)
          = None ->
          Structured.angleOf
            (hd_ascendant
               (Structured.getHousesWithError zeroAscEphemeris (Fin 15)
                  48 2 "P"))
          = None)).
Proof.
  split; [reflexivity | split; [reflexivity | split; [reflexivity |]]].
  exact (ascendant_zero_is_dropped zeroAscEphemeris (Fin 15) 48 2 "P" None
           (mkRaw (Some 0) (Some 270) None (Some sampleCusps) None) 0
           eq_refl eq_refl (Qeq_refl 0)).
Defined.

Lemma positionsLoop_entries (E : ephemeris) (jd : JD E)
                            (houses : option housesData) (withRetro : bool) :
  positionsLoop E jd houses withRetro
  = map (fun pl =>
           (structuredName pl,
            {| p_sign := getSign (longitude (swe_calc_ut E jd (pl_swe pl)));
               p_degree :=
                 Some (toFixed2
                         (jsmod (longitude (swe_calc_ut E jd (pl_swe pl)))
                                30));
               p_house := houseOf (natalCusps houses)
                            (longitude (swe_calc_ut E jd (pl_swe pl)));
               p_absDegree := None;
               p_retrograde :=
                 if withRetro
                 then Some (Qlt_bool (speed (swe_calc_ut E jd (pl_swe pl))) 0)
                 else None |}))
        PLANETS.
Proof. reflexivity. Qed.

Lemma absLoop_entries (E : ephemeris) (jd jd' : JD E)
                      (houses : option housesData) (withRetro : bool) :
  absLoop E jd (positionsLoop E jd' houses withRetro)
  = map (fun pl =>
           (structuredName pl,
            at_longitude (longitude (swe_calc_ut E jd (pl_swe pl)))))
        PLANETS.
Proof. reflexivity. Qed.

Lemma Forall2_rounded (cs : list Q) :
  Forall2 (fun c h => (exists z : Z, h == inject_Z z / 100)
                      /\ Qabs (h - c) <= 1 # 200)
          cs (map toFixed2 cs).
Proof.
  induction cs as [|c cs IH]; simpl; constructor;
    [split; [apply toFixed2_hundredths | apply toFixed2_error] | exact IH].
Qed.

(** X25: the structured response reports the house cusps rounded to two
    decimals: as many as the lookup gave, in the same order, each a whole
    number of hundredths within 0.005 of the cusp the lookup gave; and it
    places the bodies with the cusps as given, not with the rounded
    ones. *)
Theorem reported_cusps_are_rounded (E : ephemeris) (req : Structured.request)
  (d t : string)
  (Hd : Structured.b_date (Structured.birthDataOf req) = Some d)
  (Ht : Structured.b_time (Structured.birthDataOf req) = Some t) :
  exists r,
    Structured.natalChartHandler E req = Ok r
    /\ match natalCusps (structHouses E req d t) with
       | Some cs =>
           exists hs,
             Structured.houses (Structured.natal_chart r) = Some hs
             /\ Forall2 (fun c h => (exists z : Z, h == inject_Z z / 100)
                                    /\ Qabs (h - c) <= 1 # 200) cs hs
       | None => Structured.houses (Structured.natal_chart r) = None
       end
    /\ housesOf (Structured.planets (Structured.natal_chart r))
       = map (fun pl =>
                houseOf (natalCusps (structHouses E req d t))
                        (longitude
                           (swe_calc_ut E (structJd E req d t) (pl_swe pl))))
             PLANETS.
Proof.
  eexists. split; [apply (structured_handler_ok E req d t Hd Ht)|].
  cbn [Structured.natal_chart Structured.houses Structured.planets].
  split; [|apply positionsLoop_houses].
  destruct (natalCusps (structHouses E req d t)) as [cs|]; [|reflexivity].
  exists (map toFixed2 cs). split; [reflexivity | apply Forall2_rounded].
Qed.

Lemma reported_cusps_are_rounded_witness :
  Structured.b_date (Structured.birthDataOf sampleStructuredRequest)
  = Some "2000-01-15"
  /\ Structured.b_time (Structured.birthDataOf sampleStructuredRequest)
     = Some "10:00"
  /\ exists r,
       Structured.natalChartHandler fineCuspsEphemeris sampleStructuredRequest
       = Ok r
       /\ match natalCusps (structHouses fineCuspsEphemeris
                              sampleStructuredRequest "2000-01-15" "10:00")
          with
          | Some cs =>
              exists hs,
                Structured.houses (Structured.natal_chart r) = Some hs
                /\ Forall2 (fun c h =>
                              (exists z : Z, h == inject_Z z / 100)
                              /\ Qabs (h - c) <= 1 # 200) cs hs
          | None => Structured.houses (Structured.natal_chart r) = None
          end
       /\ housesOf (Structured.planets (Structured.natal_chart r))
          = map (fun pl =>
                   houseOf (natalCusps (structHouses fineCuspsEphemeris
                                          sampleStructuredRequest
                                          "2000-01-15" "10:00"))
                           (longitude
                              (swe_calc_ut fineCuspsEphemeris
                                 (structJd fineCuspsEphemeris
                                    sampleStructuredRequest
                                    "2000-01-15" "10:00")
                                 (pl_swe pl))))
                PLANETS.
Proof.
  split; [reflexivity | split; [reflexivity |]].
  exact (reported_cusps_are_rounded fineCuspsEphemeris sampleStructuredRequest
           "2000-01-15" "10:00" eq_refl eq_refl).
Defined.

(** The cusps of [fineCuspsEphemeris] evaluated: the response reports
    15.13 for the cusp 15.126 and 45.38 for 45.376, and the body at
    15.1275 stays in the first house, which begins at 15.126; with the
    reported cusp 15.13 it would fall before it. *)
Example rounded_cusps_scenario :
  match Structured.natalChartHandler fineCuspsEphemeris sampleStructuredRequest with
  | Ok r =>
      match Structured.houses (Structured.natal_chart r) with
      | Some (h1 :: h2 :: _) => h1 == 1513 # 100 /\ h2 == 4538 # 100
      | _ => False
      end
      /\ hd None (housesOf (Structured.planets (Structured.natal_chart r)))
         = Some 1%nat
      /\ houseOf (Some (map toFixed2 fineCusps)) (151275 # 10000)
         = Some 12%nat
  | Error500 => False
  end.
Proof. vm_compute. repeat split; reflexivity. Qed.

(** X26: a structured response lists the twelve bodies once each, in the
    order of the catalog, under the names Sun, Moon, Mercury, Venus, Mars,
    Jupiter, Saturn, Uranus, Neptune, Pluto, Chiron and NorthNode (the
    catalog's [North Node] without its space), never with an absolute
    longitude; every natal body carries a flag [retrograde] and no transit
    body carries one. *)
Theorem structured_response_shape (E : ephemeris) (req : Structured.request)
  (d t : string)
  (Hd : Structured.b_date (Structured.birthDataOf req) = Some d)
  (Ht : Structured.b_time (Structured.birthDataOf req) = Some t) :
  exists r,
    Structured.natalChartHandler E req = Ok r
    /\ keys (Structured.planets (Structured.natal_chart r))
       = [ "Sun"; "Moon"; "Mercury"; "Venus"; "Mars"; "Jupiter"; "Saturn";
           "Uranus"; "Neptune"; "Pluto"; "Chiron"; "NorthNode" ]
    /\ noLongitude (Structured.planets (Structured.natal_chart r)) = true
    /\ (forall k p,
          In (k, p) (Structured.planets (Structured.natal_chart r)) ->
          exists b : bool, p_retrograde p = Some b)
    /\ forall tr, Structured.transit_result r = Some tr ->
         keys (Structured.tr_planets tr)
         = [ "Sun"; "Moon"; "Mercury"; "Venus"; "Mars"; "Jupiter"; "Saturn";
             "Uranus"; "Neptune"; "Pluto"; "Chiron"; "NorthNode" ]
         /\ noLongitude (Structured.tr_planets tr) = true
         /\ (forall k p, In (k, p) (Structured.tr_planets tr) ->
               p_retrograde p = None).
Proof.
  eexists. split; [apply (structured_handler_ok E req d t Hd Ht)|].
  cbn [Structured.natal_chart Structured.planets Structured.transit_result].
  split; [reflexivity|]. split; [reflexivity|]. split.
  - intros k p Hin. rewrite positionsLoop_entries in Hin.
    apply in_map_iff in Hin. destruct Hin as [pl [Hp _]].
    inversion Hp. eexists. reflexivity.
  - intros tr Htr. unfold structTransit in Htr.
    destruct (Structured.transit_chart req) as [tc|]; [|discriminate Htr].
    destruct (Structured.tc_date tc) as [tda|]; [|discriminate Htr].
    destruct (Structured.tc_time tc) as [tti|]; [|discriminate Htr].
    destruct (truthyString tda && truthyString tti); [|discriminate Htr].
    cbv zeta in Htr.
    assert (Etr : Structured.tr_planets tr
                  = positionsLoop E
                      (toJulianDay E
                         (parseDateTime tda tti (Structured.tc_timezone tc)))
                      (structHouses E req d t) false).
    { destruct tr as [trd trp tra]. cbn [Structured.tr_planets].
      congruence. }
    rewrite Etr. split; [reflexivity|]. split; [reflexivity|].
    intros k p Hin. rewrite positionsLoop_entries in Hin.
    apply in_map_iff in Hin. destruct Hin as [pl [Hp _]].
    inversion Hp. reflexivity.
Qed.

Lemma structured_response_shape_witness :
  Structured.b_date (Structured.birthDataOf sampleReturnRequest)
  = Some "2000-01-15"
  /\ Structured.b_time (Structured.birthDataOf sampleReturnRequest)
     = Some "10:00"
  /\ exists r,
       Structured.natalChartHandler sampleEphemeris sampleReturnRequest
       = Ok r
       /\ keys (Structured.planets (Structured.natal_chart r))
          = [ "Sun"; "Moon"; "Mercury"; "Venus"; "Mars"; "Jupiter";
              "Saturn"; "Uranus"; "Neptune"; "Pluto"; "Chiron";
              "NorthNode" ]
       /\ noLongitude (Structured.planets (Structured.natal_chart r)) = true
       /\ (forall k p,
             In (k, p) (Structured.planets (Structured.natal_chart r)) ->
             exists b : bool, p_retrograde p = Some b)
       /\ forall tr, Structured.transit_result r = Some tr ->
            keys (Structured.tr_planets tr)
            = [ "Sun"; "Moon"; "Mercury"; "Venus"; "Mars"; "Jupiter";
                "Saturn"; "Uranus"; "Neptune"; "Pluto"; "Chiron";
                "NorthNode" ]
            /\ noLongitude (Structured.tr_planets tr) = true
            /\ (forall k p, In (k, p) (Structured.tr_planets tr) ->
                  p_retrograde p = None).
Proof.
  split; [reflexivity | split; [reflexivity |]].
  exact (structured_response_shape sampleEphemeris sampleReturnRequest
           "2000-01-15" "10:00" eq_refl eq_refl).
Defined.

(* ------------------------------------------------------------------ *)
(** ** Transit against natal *)

Lemma in_aspectsToNatal (natalAbs transitAbs : obj position) (m : aspect) :
  In m (aspectsToNatal natalAbs transitAbs) <->
  exists n t,
    In n natalAbs /\ In t transitAbs
    /\ In m (pairAspects ("Natal " ++ fst n) ("Transit " ++ fst t)
                         (p_absDegree (snd n)) (p_absDegree (snd t))).
Proof.
  unfold aspectsToNatal. rewrite in_flat_map. split.
  - intros [n [Hn Hm]]. apply in_flat_map in Hm.
    destruct Hm as [t [Ht Hm]]. exists n, t. auto.
  - intros [n [t [Hn [Ht Hm]]]]. exists n. split; [exact Hn|].
    apply in_flat_map. exists t. auto.
Qed.

Lemma cross_row_length (n : string * position) (transitAbs : obj position) :
  (List.length
     (flat_map (fun t : string * position =>
                  pairAspects ("Natal " ++ fst n) ("Transit " ++ fst t)
                              (p_absDegree (snd n)) (p_absDegree (snd t)))
               transitAbs) <= List.length transitAbs)%nat.
Proof.
  induction transitAbs as [|t rest IH]; cbn [flat_map List.length]; [lia|].
  rewrite length_app.
  pose proof (pairAspects_le1 ("Natal " ++ fst n) ("Transit " ++ fst t)
                (p_absDegree (snd n)) (p_absDegree (snd t))). lia.
Qed.

(** X27: the cross pass pairs every natal body with every transit body,
    the same body included, and nothing else: it holds a match exactly for
    an entry of the natal mapping and an entry of the transit mapping that
    both hold a longitude and a catalog entry whose angle their separation
    meets within the orb; the match carries the type of that entry, the
    natal key behind [Natal ] and the transit key behind [Transit ], in
    that order, and the rounded distance from the exact angle.  There are
    at most as many matches as pairs. *)
Theorem cross_aspects_pair_the_two_sets
  (natalAbs transitAbs : obj position) :
  (forall m, In m (aspectsToNatal natalAbs transitAbs) <->
     exists kn pn kt pt a b asp,
       In (kn, pn) natalAbs /\ In (kt, pt) transitAbs
       /\ p_absDegree pn = Some a /\ p_absDegree pt = Some b
       /\ In asp aspectTypes
       /\ Qabs (separation a b - at_angle asp) <= at_orb asp
       /\ m = mkAspect (at_type asp) ("Natal " ++ kn, "Transit " ++ kt)
                       (toFixed2 (Qabs (separation a b - at_angle asp))))
  /\ (List.length (aspectsToNatal natalAbs transitAbs)
      <= List.length natalAbs * List.length transitAbs)%nat.
Proof.
  split.
  - intro m. rewrite in_aspectsToNatal. split.
    + intros [[kn pn] [[kt pt] [Hn [Ht Hm]]]]. cbn [fst snd] in Hm.
      apply in_pairAspects in Hm.
      destruct Hm as [x [y [asp [Hx [Hy [Hin [Hmatch ->]]]]]]].
      exists kn, pn, kt, pt, x, y, asp.
      apply Qle_bool_iff in Hmatch. auto 8.
    + intros [kn [pn [kt [pt [a [b [asp
                [Hn [Ht [Ha [Hb [Hin [Hle ->]]]]]]]]]]]]].
      exists (kn, pn), (kt, pt). split; [exact Hn|]. split; [exact Ht|].
      cbn [fst snd]. apply in_pairAspects. exists a, b, asp.
      apply Qle_bool_iff in Hle. auto 8.
  - unfold aspectsToNatal.
    induction natalAbs as [|n rest IH]; cbn [flat_map List.length]; [lia|].
    rewrite length_app. pose proof (cross_row_length n transitAbs). lia.
Qed.

Lemma separation_self (a : Q) : separation a a == 0.
Proof.
  unfold separation.
  assert (Z0 : Qabs (a - a) == 0).
  { assert (E : a - a == 0) by ring. rewrite E. reflexivity. }
  destruct (Qlt_bool 180 (Qabs (a - a))) eqn:C; qcases.
  - rewrite Z0 in C. discriminate C.
  - exact Z0.
Qed.

Lemma self_conjunction (abs : obj position) (k : string) (p : position)
                       (a : Q) :
  In (k, p) abs -> p_absDegree p = Some a ->
  In (mkAspect "Conjunction" ("Natal " ++ k, "Transit " ++ k) 0)
     (aspectsToNatal abs abs).
Proof.
  intros Hin Ha. apply in_aspectsToNatal. exists (k, p), (k, p).
  split; [exact Hin|]. split; [exact Hin|]. cbn [fst snd].
  apply in_pairAspects.
  exists a, a, (mkAspectType "Conjunction" 0 8). cbn [at_type at_angle].
  assert (D : Qabs (separation a a - 0) == 0).
  { rewrite separation_self. reflexivity. }
  split; [exact Ha|]. split; [exact Ha|]. split; [left; reflexivity|].
  split.
  - unfold aspectMatches. cbn [at_angle at_orb]. apply Qle_bool_iff.
    rewrite D. discriminate.
  - rewrite (toFixed2_proper _ 0 D). reflexivity.
Qed.

(** X28: a transit chart for the birth moment itself (same date, time and
    timezone) shows every body conjunct its own natal place with orb 0:
    the structured response holds the match Conjunction between
    [Natal X] and [Transit X] for each of the twelve bodies. *)
Theorem transit_at_birth_moment (E : ephemeris) (req : Structured.request)
  (tc : Structured.transitChart) (d t : string)
  (Hd : Structured.b_date (Structured.birthDataOf req) = Some d)
  (Ht : Structured.b_time (Structured.birthDataOf req) = Some t)
  (Htc : Structured.transit_chart req = Some tc)
  (Htd : Structured.tc_date tc = Some d)
  (Htt : Structured.tc_time tc = Some t)
  (Htz : Structured.tc_timezone tc
         = Structured.b_timezone (Structured.birthDataOf req))
  (Hne : truthyString d && truthyString t = true) :
  exists r tr,
    Structured.natalChartHandler E req = Ok r
    /\ Structured.transit_result r = Some tr
    /\ forall pl, In pl PLANETS ->
         In (mkAspect "Conjunction"
                      ("Natal " ++ structuredName pl,
                       "Transit " ++ structuredName pl) 0)
            (Structured.aspects_to_natal tr).
Proof.
  eexists. eexists.
  split; [apply (structured_handler_ok E req d t Hd Ht)|].
  cbn [Structured.transit_result]. unfold structTransit.
  rewrite Htc, Htd, Htt, Hne, Htz. cbv zeta.
  split; [reflexivity|].
  cbn [Structured.aspects_to_natal]. unfold structNatalAbs.
  fold (structJd E req d t). rewrite !absLoop_entries.
  intros pl Hpl.
  apply (self_conjunction _ _
           (at_longitude
              (longitude (swe_calc_ut E (structJd E req d t) (pl_swe pl))))
           (longitude (swe_calc_ut E (structJd E req d t) (pl_swe pl)))).
  - apply in_map_iff. exists pl. split; [reflexivity | exact Hpl].
  - reflexivity.
Qed.

Lemma transit_at_birth_moment_witness :
  Structured.b_date (Structured.birthDataOf sampleReturnRequest)
  = Some "2000-01-15"
  /\ Structured.b_time (Structured.birthDataOf sampleReturnRequest)
     = Some "10:00"
  /\ Structured.transit_chart sampleReturnRequest
     = Some (Structured.mkTransitChart (Some "2000-01-15") (Some "10:00")
               (TzString "+05:30"))
  /\ truthyString "2000-01-15" && truthyString "10:00" = true
  /\ exists r tr,
       Structured.natalChartHandler sampleEphemeris sampleReturnRequest
       = Ok r
       /\ Structured.transit_result r = Some tr
       /\ forall pl, In pl PLANETS ->
            In (mkAspect "Conjunction"
                         ("Natal " ++ structuredName pl,
                          "Transit " ++ structuredName pl) 0)
               (Structured.aspects_to_natal tr).
Proof.
  do 4 (split; [reflexivity|]).
  exact (transit_at_birth_moment sampleEphemeris sampleReturnRequest
           (Structured.mkTransitChart (Some "2000-01-15") (Some "10:00")
              (TzString "+05:30"))
           "2000-01-15" "10:00"
           eq_refl eq_refl eq_refl eq_refl eq_refl eq_refl eq_refl).
Defined.

(* ------------------------------------------------------------------ *)
(** ** The two variants on the same request *)

Lemma row_types (ki kj : string) (a : option Q) (rest rest' : obj position) :
  longitudesOf rest = longitudesOf rest' ->
  map typeAndOrb
      (flat_map (fun e : string * position =>
                   pairAspects ki (fst e) a (p_absDegree (snd e))) rest)
  = map typeAndOrb
        (flat_map (fun e : string * position =>
                     pairAspects kj (fst e) a (p_absDegree (snd e))) rest').
Proof.
  revert rest'. induction rest as [|e rest IH]; intros [|e' rest'] H;
    try discriminate H; [reflexivity|].
  simpl in H. injection H as He Hr. simpl.
  rewrite !map_app, (IH rest' Hr), He. f_equal.
  unfold pairAspects. destruct a as [x|], (p_absDegree (snd e')) as [y|];
    try reflexivity.
  rewrite !map_map. reflexivity.
Qed.

(** The types and orbs of the matches depend on the longitudes only, not
    on the names of the bodies. *)
Lemma getAspects_types (ps ps' : obj position) :
  longitudesOf ps = longitudesOf ps' ->
  map typeAndOrb (getAspects ps) = map typeAndOrb (getAspects ps').
Proof.
  revert ps'. induction ps as [|[k p] rest IH]; intros [|[k' p'] rest'] H;
    try discriminate H; [reflexivity|].
  simpl in H. injection H as He Hr. simpl.
  rewrite !map_app, (IH rest' Hr), He.
  rewrite (row_types k k' (p_absDegree p') rest rest' Hr). reflexivity.
Qed.

Lemma legacy_birth (fr : Flat.request) :
  truthyField (Flat.date fr) = true ->
  Structured.birthDataOf (legacyRequest fr)
  = Structured.mkBirth (Flat.date fr) (Flat.time fr) (Flat.timezone fr)
      (Some (Structured.mkLocation (Flat.lat fr) (Flat.lon fr))).
Proof.
  intro H. unfold Structured.birthDataOf, legacyRequest.
  cbn [Structured.birth Structured.body_date Structured.b_date
       Structured.emptyBirth truthyField negb andb].
  rewrite H. reflexivity.
Qed.

(** X29: a request of the flat shape with a non-empty date gets the same
    natal chart from either variant: the same bodies with the same sign
    and degree, and matches of the same types and orbs in the same order;
    the structured variant, which reads the transit moment from
    [transit_chart] only, answers it without a transit part. *)
Theorem variants_agree_on_flat_request (E : ephemeris) (fr : Flat.request)
  (d t : string)
  (Hd : Flat.date fr = Some d) (Ht : Flat.time fr = Some t)
  (Hne : truthyString d = true) :
  exists rf rs,
    Flat.natalChartHandler E fr = Ok rf
    /\ Structured.natalChartHandler E (legacyRequest fr) = Ok rs
    /\ signsAndDegrees (Flat.positions rf)
       = signsAndDegrees (Structured.planets (Structured.natal_chart rs))
    /\ map typeAndOrb (Flat.aspects rf)
       = map typeAndOrb (Structured.aspects (Structured.natal_chart rs))
    /\ Structured.transit_result rs = None.
Proof.
  assert (Hb : Structured.birthDataOf (legacyRequest fr)
               = Structured.mkBirth (Some d) (Some t) (Flat.timezone fr)
                   (Some (Structured.mkLocation (Flat.lat fr) (Flat.lon fr)))).
  { rewrite legacy_birth by (rewrite Hd; exact Hne). rewrite Hd, Ht.
    reflexivity. }
  assert (Hsd : Structured.b_date (Structured.birthDataOf (legacyRequest fr))
                = Some d) by (rewrite Hb; reflexivity).
  assert (Hst : Structured.b_time (Structured.birthDataOf (legacyRequest fr))
                = Some t) by (rewrite Hb; reflexivity).
  assert (J : structJd E (legacyRequest fr) d t = flatJd E fr d t).
  { unfold structJd, flatJd. rewrite Hb. reflexivity. }
  eexists. eexists.
  split; [apply (flat_handler_ok E fr d t Hd Ht)|].
  split; [apply (structured_handler_ok E (legacyRequest fr) d t Hsd Hst)|].
  cbn [Flat.positions Flat.aspects Structured.natal_chart Structured.planets
       Structured.aspects Structured.transit_result].
  split; [|split].
  - rewrite J, getAllPositions_entries, positionsLoop_entries.
    unfold signsAndDegrees, Flat.deleteAbsDegree. rewrite !map_map.
    reflexivity.
  - apply getAspects_types. unfold structNatalAbs.
    rewrite J, getAllPositions_entries, absLoop_entries.
    unfold longitudesOf. rewrite !map_map. reflexivity.
  - reflexivity.
Qed.

Lemma variants_agree_on_flat_request_witness :
  Flat.date sampleFlatRequest = Some "2000-01-15"
  /\ Flat.time sampleFlatRequest = Some "10:00"
  /\ truthyString "2000-01-15" = true
  /\ exists rf rs,
       Flat.natalChartHandler sampleEphemeris sampleFlatRequest = Ok rf
       /\ Structured.natalChartHandler sampleEphemeris
            (legacyRequest sampleFlatRequest) = Ok rs
       /\ signsAndDegrees (Flat.positions rf)
          = signsAndDegrees (Structured.planets (Structured.natal_chart rs))
       /\ map typeAndOrb (Flat.aspects rf)
          = map typeAndOrb (Structured.aspects (Structured.natal_chart rs))
       /\ Structured.transit_result rs = None.
Proof.
  do 3 (split; [reflexivity|]).
  exact (variants_agree_on_flat_request sampleEphemeris sampleFlatRequest
           "2000-01-15" "10:00" eq_refl eq_refl eq_refl).
Defined.

(** X30: the two variants treat a degraded house lookup differently.  When
    the result slot holds no cusps and the error slot carries a [house]
    array, the flat variant places the bodies with that array, while the
    structured variant, which looks at the result slot alone once it is
    there, has no cusps and leaves every house [null]. *)
Theorem degraded_lookup_divides_the_variants
  (E : ephemeris) (jd : JD E) (la lo : Q) (hsys : string)
  (e r : housesRaw) (c : list Q)
  (Hs : swe_houses E jd la lo hsys = (Some e, Some r))
  (Hc : r_cusps r = None) (Hh : r_house r = None)
  (He : r_house e = Some c) :
  cuspsOf (Flat.getHousesWithError E jd la lo (Some hsys)) = Some c
  /\ natalCusps (Some (Structured.getHousesWithError E jd la lo hsys)) = None.
Proof.
  split.
  - unfold Flat.getHousesWithError. rewrite Hs, Hc, Hh.
    cbn [orElse cuspsOf hd_cusps hd_detail]. exact He.
  - unfold Structured.getHousesWithError. rewrite Hs.
    cbn [orElse natalCusps hd_cusps]. rewrite Hc, Hh. reflexivity.
Qed.

Lemma degraded_lookup_divides_the_variants_witness :
  swe_houses degradedEphemeris (Fin 15) 48 2 "P"
  = (Some (mkRaw None None None None (Some sampleCusps)),
     Some (mkRaw None None None None None))
  /\ r_cusps (mkRaw None None None None None) = None
  /\ r_house (mkRaw None None None None None) = None
  /\ r_house (mkRaw None None None None (Some sampleCusps)) = Some sampleCusps
  /\ (cuspsOf (Flat.getHousesWithError degradedEphemeris (Fin 15) 48 2
                 (Some "P")) = Some sampleCusps
      /\ natalCusps
           (Some (Structured.getHousesWithError degradedEphemeris (Fin 15)
                    48 2 "P")) = None).
Proof.
  do 4 (split; [reflexivity|]).
  exact (degraded_lookup_divides_the_variants degradedEphemeris (Fin 15) 48 2
           "P" (mkRaw None None None None (Some sampleCusps))
           (mkRaw None None None None None) sampleCusps
           eq_refl eq_refl eq_refl eq_refl).
Defined.
